(** * Registrar document-request simulation: the scheduling engine

    A shallow embedding of [backend/scheduler_engine.py]: the request and
    staff records, the priority score, the four allocators, the synthetic
    workload generator, the processing loop of [SimulationEngine.run] and
    the metrics report.

    Conventions of the model.
    - A [datetime] is an integer number of microseconds on the time line and
      a [timedelta] an integer number of microseconds; this is the resolution
      Python's [datetime] has. The time line of the model is unbounded:
      Python's [datetime] ends with the years 1 and 9999 and raises
      [OverflowError] beyond, which the model does not. Statements that
      predict what a call returns or raises therefore bound the duration
      ([duration_in_range]).
    - Python floats are modelled by exact rationals ([Q]): the decimal
      constants of the source are the rationals they denote and no rounding
      error is modelled. Within [duration_in_range] the offsets of the
      generated requests are the same microsecond in both.
    - [str.upper()] is modelled on ASCII strings ([is_ascii]), where it maps
      [a]..[z] to [A]..[Z] and nothing else.
    - The process-wide [random] module is an explicit random source that is
      threaded through every operation that draws from it.
    - Objects shared by reference (the staff roster seen by the engine and by
      its allocator) are one list in the engine state; a staff member returned
      by an allocator is its position in that list.
    - [datetime.now()] is a clock whose successive readings are given to the
      constructor.
    - The engine never instantiates the classes [FCFSScheduler] and
      [WeightedPriorityScheduler]: [run] sorts the batch itself. They are
      embedded on their own, after the engine. *)

From Stdlib Require Import ZArith QArith Qround Qminmax Lia Lqa String Ascii.
From Stdlib Require Import DecimalString.
From stdpp Require Import base list strings gmap sorting.

Local Open Scope string_scope.
Local Open Scope list_scope.
Local Open Scope Z_scope.

(** ** Configuration tables *)

(** A Python dict literal whose key order is observable ([keys()]). *)
Definition table (V : Type) : Type := list (string * V).

Fixpoint table_get {V} (d : table V) (k : string) : option V :=
  match d with
  | [] => None
  | (k', v) :: d' => if String.eqb k' k then Some v else table_get d' k
  end.

Definition table_keys {V} (d : table V) : list string := map fst d.

(** [d.get(k, dflt)] *)
Definition get_default {V} (d : table V) (k : string) (dflt : V) : V :=
  match table_get d k with
  | Some v => v
  | None => dflt
  end.

Module PRIORITY_WEIGHTS.
Definition urgency : Q := (40 # 100)%Q.
Definition requester_type : Q := (25 # 100)%Q.
Definition waiting_time : Q := (20 # 100)%Q.
Definition document_type : Q := (15 # 100)%Q.
End PRIORITY_WEIGHTS.

Definition REQUESTER_PRIORITY : table Z :=
  [ ("Graduating Student", 10);
    ("Enrolling Student", 8);
    ("Faculty", 7);
    ("Alumni", 5);
    ("Regular Student", 3) ].

Definition DOCUMENT_COMPLEXITY : table Q :=
  [ ("Transcript of Records", 15 # 10);
    ("Certificate of Enrollment", 10 # 10);
    ("Honorable Dismissal", 12 # 10);
    ("Certification", 8 # 10) ]%Q.

Definition COLLEGES : list string := ["COE"; "CAS"; "CBA"; "CEGE"; "CS"; "IE"].

(** ** Time *)

Definition datetime : Type := Z.
Definition timedelta : Type := Z.

(** [td.total_seconds()] *)
Definition total_seconds (td : timedelta) : Q := (inject_Z td / 1000000)%Q.

(** Rounding to the nearest integer, ties to even, as [timedelta] and
    [round] do. *)
Definition round_half_even (q : Q) : Z :=
  let f := Qfloor q in
  match ((q - inject_Z f) ?= (1 # 2))%Q with
  | Lt => f
  | Gt => f + 1
  | Eq => if Z.even f then f else f + 1
  end.

(** [timedelta(minutes=m)] *)
Definition timedelta_minutes (m : Q) : timedelta :=
  round_half_even (m * 60000000)%Q.

(** Python's two-argument [min] and [max]: the first argument wins ties. *)
Definition py_min (a b : Q) : Q := if Qle_bool a b then a else b.
Definition py_max (a b : datetime) : datetime := if b <=? a then a else b.

(** ** DocumentRequest *)

Record DocumentRequest : Type := mkDocumentRequest {
  request_id : string;
  college : string;
  document_type : string;
  urgency : Z;
  requester_type : string;
  submission_time : datetime;
  priority_score : Q;
  assignment_time : option datetime;
  completion_time : option datetime;
  assigned_staff : option string
}.

(** The dataclass constructor with its defaults. *)
Definition new_request (rid col doc : string) (urg : Z) (rt : string)
    (sub : datetime) : DocumentRequest :=
  mkDocumentRequest rid col doc urg rt sub 0%Q None None None.

Definition set_priority_score (r : DocumentRequest) (s : Q) : DocumentRequest :=
  mkDocumentRequest (request_id r) (college r) (document_type r) (urgency r)
    (requester_type r) (submission_time r) s
    (assignment_time r) (completion_time r) (assigned_staff r).

Definition urgency_norm (self : DocumentRequest) : Q :=
  (inject_Z (urgency self) / 10)%Q.

Definition requester_norm (self : DocumentRequest) : Q :=
  (inject_Z (get_default REQUESTER_PRIORITY (requester_type self) 3%Z) / 10)%Q.

Definition waiting_minutes (self : DocumentRequest) (current_time : datetime) : Q :=
  (total_seconds (current_time - submission_time self)%Z / 60)%Q.

Definition waiting_norm (self : DocumentRequest) (current_time : datetime) : Q :=
  py_min (waiting_minutes self current_time / 120)%Q 1%Q.

Definition doc_complexity (self : DocumentRequest) : Q :=
  get_default DOCUMENT_COMPLEXITY (document_type self) 1%Q.

Definition doc_norm (self : DocumentRequest) : Q := (1 / doc_complexity self)%Q.

Definition score (self : DocumentRequest) (current_time : datetime) : Q :=
  (PRIORITY_WEIGHTS.urgency * urgency_norm self +
   PRIORITY_WEIGHTS.requester_type * requester_norm self +
   PRIORITY_WEIGHTS.waiting_time * waiting_norm self current_time +
   PRIORITY_WEIGHTS.document_type * doc_norm self)%Q.

(** [calculate_priority] stores the score on the request and returns it: the
    result is the request after the call and the returned value. *)
Definition calculate_priority (self : DocumentRequest) (current_time : datetime)
    : DocumentRequest * Q :=
  let s := score self current_time in
  (set_priority_score self s, s).

(** The score of the specification's table, written from its words. *)
Definition spec_score (urg weight : Z) (minutes_waited multiplier : Q) : Q :=
  ((40 # 100) * (inject_Z urg / 10) +
   (25 # 100) * (inject_Z weight / 10) +
   (20 # 100) * Qmin (minutes_waited / 120) 1 +
   (15 # 100) * (1 / multiplier))%Q.

(** [get_waiting_time_minutes] and [get_turnaround_time_minutes]: a
    [datetime] object is always truthy, so the guard is on the field being
    set. *)
Definition get_waiting_time_minutes (self : DocumentRequest) : Q :=
  match assignment_time self with
  | Some a => (total_seconds (a - submission_time self)%Z / 60)%Q
  | None => 0%Q
  end.

Definition get_turnaround_time_minutes (self : DocumentRequest) : Q :=
  match completion_time self with
  | Some c => (total_seconds (c - submission_time self)%Z / 60)%Q
  | None => 0%Q
  end.

(** ** StaffMember *)

Record StaffMember : Type := mkStaffMember {
  staff_id : string;
  name : string;
  college_affiliation : string;
  next_available_time : datetime;
  total_assigned : nat;
  is_available : bool
}.

(** The dataclass constructor: [__post_init__] reads the clock for
    [next_available_time]; [now] is that reading. *)
Definition new_staff (sid nm col : string) (now : datetime) : StaffMember :=
  mkStaffMember sid nm col now 0 true.

Definition can_accept (self : StaffMember) (current_time : datetime) : bool :=
  is_available self && (next_available_time self <=? current_time).

Definition assign_request (self : StaffMember) (assignment_time : datetime)
    (processing_time : timedelta) : StaffMember :=
  mkStaffMember (staff_id self) (name self) (college_affiliation self)
    (assignment_time + processing_time) (S (total_assigned self))
    (is_available self).

Definition set_is_available (self : StaffMember) (b : bool) : StaffMember :=
  mkStaffMember (staff_id self) (name self) (college_affiliation self)
    (next_available_time self) (total_assigned self) b.

(** ** Exceptions and the random source *)

Inductive Exception : Type :=
  | ValueError (msg : string)
  | KeyError (key : string)
  | IndexError
  | ZeroDivisionError.

Inductive Result (A : Type) : Type :=
  | Ok (a : A)
  | Raise (e : Exception).
Arguments Ok {A} a.
Arguments Raise {A} e.

(** The state of the [random] module: the stream of raw draws still to
    come. Each library call below consumes one draw. *)
Definition RandomSource : Type := nat -> N.

Definition rs_next (g : RandomSource) : N * RandomSource :=
  (g 0%nat, fun n => g (S n)).

(** [random.random()]: a multiple of 2^-53 in [0, 1). *)
Definition random (g : RandomSource) : Q * RandomSource :=
  let '(x, g') := rs_next g in
  (inject_Z (Z.of_N (x mod 2 ^ 53)%N) / inject_Z (2 ^ 53), g')%Q.

(** [random.uniform(a, b)] is [a + (b - a) * random()]. *)
Definition uniform (a b : Q) (g : RandomSource) : Q * RandomSource :=
  let '(u, g') := random g in
  (a + (b - a) * u, g')%Q.

(** [random.choice(seq)]: an index below [len(seq)]; [IndexError] on an
    empty sequence. *)
Definition choice {A} (seq : list A) (g : RandomSource)
    : Result A * RandomSource :=
  match seq with
  | [] => (Raise IndexError, g)
  | _ :: _ =>
      let '(x, g') := rs_next g in
      match seq !! N.to_nat (x mod N.of_nat (length seq))%N with
      | Some a => (Ok a, g')
      | None => (Raise IndexError, g')
      end
  end.

(** ** Sorting and minimum by key *)

(** [sorted] is stable; [le x y] says that [x] may stand before [y]. *)
Fixpoint insert_sorted {A} (le : A -> A -> bool) (x : A) (l : list A) : list A :=
  match l with
  | [] => [x]
  | y :: l' => if le x y then x :: y :: l' else y :: insert_sorted le x l'
  end.

Definition sorted {A} (le : A -> A -> bool) (l : list A) : list A :=
  foldr (insert_sorted le) [] l.

(** [min(seq, key=...)] returns the first element with the least key. *)
Fixpoint min_from {A K} (lt : K -> K -> bool) (key : A -> K) (best : A)
    (rest : list A) : A :=
  match rest with
  | [] => best
  | x :: rest' =>
      min_from lt key (if lt (key x) (key best) then x else best) rest'
  end.

Definition min_by {A K} (lt : K -> K -> bool) (key : A -> K) (l : list A)
    : option A :=
  match l with
  | [] => None
  | x :: rest => Some (min_from lt key x rest)
  end.

(** ** Allocators *)

Inductive Allocator : Type :=
  | CollegeBasedAllocator
  | WorkloadBasedAllocator
  | PooledAllocator
  | QuotaFreeAllocator.

(** The roster with the position of each member. A member the allocator
    returns is a reference into the shared roster: its position, together
    with the state the member has at that moment. *)
Definition enumerate {A} (l : list A) : list (nat * A) :=
  imap (fun i x => (i, x)) l.

Definition same_college_available (request : DocumentRequest)
    (s : nat * StaffMember) : bool :=
  String.eqb (college_affiliation s.2) (college request) && is_available s.2.

Definition staff_available (s : nat * StaffMember) : bool := is_available s.2.

Definition CollegeBasedAllocator_assign (staff_pool : list StaffMember)
    (request : DocumentRequest) (submission_time : datetime)
    (g : RandomSource) : Result (option (nat * StaffMember)) * RandomSource :=
  let candidates := List.filter (same_college_available request)
                      (enumerate staff_pool) in
  match candidates with
  | [] => (Ok None, g)
  | _ :: _ =>
      match choice candidates g with
      | (Ok s, g') => (Ok (Some s), g')
      | (Raise e, g') => (Raise e, g')
      end
  end.

Definition WorkloadBasedAllocator_assign (staff_pool : list StaffMember)
    (request : DocumentRequest) (submission_time : datetime)
    : option (nat * StaffMember) :=
  let college_staff := List.filter (same_college_available request)
                         (enumerate staff_pool) in
  match college_staff with
  | _ :: _ =>
      min_by Nat.ltb (fun s => total_assigned s.2) college_staff
  | [] =>
      let available := List.filter staff_available (enumerate staff_pool) in
      min_by Nat.ltb (fun s => total_assigned s.2) available
  end.

Definition PooledAllocator_assign (staff_pool : list StaffMember)
    (request : DocumentRequest) (submission_time : datetime)
    : option (nat * StaffMember) :=
  let available := List.filter staff_available (enumerate staff_pool) in
  min_by Z.ltb
    (fun s => py_max (next_available_time s.2) submission_time)
    available.

Definition QuotaFreeAllocator_assign (staff_pool : list StaffMember)
    (request : DocumentRequest) (submission_time : datetime)
    : option (nat * StaffMember) :=
  let available := List.filter staff_available (enumerate staff_pool) in
  min_by Z.ltb
    (fun s => py_max (next_available_time s.2) submission_time)
    available.

(** Dynamic dispatch of [allocator.assign]. Only the college-based
    allocator draws from the random source. *)
Definition assign (a : Allocator) (staff_pool : list StaffMember)
    (request : DocumentRequest) (submission_time : datetime)
    (g : RandomSource) : Result (option (nat * StaffMember)) * RandomSource :=
  match a with
  | CollegeBasedAllocator =>
      CollegeBasedAllocator_assign staff_pool request submission_time g
  | WorkloadBasedAllocator =>
      (Ok (WorkloadBasedAllocator_assign staff_pool request submission_time), g)
  | PooledAllocator =>
      (Ok (PooledAllocator_assign staff_pool request submission_time), g)
  | QuotaFreeAllocator =>
      (Ok (QuotaFreeAllocator_assign staff_pool request submission_time), g)
  end.

(** ** The simulation engine *)

Record SimulationEngine : Type := mkSimulationEngine {
  scheduler_type : string;
  staff_pool : list StaffMember;
  allocator : Allocator;
  completed : list DocumentRequest;
  start_time : datetime;
  scenario : string
}.

(** [str.upper()]; only the ASCII letters [a]..[z] are mapped, other
    characters are left as they are. *)
Definition upper_ascii (c : ascii) : ascii :=
  let n := nat_of_ascii c in
  if (97 <=? n)%nat && (n <=? 122)%nat then ascii_of_nat (n - 32) else c.

Fixpoint upper (s : string) : string :=
  match s with
  | EmptyString => EmptyString
  | String c s' => String (upper_ascii c) (upper s')
  end.

(** [_init_staff]: each member reads the clock once, in roster order. *)
Definition _init_staff (clock : nat -> datetime) : list StaffMember :=
  [ new_staff "STAFF001" "Maria Santos" "COE" (clock 0%nat);
    new_staff "STAFF002" "Juan Dela Cruz" "CAS" (clock 1%nat);
    new_staff "STAFF003" "Ana Reyes" "CBA" (clock 2%nat);
    new_staff "STAFF004" "Carlos Lim" "CEGE" (clock 3%nat);
    new_staff "STAFF005" "Luisa Gomez" "CS" (clock 4%nat);
    new_staff "STAFF006" "Ramon Aquino" "IE" (clock 5%nat) ].

Definition _create_allocator (allocator_type : string) : Allocator :=
  get_default
    [ ("college_based", CollegeBasedAllocator);
      ("workload_based", WorkloadBasedAllocator);
      ("pooled", PooledAllocator);
      ("quota_free", QuotaFreeAllocator) ]
    allocator_type CollegeBasedAllocator.

(** [SimulationEngine(scheduler_type, allocator_type)]; [clock] gives the
    successive readings of [datetime.now()] during construction. *)
Definition new_engine (scheduler_type allocator_type : string)
    (clock : nat -> datetime) : SimulationEngine :=
  mkSimulationEngine (upper scheduler_type) (_init_staff clock)
    (_create_allocator allocator_type) [] (clock 6%nat) "baseline".

Definition set_scenario (e : SimulationEngine) (s : string) : SimulationEngine :=
  mkSimulationEngine (scheduler_type e) (staff_pool e) (allocator e)
    (completed e) (start_time e) s.

Definition set_staff_pool (e : SimulationEngine) (p : list StaffMember)
    : SimulationEngine :=
  mkSimulationEngine (scheduler_type e) p (allocator e)
    (completed e) (start_time e) (scenario e).

Definition set_completed (e : SimulationEngine) (c : list DocumentRequest)
    : SimulationEngine :=
  mkSimulationEngine (scheduler_type e) (staff_pool e) (allocator e)
    c (start_time e) (scenario e).

(** *** The monad of engine methods

    A method reads and updates the engine and the random source and either
    returns or raises; what it changed before raising stays changed. *)
Definition M (A : Type) : Type :=
  SimulationEngine -> RandomSource -> Result A * SimulationEngine * RandomSource.

#[global] Instance M_ret : MRet M := fun A a e g => (Ok a, e, g).

#[global] Instance M_bind : MBind M := fun A B f m e g =>
  match m e g with
  | (Ok a, e', g') => f a e' g'
  | (Raise x, e', g') => (Raise x, e', g')
  end.

Definition raise {A} (x : Exception) : M A := fun e g => (Raise x, e, g).
Definition get_self : M SimulationEngine := fun e g => (Ok e, e, g).
Definition put_self (e' : SimulationEngine) : M unit := fun _ g => (Ok tt, e', g).

(** Lift a computation that only uses the random source. *)
Definition draw {A} (f : RandomSource -> Result A * RandomSource) : M A :=
  fun e g => let '(r, g') := f g in (r, e, g').

Definition draw_total {A} (f : RandomSource -> A * RandomSource) : M A :=
  fun e g => let '(a, g') := f g in (Ok a, e, g').

(** *** The workload generator *)

Definition total_requests_of (scenario : string) : nat :=
  get_default
    [ ("baseline", 80%nat);
      ("staff_absence", 70%nat);
      ("peak_urgency", 100%nat);
      ("workload_imbalance", 90%nat) ]
    scenario 80%nat.

Definition urgency_range_of (scenario : string) : list Z :=
  if String.eqb scenario "peak_urgency" then [7; 8; 9; 10] else [3; 4; 5; 6; 7].

Definition colleges_of (scenario : string) : list string :=
  if String.eqb scenario "workload_imbalance"
  then replicate 7 "COE" ++ COLLEGES
  else COLLEGES.

(** [f"REQ{i:04d}"] *)
Definition format_04d (i : nat) : string :=
  let digits := DecimalString.NilZero.string_of_uint (Nat.to_uint i) in
  (String.concat "" (replicate (4 - String.length digits) "0") ++ digits)%string.

(** [self.staff_pool[2].is_available = False] *)
Definition mark_absent : M unit :=
  self ← get_self;
  match staff_pool self !! 2%nat with
  | Some s =>
      put_self (set_staff_pool self
                  (<[2%nat := set_is_available s false]> (staff_pool self)))
  | None => raise IndexError
  end.

(** One iteration of the generation loop, for index [i]. *)
Definition generate_one (scenario : string) (duration_min : Z)
    (total_requests : nat) (i : nat) : M DocumentRequest :=
  self ← get_self;
  let time_offset :=
    timedelta_minutes
      (inject_Z (Z.of_nat i) *
       (inject_Z duration_min / inject_Z (Z.of_nat total_requests)))%Q in
  let submission_time := start_time self + time_offset in
  college ← draw (choice (colleges_of scenario));
  document_type ← draw (choice (table_keys DOCUMENT_COMPLEXITY));
  urgency ← draw (choice (urgency_range_of scenario));
  requester_type ← draw (choice (table_keys REQUESTER_PRIORITY));
  mret (new_request ("REQ" ++ format_04d i)%string college document_type urgency
          requester_type submission_time).

(** [for i in range(total_requests)], from index [i] for [n] more rounds. *)
Fixpoint generate_from (scenario : string) (duration_min : Z)
    (total_requests : nat) (i n : nat) : M (list DocumentRequest) :=
  match n with
  | O => mret []
  | S n' =>
      r ← generate_one scenario duration_min total_requests i;
      rs ← generate_from scenario duration_min total_requests (S i) n';
      mret (r :: rs)
  end.

Definition _generate_requests (scenario : string) (duration_min : Z)
    : M (list DocumentRequest) :=
  self ← get_self;
  _ ← put_self (set_scenario self scenario);
  let total_requests := total_requests_of scenario in
  _ ← (if String.eqb scenario "staff_absence" then mark_absent else mret tt);
  generate_from scenario duration_min total_requests 0 total_requests.

(** *** The processing loop *)

Definition set_assignment (r : DocumentRequest) (t : datetime) (sid : string)
    : DocumentRequest :=
  mkDocumentRequest (request_id r) (college r) (document_type r) (urgency r)
    (requester_type r) (submission_time r) (priority_score r)
    (Some t) (completion_time r) (Some sid).

Definition set_completion_time (r : DocumentRequest) (t : datetime)
    : DocumentRequest :=
  mkDocumentRequest (request_id r) (college r) (document_type r) (urgency r)
    (requester_type r) (submission_time r) (priority_score r)
    (assignment_time r) (Some t) (assigned_staff r).

(** The body of [for req in sorted_requests]. *)
Definition process_request (end_time : datetime) (req : DocumentRequest)
    : M unit :=
  if end_time <? submission_time req then mret tt
  else
    self ← get_self;
    staff ← draw (assign (allocator self) (staff_pool self) req
                    (submission_time req));
    match staff with
    | None => mret tt
    | Some (i, staff) =>
        let assignment_time :=
          py_max (submission_time req) (next_available_time staff) in
        let req := set_assignment req assignment_time (staff_id staff) in
        match table_get DOCUMENT_COMPLEXITY (document_type req) with
        | None => raise (KeyError (document_type req))
        | Some c =>
            let base_mins := (c * 3)%Q in
            m ← draw_total (uniform (base_mins * (8 # 10)) (base_mins * (12 # 10)));
            let processing_time := timedelta_minutes m in
            let staff := assign_request staff assignment_time processing_time in
            let req := set_completion_time req (assignment_time + processing_time) in
            put_self
              (set_completed
                 (set_staff_pool self (<[i := staff]> (staff_pool self)))
                 (completed self ++ [req]))
        end
    end.

Fixpoint process_all (end_time : datetime) (reqs : list DocumentRequest)
    : M unit :=
  match reqs with
  | [] => mret tt
  | req :: reqs' =>
      _ ← process_request end_time req;
      process_all end_time reqs'
  end.

(** *** Metrics *)

Module Report.
Record t : Type := mk {
  avg_waiting_time : Q;
  avg_turnaround : Q;
  throughput : Q;
  total_processed : nat;
  staff_load : gmap string nat;
  scenario : string
}.
End Report.

(** [round(x, 2)], of the exact value: Python rounds the binary64 value,
    which can differ from it in the last digit kept. *)
Definition round2 (x : Q) : Q := (inject_Z (round_half_even (x * 100)) / 100)%Q.

(** [sum(xs)] *)
Definition sum (xs : list Q) : Q := fold_left Qplus xs 0%Q.

(** [len(xs)] as a number *)
Definition len {A} (xs : list A) : Q := inject_Z (Z.of_nat (length xs)).

(** [{s.staff_id: s.total_assigned for s in self.staff_pool}]: a later
    member overwrites an earlier one with the same identifier. *)
Definition staff_load_of (pool : list StaffMember) : gmap string nat :=
  foldl (fun m s => <[staff_id s := total_assigned s]> m) ∅ pool.

Definition _calculate_metrics (duration_min : Z) : M Report.t :=
  self ← get_self;
  match completed self with
  | [] =>
      mret (Report.mk 0 0 0 0 (staff_load_of (staff_pool self)) (scenario self))
  | _ :: _ =>
      let waiting_times := map get_waiting_time_minutes (completed self) in
      let turnaround_times := map get_turnaround_time_minutes (completed self) in
      let duration_hours := (inject_Z duration_min / 60)%Q in
      if Qeq_bool duration_hours 0 then raise ZeroDivisionError
      else
        let throughput := (len (completed self) / duration_hours)%Q in
        mret (Report.mk
                (round2 (sum waiting_times / len waiting_times))
                (round2 (sum turnaround_times / len turnaround_times))
                (round2 throughput)
                (length (completed self))
                (staff_load_of (staff_pool self))
                (scenario self))
  end.

(** *** [run] *)

Definition by_submission_time (x y : DocumentRequest) : bool :=
  submission_time x <=? submission_time y.

(** [reverse=True] keeps the original order of requests with equal scores. *)
Definition by_priority_score_desc (x y : DocumentRequest) : bool :=
  Qle_bool (priority_score y) (priority_score x).

Definition run (scenario : string) (duration_min : Z) : M Report.t :=
  requests ← _generate_requests scenario duration_min;
  self ← get_self;
  let end_time := start_time self + timedelta_minutes (inject_Z duration_min) in
  let simulation_start := start_time self in
  let requests :=
    if String.eqb (scheduler_type self) "WEIGHTED"
    then map (fun req => (calculate_priority req simulation_start).1) requests
    else requests in
  sorted_requests ←
    (if String.eqb (scheduler_type self) "FCFS"
     then mret (sorted by_submission_time requests)
     else if String.eqb (scheduler_type self) "WEIGHTED"
     then mret (sorted by_priority_score_desc requests)
     else raise (ValueError
                   ("Unknown scheduler type: " ++ scheduler_type self)%string));
  _ ← process_all end_time sorted_requests;
  _calculate_metrics duration_min.

(** ** Notions used to state the properties *)

(** The candidate set of each allocator: the list its [assign] selects
    from. The workload-based allocator falls back to every available member
    when no available member has the request's college. *)
Definition candidates (a : Allocator) (staff_pool : list StaffMember)
    (request : DocumentRequest) : list (nat * StaffMember) :=
  match a with
  | CollegeBasedAllocator =>
      List.filter (same_college_available request) (enumerate staff_pool)
  | WorkloadBasedAllocator =>
      match List.filter (same_college_available request)
              (enumerate staff_pool) with
      | [] => List.filter staff_available (enumerate staff_pool)
      | college_staff => college_staff
      end
  | PooledAllocator | QuotaFreeAllocator =>
      List.filter staff_available (enumerate staff_pool)
  end.

(** A request as the loop leaves it when it assigns it to [staff] with a
    processing time of [m] minutes. *)
Definition assigned_to (req : DocumentRequest) (staff : StaffMember) (m : Q)
    : DocumentRequest :=
  let assignment_time :=
    py_max (submission_time req) (next_available_time staff) in
  set_completion_time
    (set_assignment req assignment_time (staff_id staff))
    (assignment_time + timedelta_minutes m).

(** The engine after the loop has assigned [req] to the member [staff] at
    position [i]. *)
Definition record_assignment (self : SimulationEngine) (req : DocumentRequest)
    (i : nat) (staff : StaffMember) (m : Q) : SimulationEngine :=
  let assignment_time :=
    py_max (submission_time req) (next_available_time staff) in
  set_completed
    (set_staff_pool self
       (<[i := assign_request staff assignment_time (timedelta_minutes m)]>
          (staff_pool self)))
    (completed self ++ [assigned_to req staff m]).

(** All three allocation fields are set, and the times are in order. *)
Definition completed_ok (r : DocumentRequest) : Prop :=
  exists a c sid,
    assignment_time r = Some a /\ completion_time r = Some c /\
    assigned_staff r = Some sid /\
    submission_time r <= a /\ a <= c.

(** None of the three allocation fields is set. *)
Definition unassigned (r : DocumentRequest) : Prop :=
  assignment_time r = None /\ completion_time r = None /\
  assigned_staff r = None.

(** The number of requests of [l] assigned to the member [sid]. *)
Definition load_of (sid : string) (l : list DocumentRequest) : nat :=
  length (List.filter
            (fun r => match assigned_staff r with
                      | Some x => String.eqb x sid
                      | None => false
                      end) l).

(** What the processing loop may change on a staff member while it
    completes the requests [added]. *)
Definition staff_evolves (added : list DocumentRequest) (s s' : StaffMember)
    : Prop :=
  staff_id s' = staff_id s /\ name s' = name s /\
  college_affiliation s' = college_affiliation s /\
  is_available s' = is_available s /\
  total_assigned s' = (total_assigned s + load_of (staff_id s) added)%nat.

(** What the processing loop may change on the engine while it completes
    the requests [added]. *)
Definition processes (added : list DocumentRequest) (e e' : SimulationEngine)
    : Prop :=
  scheduler_type e' = scheduler_type e /\ allocator e' = allocator e /\
  start_time e' = start_time e /\ scenario e' = scenario e /\
  completed e' = completed e ++ added /\
  Forall completed_ok added /\
  Forall2 (staff_evolves added) (staff_pool e) (staff_pool e') /\
  sum_list (total_assigned <$> staff_pool e') =
    (sum_list (total_assigned <$> staff_pool e) + length added)%nat.

(** The engine as [_generate_requests] leaves it when it does not raise:
    the scenario label is overwritten and, for [staff_absence], the third
    member is marked unavailable. *)
Definition prepared (scenario : string) (e : SimulationEngine)
    : SimulationEngine :=
  let e1 := set_scenario e scenario in
  if String.eqb scenario "staff_absence" then
    match staff_pool e1 !! 2%nat with
    | Some s =>
        set_staff_pool e1 (<[2%nat := set_is_available s false]> (staff_pool e1))
    | None => e1
    end
  else e1.

(** The state of an engine that its caller can observe. *)
Definition observable_state (e : SimulationEngine)
    : list (bool * datetime * nat) * list DocumentRequest * string :=
  (map (fun s => (is_available s, next_available_time s, total_assigned s))
     (staff_pool e),
   completed e, scenario e).

(** The scheduler kinds [run] accepts, as given to the constructor. *)
Definition recognized (scheduler_type : string) : bool :=
  String.eqb (upper scheduler_type) "FCFS" ||
  String.eqb (upper scheduler_type) "WEIGHTED".

(** [str.isascii()]: on such a string [upper] is [str.upper()]. *)
Definition is_ascii (s : string) : bool :=
  forallb (fun c => (nat_of_ascii c <? 128)%nat) (list_ascii_of_string s).

(** The durations, in minutes, on which the time arithmetic of the model is
    that of the code: up to a million minutes (some 23 months) before or
    after the start time. From a present-day clock no [datetime] of a run
    leaves Python's range, and the float product [i * (duration_min / n)] of
    the generator gives the microsecond the exact product gives. *)
Definition MAX_DURATION_MIN : Z := 1000000.

Definition duration_in_range (duration_min : Z) : bool :=
  (- MAX_DURATION_MIN <=? duration_min) && (duration_min <=? MAX_DURATION_MIN).

(** A sequence of calls of [run] on one engine, whatever each returns or
    raises. *)
Fixpoint run_many (calls : list (string * Z)) (e : SimulationEngine)
    (g : RandomSource) : SimulationEngine * RandomSource :=
  match calls with
  | [] => (e, g)
  | (scenario, duration_min) :: calls' =>
      let '(_, e', g') := run scenario duration_min e g in
      run_many calls' e' g'
  end.

(** Earlier calls of [run] whose durations are all in range. *)
Definition calls_in_range (calls : list (string * Z)) : bool :=
  forallb (fun c => duration_in_range c.2) calls.

Definition third_member_unavailable (e : SimulationEngine) : Prop :=
  exists s, staff_pool e !! 2%nat = Some s /\
            staff_id s = "STAFF003" /\ college_affiliation s = "CBA" /\
            is_available s = false.

(** The sum of the values of a [staff_load] map. *)
Definition load_total (m : gmap string nat) : nat :=
  map_fold (fun _ v acc => (v + acc)%nat) 0%nat m.

(** The request the generator builds at index [i]: the submission time is
    fixed by the index, the categorical fields are some elements of the
    scenario's candidate lists. *)
Definition generated (scenario : string) (duration_min : Z)
    (total_requests : nat) (self : SimulationEngine) (i : nat)
    (r : DocumentRequest) : Prop :=
  request_id r = ("REQ" ++ format_04d i)%string /\
  college r ∈ colleges_of scenario /\
  document_type r ∈ table_keys DOCUMENT_COMPLEXITY /\
  urgency r ∈ urgency_range_of scenario /\
  requester_type r ∈ table_keys REQUESTER_PRIORITY /\
  submission_time r =
    start_time self +
    timedelta_minutes
      (inject_Z (Z.of_nat i) *
       (inject_Z duration_min / inject_Z (Z.of_nat total_requests)))%Q /\
  unassigned r.

(** The fixed part of the roster. *)
Definition roster_static (e : SimulationEngine)
    : list (string * string * string) :=
  (fun s => (staff_id s, name s, college_affiliation s)) <$> staff_pool e.

Definition ROSTER : list (string * string * string) :=
  [ ("STAFF001", "Maria Santos", "COE");
    ("STAFF002", "Juan Dela Cruz", "CAS");
    ("STAFF003", "Ana Reyes", "CBA");
    ("STAFF004", "Carlos Lim", "CEGE");
    ("STAFF005", "Luisa Gomez", "CS");
    ("STAFF006", "Ramon Aquino", "IE") ].

(** What holds of every engine between two calls of [run]: the roster
    membership is the initial one, every completed request is fully assigned
    with its times in order, and each member's count is the number of
    completed requests assigned to it. *)
Definition engine_invariant (e : SimulationEngine) : Prop :=
  roster_static e = ROSTER /\
  Forall completed_ok (completed e) /\
  sum_list (total_assigned <$> staff_pool e) = length (completed e) /\
  Forall (fun s => total_assigned s = load_of (staff_id s) (completed e))
    (staff_pool e).

(** The four ways one iteration of the processing loop can end: the request
    lies beyond the horizon, no candidate is found, the document type is
    unknown, or the request is assigned. *)
Inductive step_outcome (end_time : datetime) (req : DocumentRequest)
    (e : SimulationEngine) (g : RandomSource)
    : Result unit * SimulationEngine * RandomSource -> Prop :=
  | step_beyond :
      end_time < submission_time req ->
      step_outcome end_time req e g (Ok tt, e, g)
  | step_dropped :
      submission_time req <= end_time ->
      candidates (allocator e) (staff_pool e) req = [] ->
      step_outcome end_time req e g (Ok tt, e, g)
  | step_key_error i s g' :
      submission_time req <= end_time ->
      (i, s) ∈ candidates (allocator e) (staff_pool e) req ->
      table_get DOCUMENT_COMPLEXITY (document_type req) = None ->
      step_outcome end_time req e g
        (Raise (KeyError (document_type req)), e, g')
  | step_assigned i s g' c :
      submission_time req <= end_time ->
      assign (allocator e) (staff_pool e) req (submission_time req) g
        = (Ok (Some (i, s)), g') ->
      (i, s) ∈ candidates (allocator e) (staff_pool e) req ->
      table_get DOCUMENT_COMPLEXITY (document_type req) = Some c ->
      let m := (uniform (c * 3 * (8 # 10)) (c * 3 * (12 # 10)) g').1 in
      step_outcome end_time req e g
        (Ok tt, record_assignment e req i s m, (rs_next g').2).

(** ** The scheduler classes

    [FCFSScheduler] and [WeightedPriorityScheduler] keep a queue; the state
    of an instance is that queue. The engine does not use them. *)

Module FCFSScheduler.
Record t : Type := mk { queue : list DocumentRequest }.

(** [__init__] *)
Definition init : t := mk [].

Definition add_request (self : t) (request : DocumentRequest) : t :=
  mk (queue self ++ [request]).

(** [get_all] returns a copy of the queue and clears it. *)
Definition get_all (self : t) : list DocumentRequest * t :=
  let requests := queue self in
  (requests, mk []).
End FCFSScheduler.

Module WeightedPriorityScheduler.
Record t : Type := mk { queue : list DocumentRequest }.

(** [__init__] *)
Definition init : t := mk [].

Definition add_request (self : t) (request : DocumentRequest) : t :=
  mk (queue self ++ [request]).

(** [get_all] sorts by priority score, descending, and clears the queue. *)
Definition get_all (self : t) : list DocumentRequest * t :=
  let sorted_queue :=
    sorted (fun x y => Qle_bool (priority_score y) (priority_score x))
      (queue self) in
  (sorted_queue, mk []).
End WeightedPriorityScheduler.

(** ** The HTTP layer ([backend/app.py])

    The body of a request to [/api/simulate] is a JSON object; the model
    takes the four keys the handler reads, each present or absent, the three
    labels being strings and the duration an integer. *)

Record Payload : Type := mkPayload {
  payload_scheduler : option string;
  payload_allocator : option string;
  payload_scenario : option string;
  payload_duration_minutes : option Z
}.

Definition scheduler_map : table string :=
  [ ("FCFS", "FCFS");
    ("Weighted Priority-Based", "WEIGHTED") ].

Definition allocator_map : table string :=
  [ ("College-Based Assignment", "college_based");
    ("Workload-Based Assignment with College Affiliation", "workload_based");
    ("Pooled Scheduling", "pooled");
    ("Quota-Free Allocation", "quota_free") ].

Definition scenario_map : table string :=
  [ ("Baseline", "baseline");
    ("Staff Absence", "staff_absence");
    ("Peak Urgency", "peak_urgency");
    ("Workload Imbalance", "workload_imbalance") ].

(** [data[key]]: a missing key raises [KeyError]. *)
Definition subscript (key : string) (field : option string) : Result string :=
  match field with
  | Some v => Ok v
  | None => Raise (KeyError key)
  end.

(** The response of [simulate]: the status code with the report, or with
    the exception whose text is the error body. *)
Inductive Response : Type :=
  | Response200 (metrics : Report.t)
  | Response500 (error : Exception).

(** [simulate]: every exception raised inside the [try] block becomes a
    500 response. The engine is built anew for each request; [clock] and [g]
    are the clock and the random source at that moment. *)
Definition simulate (data : Payload) (clock : nat -> datetime)
    (g : RandomSource) : Response :=
  match subscript "scheduler" (payload_scheduler data) with
  | Raise x => Response500 x
  | Ok scheduler_label =>
      match subscript "allocator" (payload_allocator data) with
      | Raise x => Response500 x
      | Ok allocator_label =>
          let engine :=
            new_engine (get_default scheduler_map scheduler_label "FCFS")
              (get_default allocator_map allocator_label "college_based")
              clock in
          match subscript "scenario" (payload_scenario data) with
          | Raise x => Response500 x
          | Ok scenario_label =>
              let duration_min :=
                match payload_duration_minutes data with
                | Some d => d
                | None => 60
                end in
              match run (get_default scenario_map scenario_label "baseline")
                      duration_min engine g with
              | (Ok metrics, _, _) => Response200 metrics
              | (Raise x, _, _) => Response500 x
              end
          end
      end
  end.

(** ** Further notions used to state properties *)

(** A body whose duration, the default 60 when the key is absent, is in
    range. *)
Definition payload_in_range (data : Payload) : bool :=
  match payload_duration_minutes data with
  | Some d => duration_in_range d
  | None => true
  end.

(** The offset, in microseconds, of the request of index [i] in a batch of
    [n] requests spread over [duration_min] minutes, computed exactly. The
    float product of the code rounds to the same microsecond for a duration
    in range, and can be a microsecond off for longer ones. *)
Definition time_offset (duration_min : Z) (n i : nat) : timedelta :=
  timedelta_minutes
    (inject_Z (Z.of_nat i) *
     (inject_Z duration_min / inject_Z (Z.of_nat n)))%Q.

(** The batch [run] hands to its scheduler: the generated requests, scored
    against the simulation start when the scheduler is the weighted one. *)
Definition scored_batch (self : SimulationEngine) (rs : list DocumentRequest)
    : list DocumentRequest :=
  if String.eqb (scheduler_type self) "WEIGHTED"
  then map (fun req => (calculate_priority req (start_time self)).1) rs
  else rs.

(** A request of the batch of a run on [self]: generated at some index,
    with the score [run] leaves on it. *)
Definition batch_request (scen : string) (duration_min : Z)
    (self : SimulationEngine) (r : DocumentRequest) : Prop :=
  exists i,
    (i < total_requests_of scen)%nat /\
    generated scen duration_min (total_requests_of scen) self i r /\
    priority_score r =
      (if String.eqb (scheduler_type self) "WEIGHTED"
       then score r (start_time self) else 0%Q).

(** Requests assigned to the same member are served one after the other:
    a request starts no earlier than every request completed before it by
    the same member ends. *)
Definition served_in_order (l : list DocumentRequest) : Prop :=
  forall j k r1 r2,
    (j < k)%nat -> l !! j = Some r1 -> l !! k = Some r2 ->
    assigned_staff r1 = assigned_staff r2 ->
    exists c a, completion_time r1 = Some c /\ assignment_time r2 = Some a /\
                c <= a.

(** No completed request of a member ends after the member's
    next-available time. *)
Definition busy_until_covers (e : SimulationEngine) : Prop :=
  forall i s r,
    staff_pool e !! i = Some s -> r ∈ completed e ->
    assigned_staff r = Some (staff_id s) ->
    exists c, completion_time r = Some c /\ c <= next_available_time s.

(** The order in which a run with a recognized scheduler processes the
    generated requests [rs]. *)
Definition run_order (self : SimulationEngine) (rs : list DocumentRequest)
    : list DocumentRequest :=
  if String.eqb (scheduler_type self) "FCFS"
  then sorted by_submission_time (scored_batch self rs)
  else sorted by_priority_score_desc (scored_batch self rs).

(** The scheduler kinds [run] accepts, as the engine stores them. *)
Definition known_scheduler (self : SimulationEngine) : bool :=
  String.eqb (scheduler_type self) "FCFS" ||
  String.eqb (scheduler_type self) "WEIGHTED".

(** What a run may do to a member: its next-available time and its count
    do not decrease, and its availability flag is not set. *)
Definition member_advances (s s' : StaffMember) : Prop :=
  staff_id s' = staff_id s /\ college_affiliation s' = college_affiliation s /\
  next_available_time s <= next_available_time s' /\
  (total_assigned s <= total_assigned s')%nat /\
  (is_available s' = true -> is_available s = true).

(** The fields of a request that the processing loop never writes. *)
Definition base_fields (r : DocumentRequest)
    : string * string * string * Z * string * datetime * Q :=
  (request_id r, college r, document_type r, urgency r, requester_type r,
   submission_time r, priority_score r).

(** * Properties *)

(** ** Arithmetic helpers *)

(** [lra] on [Q] has no division: turn division by a constant into a
    product. *)
Ltac no_div :=
  unfold Qdiv in *;
  repeat match goal with
    | |- context [(/ (?n # ?d))%Q] =>
        let v := eval cbv in (/ (n # d))%Q in change (/ (n # d))%Q with v
    | H : context [(/ (?n # ?d))%Q] |- _ =>
        let v := eval cbv in (/ (n # d))%Q in change (/ (n # d))%Q with v in H
    end.

Lemma py_min_Qmin a b : (py_min a b == Qmin a b)%Q.
Proof.
  unfold py_min. destruct (Qle_bool a b) eqn:E.
  - apply Qle_bool_iff in E. symmetry. apply Q.min_l. exact E.
  - assert (~ (a <= b)%Q) by (intros H; apply Qle_bool_iff in H; congruence).
    symmetry. apply Q.min_r. lra.
Qed.

Lemma py_min_cases a b :
  ((a <= b)%Q /\ py_min a b = a) \/ ((b < a)%Q /\ py_min a b = b).
Proof.
  unfold py_min. destruct (Qle_bool a b) eqn:E.
  - left. split; [by apply Qle_bool_iff|done].
  - right. split; [|done]. apply Qnot_le_lt. intros H.
    apply Qle_bool_iff in H. congruence.
Qed.

Lemma py_max_Zmax a b : py_max a b = Z.max a b.
Proof. unfold py_max. destruct (Z.leb_spec b a); lia. Qed.

Lemma doc_complexity_cases (r : DocumentRequest) :
  doc_complexity r = (15 # 10)%Q \/ doc_complexity r = (10 # 10)%Q \/
  doc_complexity r = (12 # 10)%Q \/ doc_complexity r = (8 # 10)%Q \/
  doc_complexity r = 1%Q.
Proof.
  unfold doc_complexity, get_default, DOCUMENT_COMPLEXITY. cbn [table_get].
  repeat (match goal with |- context [String.eqb ?a ?b] =>
                            destruct (String.eqb a b) end); tauto.
Qed.

Lemma requester_weight_cases (r : DocumentRequest) :
  3 <= get_default REQUESTER_PRIORITY (requester_type r) 3 <= 10.
Proof.
  unfold get_default, REQUESTER_PRIORITY. cbn [table_get].
  repeat (match goal with |- context [String.eqb ?a ?b] =>
                            destruct (String.eqb a b) end); lia.
Qed.

Lemma waiting_minutes_nonneg (r : DocumentRequest) (now : datetime) :
  submission_time r <= now -> (0 <= waiting_minutes r now)%Q.
Proof.
  intros H. unfold waiting_minutes, total_seconds.
  assert (0 <= inject_Z (now - submission_time r))%Q.
  { change 0%Q with (inject_Z 0). rewrite <- Zle_Qle. lia. }
  set (x := inject_Z _) in *. clearbody x. no_div. lra.
Qed.

Lemma score_spec_score (r : DocumentRequest) (now : datetime) :
  (score r now ==
   spec_score (urgency r) (get_default REQUESTER_PRIORITY (requester_type r) 3%Z)
     (waiting_minutes r now) (doc_complexity r))%Q.
Proof.
  unfold score, spec_score, urgency_norm, requester_norm, waiting_norm, doc_norm.
  unfold PRIORITY_WEIGHTS.urgency, PRIORITY_WEIGHTS.requester_type,
    PRIORITY_WEIGHTS.waiting_time, PRIORITY_WEIGHTS.document_type.
  rewrite py_min_Qmin. reflexivity.
Qed.

Lemma waiting_norm_range (r : DocumentRequest) (now : datetime) :
  submission_time r <= now ->
  (0 <= waiting_norm r now)%Q /\ (waiting_norm r now <= 1)%Q.
Proof.
  intros H. apply waiting_minutes_nonneg in H. unfold waiting_norm.
  destruct (py_min_cases (waiting_minutes r now / 120) 1) as [[Hle ->]|[Hlt ->]].
  - split; [|exact Hle]. no_div. lra.
  - split; lra.
Qed.

Lemma inject_Z_range (lo hi z : Z) :
  lo <= z <= hi -> (inject_Z lo <= inject_Z z)%Q /\ (inject_Z z <= inject_Z hi)%Q.
Proof. intros [H1 H2]. split; rewrite <- Zle_Qle; assumption. Qed.

(** ** The priority score *)

(** C1, as amended: with an urgency in 1..10 and a submission time not after
    [now], [calculate_priority] returns the weighted sum of the four factors,
    and that sum lies in [0, 1.0375]; it lies in [0, 1] when the document
    complexity multiplier is at least 1. *)
Theorem calculate_priority_range (r : DocumentRequest) (now : datetime) :
  submission_time r <= now ->
  1 <= urgency r <= 10 ->
  let s := (calculate_priority r now).2 in
  (s == spec_score (urgency r)
          (get_default REQUESTER_PRIORITY (requester_type r) 3%Z)
          (waiting_minutes r now) (doc_complexity r))%Q /\
  (0 <= s)%Q /\ (s <= 83 # 80)%Q /\
  ((1 <= doc_complexity r)%Q -> (s <= 1)%Q).
Proof.
  intros Hsub Hurg. cbn. split; [apply score_spec_score|].
  destruct (waiting_norm_range r now Hsub) as [Hw0 Hw1].
  destruct (inject_Z_range 1 10 _ Hurg) as [Hu0 Hu1].
  destruct (inject_Z_range 3 10 _ (requester_weight_cases r)) as [Hr0 Hr1].
  unfold score, urgency_norm, requester_norm, doc_norm.
  unfold PRIORITY_WEIGHTS.urgency, PRIORITY_WEIGHTS.requester_type,
    PRIORITY_WEIGHTS.waiting_time, PRIORITY_WEIGHTS.document_type.
  set (u := inject_Z (urgency r)) in *.
  set (w := inject_Z (get_default _ _ _)) in *.
  set (wn := waiting_norm r now) in *.
  clearbody u w wn.
  change (inject_Z 1) with 1%Q in *. change (inject_Z 10) with 10%Q in *.
  change (inject_Z 3) with 3%Q in *.
  destruct (doc_complexity_cases r) as [-> | [-> | [-> | [-> | ->]]]];
    no_div; repeat split; intros; lra.
Qed.

Lemma calculate_priority_range_witness :
  let r := new_request "REQ0000" "COE" "Certification" 10 "Graduating Student" 0 in
  let now := 7200000000 in
  let s := (calculate_priority r now).2 in
  (submission_time r <= now /\ 1 <= urgency r <= 10) /\
  (s == spec_score (urgency r)
          (get_default REQUESTER_PRIORITY (requester_type r) 3%Z)
          (waiting_minutes r now) (doc_complexity r))%Q /\
  (0 <= s)%Q /\ (s <= 83 # 80)%Q /\
  ((1 <= doc_complexity r)%Q -> (s <= 1)%Q).
Proof.
  intros r now s. split; [cbn; lia|].
  apply (calculate_priority_range r now); cbn; lia.
Defined.

(** C1, as stated, fails: a graduating student's certification request of
    urgency 10 that has waited 120 minutes scores 1.0375. *)
Lemma calculate_priority_exceeds_one :
  let r := new_request "REQ0000" "COE" "Certification" 10 "Graduating Student" 0 in
  let now := 7200000000 in
  submission_time r <= now /\
  ~ ((0 <= (calculate_priority r now).2)%Q /\ ((calculate_priority r now).2 <= 1)%Q).
Proof.
  cbv zeta. split; [cbn; lia|]. intros [_ H]. vm_compute in H. apply H. reflexivity.
Qed.

Lemma waiting_minutes_lt (r : DocumentRequest) (now later : datetime) :
  now < later -> (waiting_minutes r now < waiting_minutes r later)%Q.
Proof.
  intros H. unfold waiting_minutes, total_seconds.
  assert (inject_Z (now - submission_time r) <
          inject_Z (later - submission_time r))%Q.
  { rewrite <- Zlt_Qlt. lia. }
  set (x := inject_Z (now - _)) in *. set (y := inject_Z (later - _)) in *.
  clearbody x y. no_div. lra.
Qed.

(** C8: for a request with an urgency from 1 to 10 that was submitted no
    later than [now], [calculate_priority] is idempotent for a fixed [now];
    called again with a strictly later time it returns a strictly larger
    score while the minutes waited are below the 120-minute cap, and an equal
    score once the cap is reached. Under the two conditions on the request
    the minutes waited are not negative and every term of the score is of
    the order of 1, so that a microsecond more of waiting is far above the
    rounding error of the float sum. *)
Theorem calculate_priority_idempotent_monotone
    (r : DocumentRequest) (now later : datetime) :
  submission_time r <= now ->
  1 <= urgency r <= 10 ->
  now < later ->
  calculate_priority (calculate_priority r now).1 now = calculate_priority r now /\
  let s1 := (calculate_priority r now).2 in
  let s2 := (calculate_priority (calculate_priority r now).1 later).2 in
  ((waiting_minutes r now < 120)%Q -> (s1 < s2)%Q) /\
  ((120 <= waiting_minutes r now)%Q -> (s2 == s1)%Q).
Proof.
  intros _ _ Hlt. split; [reflexivity|]. cbn.
  apply (waiting_minutes_lt r) in Hlt.
  change (score (set_priority_score r (score r now)) later) with (score r later).
  unfold score, waiting_norm.
  unfold PRIORITY_WEIGHTS.urgency, PRIORITY_WEIGHTS.requester_type,
    PRIORITY_WEIGHTS.waiting_time, PRIORITY_WEIGHTS.document_type.
  set (a := urgency_norm r). set (b := requester_norm r). set (d := doc_norm r).
  set (w1 := waiting_minutes r now) in *.
  set (w2 := waiting_minutes r later) in *.
  clearbody a b d w1 w2.
  destruct (py_min_cases (w1 / 120) 1) as [[H1 ->]|[H1 ->]];
    destruct (py_min_cases (w2 / 120) 1) as [[H2 ->]|[H2 ->]];
    no_div; split; intros; lra.
Qed.

Lemma calculate_priority_idempotent_monotone_witness :
  let r := new_request "REQ0007" "CAS" "Certification" 5 "Faculty" 0 in
  let now := 60000000 in
  let later := 120000000 in
  submission_time r <= now /\ 1 <= urgency r <= 10 /\ now < later /\
  (calculate_priority (calculate_priority r now).1 now = calculate_priority r now /\
   let s1 := (calculate_priority r now).2 in
   let s2 := (calculate_priority (calculate_priority r now).1 later).2 in
   ((waiting_minutes r now < 120)%Q -> (s1 < s2)%Q) /\
   ((120 <= waiting_minutes r now)%Q -> (s2 == s1)%Q)).
Proof.
  intros r now later.
  split; [cbn; lia|]. split; [cbn; lia|]. split; [reflexivity|].
  apply (calculate_priority_idempotent_monotone r now later);
    [cbn; lia | cbn; lia | reflexivity].
Defined.

(** ** Lists: positions, minimum by key, random choice *)

Lemma elem_of_enumerate {A} (l : list A) (i : nat) (x : A) :
  (i, x) ∈ enumerate l <-> l !! i = Some x.
Proof.
  unfold enumerate. rewrite elem_of_lookup_imap. split.
  - intros (j & y & Heq & Hl). by simplify_eq.
  - intros Hl. by exists i, x.
Qed.

Lemma elem_of_bool_filter {A} (f : A -> bool) (l : list A) (x : A) :
  x ∈ List.filter f l <-> x ∈ l /\ f x = true.
Proof. rewrite !list_elem_of_In. apply filter_In. Qed.

Lemma min_from_elem_of {A K} (lt : K -> K -> bool) (key : A -> K)
    (best : A) (rest : list A) :
  min_from lt key best rest ∈ best :: rest.
Proof.
  revert best. induction rest as [|x rest IH]; intros best; cbn.
  - apply list_elem_of_here.
  - destruct (lt (key x) (key best)).
    + apply list_elem_of_further, IH.
    + specialize (IH best). apply elem_of_cons in IH as [->|IH].
      * apply list_elem_of_here.
      * by do 2 apply list_elem_of_further.
Qed.

Lemma min_by_elem_of {A K} (lt : K -> K -> bool) (key : A -> K)
    (l : list A) (x : A) :
  min_by lt key l = Some x -> x ∈ l.
Proof.
  destruct l as [|y l]; cbn; [done|]. intros [= <-]. apply min_from_elem_of.
Qed.

Lemma min_by_is_Some {A K} (lt : K -> K -> bool) (key : A -> K) (l : list A) :
  l <> [] -> exists x, min_by lt key l = Some x /\ x ∈ l.
Proof.
  destruct l as [|y l]; [done|]. intros _. eexists. split; [reflexivity|].
  apply min_from_elem_of.
Qed.

Lemma choice_nonempty {A} (seq : list A) (g : RandomSource) :
  seq <> [] ->
  exists a, choice seq g = (Ok a, (rs_next g).2) /\ a ∈ seq.
Proof.
  intros Hne. unfold choice. destruct seq as [|x seq]; [done|].
  cbn [rs_next snd].
  set (n := N.of_nat (length (x :: seq))).
  assert (Hlt : (N.to_nat (g 0%nat mod n) < length (x :: seq))%nat).
  { assert (n <> 0%N) by (subst n; cbn [length]; lia).
    pose proof (N.mod_upper_bound (g 0%nat) n ltac:(assumption)). subst n. lia. }
  apply lookup_lt_is_Some_2 in Hlt. destruct Hlt as [a Ha].
  rewrite Ha. exists a. split; [reflexivity|].
  eapply list_elem_of_lookup_2. exact Ha.
Qed.

(** ** Rounding and the random source *)

Lemma round_half_even_cases (q : Q) :
  round_half_even q = Qfloor q \/ round_half_even q = Qfloor q + 1.
Proof.
  unfold round_half_even.
  destruct (q - inject_Z (Qfloor q) ?= 1 # 2)%Q; [|tauto..].
  destruct (Z.even (Qfloor q)); tauto.
Qed.

Lemma round_half_even_nonneg (q : Q) : (0 <= q)%Q -> 0 <= round_half_even q.
Proof.
  intros H. apply Qfloor_resp_le in H. change (Qfloor 0) with 0 in H.
  destruct (round_half_even_cases q) as [-> | ->]; lia.
Qed.

Lemma round_half_even_inject_Z (z : Z) : round_half_even (inject_Z z) = z.
Proof.
  unfold round_half_even. rewrite Qfloor_Z.
  replace (inject_Z z - inject_Z z ?= 1 # 2)%Q with Lt; [done|].
  symmetry. apply (proj1 (Qlt_alt _ _)). generalize (inject_Z z). intros x. lra.
Qed.

Lemma round_half_even_le (q : Q) (z : Z) :
  (q <= inject_Z z)%Q -> round_half_even q <= z.
Proof.
  intros H. pose proof (Qfloor_resp_le _ _ H) as Hf. rewrite Qfloor_Z in Hf.
  destruct (Z.eq_dec (Qfloor q) z) as [Heq|Hne].
  - assert (Hq : (q == inject_Z z)%Q).
    { apply Qle_antisym; [done|]. rewrite <- Heq. apply Qfloor_le. }
    unfold round_half_even. rewrite Heq.
    replace (q - inject_Z z ?= 1 # 2)%Q with Lt; [lia|].
    symmetry. apply (proj1 (Qlt_alt _ _)).
    revert Hq. generalize (inject_Z z). intros x Hq. lra.
  - destruct (round_half_even_cases q) as [-> | ->]; lia.
Qed.

Lemma random_range (g : RandomSource) :
  (0 <= (random g).1)%Q /\ ((random g).1 < 1)%Q.
Proof.
  unfold random, rs_next. cbn [fst].
  set (x := g 0%nat).
  change (2 ^ 53)%N with 9007199254740992%N.
  change (2 ^ 53) with 9007199254740992.
  assert (Hx : (x mod 9007199254740992 < 9007199254740992)%N)
    by (apply N.mod_upper_bound; done).
  set (k := Z.of_N (x mod 9007199254740992)) in *.
  assert (Hk : 0 <= k < 9007199254740992).
  { subst k. split; [apply N2Z.is_nonneg|].
    change 9007199254740992 with (Z.of_N 9007199254740992).
    apply N2Z.inj_lt. exact Hx. }
  clearbody k.
  split.
  - apply Qle_shift_div_l; [reflexivity|]. rewrite Qmult_0_l.
    change 0%Q with (inject_Z 0). rewrite <- Zle_Qle. lia.
  - apply Qlt_shift_div_r; [reflexivity|]. rewrite Qmult_1_l.
    rewrite <- Zlt_Qlt. lia.
Qed.

Lemma uniform_ge (a b : Q) (g : RandomSource) :
  (a <= b)%Q -> (a <= (uniform a b g).1)%Q.
Proof.
  intros Hab. unfold uniform.
  pose proof (random_range g) as [H0 _].
  destruct (random g) as [u g']. cbn [fst] in *. nra.
Qed.

Lemma uniform_snd (a b : Q) (g : RandomSource) :
  (uniform a b g).2 = (rs_next g).2.
Proof. reflexivity. Qed.

Lemma table_complexity_pos (k : string) (c : Q) :
  table_get DOCUMENT_COMPLEXITY k = Some c -> (0 < c)%Q.
Proof.
  unfold DOCUMENT_COMPLEXITY. cbn [table_get].
  repeat (match goal with |- context [String.eqb ?a ?b] =>
                            destruct (String.eqb a b) end);
    intros [= <-]; reflexivity.
Qed.

Lemma processing_time_nonneg (c : Q) (g : RandomSource) :
  (0 < c)%Q ->
  0 <= timedelta_minutes
         (uniform (c * 3 * (8 # 10)) (c * 3 * (12 # 10)) g).1.
Proof.
  intros Hc. unfold timedelta_minutes. apply round_half_even_nonneg.
  pose proof (uniform_ge (c * 3 * (8 # 10)) (c * 3 * (12 # 10)) g) as H.
  assert (c * 3 * (8 # 10) <= c * 3 * (12 # 10))%Q by lra.
  specialize (H ltac:(assumption)).
  set (u := (uniform _ _ g).1) in *. clearbody u. lra.
Qed.

(** ** Allocators *)

Lemma candidates_lookup (a : Allocator) (pool : list StaffMember)
    (req : DocumentRequest) (i : nat) (s : StaffMember) :
  (i, s) ∈ candidates a pool req -> pool !! i = Some s /\ is_available s = true.
Proof.
  assert (Hav : forall c, c ∈ List.filter staff_available (enumerate pool) ->
                          pool !! c.1 = Some c.2 /\ is_available c.2 = true).
  { intros [j t] [Hin Hf]%elem_of_bool_filter.
    by apply elem_of_enumerate in Hin. }
  assert (Hcol : forall c,
             c ∈ List.filter (same_college_available req) (enumerate pool) ->
             pool !! c.1 = Some c.2 /\ is_available c.2 = true).
  { intros [j t] [Hin Hf]%elem_of_bool_filter.
    apply elem_of_enumerate in Hin.
    unfold same_college_available in Hf. apply andb_true_iff in Hf as [_ Hf].
    done. }
  intros Hin. destruct a; cbn [candidates] in Hin.
  - apply (Hcol (i, s) Hin).
  - destruct (List.filter (same_college_available req) (enumerate pool)) eqn:E.
    + apply (Hav (i, s) Hin).
    + apply (Hcol (i, s) Hin).
  - apply (Hav (i, s) Hin).
  - apply (Hav (i, s) Hin).
Qed.

Lemma assign_empty (a : Allocator) (pool : list StaffMember)
    (req : DocumentRequest) (t : datetime) (g : RandomSource) :
  candidates a pool req = [] -> assign a pool req t g = (Ok None, g).
Proof.
  destruct a; cbn [candidates assign]; intros H.
  - unfold CollegeBasedAllocator_assign. by rewrite H.
  - unfold WorkloadBasedAllocator_assign.
    destruct (List.filter (same_college_available req) (enumerate pool));
      [|done]. by rewrite H.
  - unfold PooledAllocator_assign. by rewrite H.
  - unfold QuotaFreeAllocator_assign. by rewrite H.
Qed.

Lemma assign_nonempty (a : Allocator) (pool : list StaffMember)
    (req : DocumentRequest) (t : datetime) (g : RandomSource) :
  candidates a pool req <> [] ->
  exists c g', assign a pool req t g = (Ok (Some c), g') /\
               c ∈ candidates a pool req.
Proof.
  destruct a; cbn [candidates assign]; intros H.
  - unfold CollegeBasedAllocator_assign.
    destruct (choice_nonempty _ g H) as (c & Hc & Hin).
    destruct (List.filter (same_college_available req) (enumerate pool))
      as [|c0 cs] eqn:E; [done|].
    rewrite Hc. by exists c, (rs_next g).2.
  - unfold WorkloadBasedAllocator_assign.
    destruct (List.filter (same_college_available req) (enumerate pool))
      as [|c0 cs] eqn:E.
    + destruct (min_by_is_Some Nat.ltb (fun s => total_assigned s.2) _ H)
        as (c & Hc & Hin).
      exists c, g. by rewrite Hc.
    + destruct (min_by_is_Some Nat.ltb (fun s => total_assigned s.2) _ H)
        as (c & Hc & Hin).
      exists c, g. by rewrite Hc.
  - unfold PooledAllocator_assign.
    destruct (min_by_is_Some Z.ltb
                (fun s => py_max (next_available_time s.2) t) _ H)
      as (c & Hc & Hin).
    exists c, g. by rewrite Hc.
  - unfold QuotaFreeAllocator_assign.
    destruct (min_by_is_Some Z.ltb
                (fun s => py_max (next_available_time s.2) t) _ H)
      as (c & Hc & Hin).
    exists c, g. by rewrite Hc.
Qed.

(** Whatever an allocator returns comes from its candidate set. *)
Lemma assign_Some (a : Allocator) (pool : list StaffMember)
    (req : DocumentRequest) (t : datetime) (g g' : RandomSource)
    (c : nat * StaffMember) :
  assign a pool req t g = (Ok (Some c), g') -> c ∈ candidates a pool req.
Proof.
  intros H. destruct (candidates a pool req) as [|c0 cs] eqn:E.
  - rewrite assign_empty in H by done. discriminate.
  - destruct (assign_nonempty a pool req t g) as (c' & g'' & Hc & Hin).
    { by rewrite E. }
    rewrite E in Hin. congruence.
Qed.

Lemma assign_no_raise (a : Allocator) (pool : list StaffMember)
    (req : DocumentRequest) (t : datetime) (g : RandomSource) :
  exists r g', assign a pool req t g = (Ok r, g').
Proof.
  destruct (candidates a pool req) as [|c0 cs] eqn:E.
  - exists None, g. by apply assign_empty.
  - destruct (assign_nonempty a pool req t g) as (c' & g'' & Hc & Hin).
    { by rewrite E. }
    by exists (Some c'), g''.
Qed.

(** C4: the pooled and the quota-free allocator are the same function of
    the roster, the request and the candidate time, also when called through
    the engine's dispatch. *)
Theorem pooled_quota_free_coincide (pool : list StaffMember)
    (request : DocumentRequest) (t : datetime) (g : RandomSource) :
  PooledAllocator_assign pool request t = QuotaFreeAllocator_assign pool request t /\
  assign PooledAllocator pool request t g = assign QuotaFreeAllocator pool request t g.
Proof. split; reflexivity. Qed.

(** ** One iteration of the processing loop *)

Lemma process_request_outcome (end_time : datetime) (req : DocumentRequest)
    (e : SimulationEngine) (g : RandomSource) :
  step_outcome end_time req e g (process_request end_time req e g).
Proof.
  unfold process_request.
  destruct (Z.ltb_spec end_time (submission_time req)) as [Hlt|Hle].
  { by apply step_beyond. }
  unfold mbind, M_bind, get_self, draw.
  destruct (candidates (allocator e) (staff_pool e) req) as [|c0 cs] eqn:E.
  { rewrite assign_empty by done. by apply step_dropped. }
  destruct (assign_nonempty (allocator e) (staff_pool e) req
              (submission_time req) g) as ([i s] & g' & Hc & Hin).
  { by rewrite E. }
  rewrite Hc. cbn [document_type set_assignment].
  destruct (table_get DOCUMENT_COMPLEXITY (document_type req)) as [c|] eqn:Hk.
  - exact (step_assigned end_time req e g i s g' c Hle Hc Hin Hk).
  - unfold raise. by eapply step_key_error.
Qed.

(** ** What the processing loop changes *)

Lemma load_of_app (sid : string) (l1 l2 : list DocumentRequest) :
  load_of sid (l1 ++ l2) = (load_of sid l1 + load_of sid l2)%nat.
Proof. unfold load_of. by rewrite List.filter_app, length_app. Qed.

Lemma staff_evolves_refl (s : StaffMember) : staff_evolves [] s s.
Proof. unfold staff_evolves, load_of. cbn. repeat split; lia. Qed.

Lemma staff_evolves_trans (a1 a2 : list DocumentRequest) (s s1 s2 : StaffMember) :
  staff_evolves a1 s s1 -> staff_evolves a2 s1 s2 ->
  staff_evolves (a1 ++ a2) s s2.
Proof.
  intros (Hi & Hn & Hc & Ha & Ht) (Hi' & Hn' & Hc' & Ha' & Ht').
  unfold staff_evolves. rewrite load_of_app. rewrite Hi in Ht'.
  repeat split; try congruence. lia.
Qed.

Lemma Forall2_compose {A} (R1 R2 R3 : A -> A -> Prop) (l1 l2 l3 : list A) :
  (forall x y z, R1 x y -> R2 y z -> R3 x z) ->
  Forall2 R1 l1 l2 -> Forall2 R2 l2 l3 -> Forall2 R3 l1 l3.
Proof.
  intros HR H12. revert l3.
  induction H12 as [|x y l1 l2 Hxy H12 IH]; intros l3 H23.
  - inversion H23. constructor.
  - inversion H23 as [|? z ? l3' Hyz H23']; subst.
    constructor; [by eapply HR|by apply IH].
Qed.

Lemma processes_refl (e : SimulationEngine) : processes [] e e.
Proof.
  unfold processes. rewrite app_nil_r. cbn [length].
  repeat split; try done; try lia.
  induction (staff_pool e); constructor; [apply staff_evolves_refl|done].
Qed.

Lemma processes_trans (a1 a2 : list DocumentRequest)
    (e e1 e2 : SimulationEngine) :
  processes a1 e e1 -> processes a2 e1 e2 -> processes (a1 ++ a2) e e2.
Proof.
  intros (Hs & Hal & Hst & Hsc & Hco & Hok & Hf & Hsum)
         (Hs' & Hal' & Hst' & Hsc' & Hco' & Hok' & Hf' & Hsum').
  unfold processes. repeat split; try congruence.
  - rewrite Hco', Hco. by rewrite app_assoc.
  - by apply Forall_app.
  - eapply Forall2_compose; [|exact Hf|exact Hf'].
    intros x y z. apply staff_evolves_trans.
  - rewrite Hsum', Hsum, length_app. lia.
Qed.

Lemma sum_list_insert {A} (f : A -> nat) (l : list A) (i : nat) (x y : A) :
  l !! i = Some x ->
  (sum_list (f <$> <[i := y]> l) + f x = sum_list (f <$> l) + f y)%nat.
Proof.
  revert i. induction l as [|z l IH]; intros [|i] H; try done.
  - injection H as ->. cbn. lia.
  - specialize (IH i H).
    change (<[S i := y]> (z :: l)) with (z :: <[i := y]> l).
    rewrite !fmap_cons. cbn [sum_list_with]. unfold id at 1 3. lia.
Qed.

Lemma NoDup_staff_id (pool : list StaffMember) (i j : nat) (s t : StaffMember) :
  NoDup (staff_id <$> pool) ->
  pool !! i = Some s -> pool !! j = Some t -> staff_id s = staff_id t -> i = j.
Proof.
  intros Hnd Hi Hj Heq.
  eapply NoDup_lookup; [exact Hnd| |].
  - rewrite list_lookup_fmap, Hi. reflexivity.
  - rewrite list_lookup_fmap, Hj. cbn. by rewrite Heq.
Qed.

Lemma assigned_to_ok (req : DocumentRequest) (s : StaffMember) (c : Q)
    (g : RandomSource) :
  (0 < c)%Q ->
  completed_ok
    (assigned_to req s (uniform (c * 3 * (8 # 10)) (c * 3 * (12 # 10)) g).1).
Proof.
  intros Hc. pose proof (processing_time_nonneg c g Hc) as H.
  set (m := (uniform _ _ g).1) in *. clearbody m.
  unfold completed_ok, assigned_to. cbn.
  eexists _, _, _. repeat split.
  - rewrite py_max_Zmax. lia.
  - lia.
Qed.

Lemma record_assignment_processes (e : SimulationEngine)
    (req : DocumentRequest) (i : nat) (s : StaffMember) (m : Q) :
  NoDup (staff_id <$> staff_pool e) ->
  staff_pool e !! i = Some s ->
  completed_ok (assigned_to req s m) ->
  processes [assigned_to req s m] e (record_assignment e req i s m).
Proof.
  intros Hnd Hi Hok. unfold processes, record_assignment. cbn.
  repeat split; try done.
  - by constructor.
  - apply Forall2_same_length_lookup_2; [by rewrite length_insert|].
    intros j x y Hx Hy. destruct (decide (i = j)) as [<-|Hne].
    + rewrite list_lookup_insert_eq in Hy by (by eapply lookup_lt_Some).
      simplify_eq. unfold staff_evolves, load_of. cbn.
      rewrite String.eqb_refl. cbn. repeat split; lia.
    + rewrite list_lookup_insert_ne in Hy by done. simplify_eq.
      unfold staff_evolves, load_of. cbn.
      destruct (String.eqb_spec (staff_id s) (staff_id x)) as [Heq|_].
      * exfalso. apply Hne. by eapply NoDup_staff_id.
      * cbn. repeat split; lia.
  - pose proof (sum_list_insert total_assigned (staff_pool e) i s
                  (assign_request s
                     (py_max (submission_time req) (next_available_time s))
                     (timedelta_minutes m)) Hi) as H.
    cbn in H. lia.
Qed.

Lemma processes_NoDup (added : list DocumentRequest) (e e' : SimulationEngine) :
  processes added e e' ->
  staff_id <$> staff_pool e' = staff_id <$> staff_pool e.
Proof.
  intros (_ & _ & _ & _ & _ & _ & Hf & _).
  induction Hf as [|x y l k (Hid & _) _ IH]; cbn; [done|]. by rewrite Hid, IH.
Qed.

(** Within the horizon, with a known document type and a candidate, the
    iteration assigns the request. *)
Lemma drop_step (end_time : datetime) (req : DocumentRequest)
    (e : SimulationEngine) (g : RandomSource) (c : Q) :
  submission_time req <= end_time ->
  table_get DOCUMENT_COMPLEXITY (document_type req) = Some c ->
  candidates (allocator e) (staff_pool e) req <> [] ->
  exists i s m g',
    (i, s) ∈ candidates (allocator e) (staff_pool e) req /\
    process_request end_time req e g
      = (Ok tt, record_assignment e req i s m, g') /\
    completed_ok (assigned_to req s m).
Proof.
  intros Hle Hc Hne.
  destruct (process_request_outcome end_time req e g)
    as [?|? ?|i s g' ? Hin Hk|i s g' c' ? Ha Hin Hk m]; try lia; try done.
  - congruence.
  - exists i, s, m, (rs_next g').2. repeat split; [done|].
    apply assigned_to_ok. by eapply table_complexity_pos.
Qed.

(** One iteration completes nothing or exactly the request at hand. *)
Lemma process_request_processes (end_time : datetime) (req : DocumentRequest)
    (e : SimulationEngine) (g : RandomSource) :
  NoDup (staff_id <$> staff_pool e) ->
  exists added,
    processes added e (process_request end_time req e g).1.2 /\
    (length added <= 1)%nat.
Proof.
  intros Hnd.
  destruct (process_request_outcome end_time req e g)
    as [?|? ?|i s g' ? Hin Hk|i s g' c ? Hc Hin Hk m].
  - exists []. split; [apply processes_refl|cbn; lia].
  - exists []. split; [apply processes_refl|cbn; lia].
  - exists []. split; [apply processes_refl|cbn; lia].
  - exists [assigned_to req s m]. split; [|cbn; lia]. cbn [fst snd].
    apply candidates_lookup in Hin as [Hi _].
    apply record_assignment_processes; [done..|].
    apply assigned_to_ok. by eapply table_complexity_pos.
Qed.

Lemma process_all_processes (end_time : datetime) (reqs : list DocumentRequest)
    (e : SimulationEngine) (g : RandomSource) :
  NoDup (staff_id <$> staff_pool e) ->
  exists added,
    processes added e (process_all end_time reqs e g).1.2 /\
    (length added <= length reqs)%nat.
Proof.
  revert e g. induction reqs as [|req reqs IH]; intros e g Hnd.
  - exists []. split; [apply processes_refl|done].
  - cbn [process_all]. unfold mbind, M_bind.
    destruct (process_request_processes end_time req e g Hnd)
      as (a1 & Hp1 & Hl1).
    destruct (process_request end_time req e g) as [[[[]|x] e1] g1] eqn:E;
      cbn [fst snd] in *.
    + destruct (IH e1 g1) as (a2 & Hp2 & Hl2).
      { rewrite (processes_NoDup _ _ _ Hp1). exact Hnd. }
      exists (a1 ++ a2). split; [by eapply processes_trans|].
      rewrite length_app. cbn [length]. lia.
    + exists a1. split; [done|]. cbn [length]. lia.
Qed.

(** ** The workload generator *)

Lemma draw_choice {A} (seq : list A) (e : SimulationEngine) (g : RandomSource) :
  seq <> [] ->
  exists a, draw (choice seq) e g = (Ok a, e, (rs_next g).2) /\ a ∈ seq.
Proof.
  intros H. destruct (choice_nonempty seq g H) as (a & Ha & Hin).
  exists a. unfold draw. by rewrite Ha.
Qed.

Lemma colleges_of_nonempty (scenario : string) : colleges_of scenario <> [].
Proof. unfold colleges_of. by destruct (String.eqb _ _). Qed.

Lemma urgency_range_of_nonempty (scenario : string) :
  urgency_range_of scenario <> [].
Proof. unfold urgency_range_of. by destruct (String.eqb _ _). Qed.

Lemma generate_one_spec (scenario : string) (duration_min : Z)
    (total_requests i : nat) (e : SimulationEngine) (g : RandomSource) :
  exists r g',
    generate_one scenario duration_min total_requests i e g = (Ok r, e, g') /\
    generated scenario duration_min total_requests e i r.
Proof.
  unfold generate_one, mbind, M_bind, get_self.
  destruct (draw_choice (colleges_of scenario) e g
              (colleges_of_nonempty scenario)) as (c & -> & Hc).
  set (g1 := (rs_next g).2).
  destruct (draw_choice (table_keys DOCUMENT_COMPLEXITY) e g1 ltac:(done))
    as (dt & -> & Hdt).
  set (g2 := (rs_next g1).2).
  destruct (draw_choice (urgency_range_of scenario) e g2
              (urgency_range_of_nonempty scenario)) as (u & -> & Hu).
  set (g3 := (rs_next g2).2).
  destruct (draw_choice (table_keys REQUESTER_PRIORITY) e g3 ltac:(done))
    as (rt & -> & Hrt).
  eexists _, _. split; [reflexivity|].
  unfold generated, unassigned. cbn. done.
Qed.

Lemma generate_from_spec (scenario : string) (duration_min : Z)
    (total_requests i n : nat) (e : SimulationEngine) (g : RandomSource) :
  exists rs g',
    generate_from scenario duration_min total_requests i n e g
      = (Ok rs, e, g') /\
    Forall2 (generated scenario duration_min total_requests e) (seq i n) rs.
Proof.
  revert i g. induction n as [|n IH]; intros i g.
  - exists [], g. split; [reflexivity|constructor].
  - cbn [generate_from]. unfold mbind, M_bind.
    destruct (generate_one_spec scenario duration_min total_requests i e g)
      as (r & g1 & -> & Hr).
    destruct (IH (S i) g1) as (rs & g2 & -> & Hrs).
    exists (r :: rs), g2. split; [reflexivity|]. by constructor.
Qed.

(** [_generate_requests] leaves the engine [prepared]; it raises only when
    the scenario is [staff_absence] and the roster has no third member. *)
Lemma _generate_requests_spec (scenario : string) (duration_min : Z)
    (e : SimulationEngine) (g : RandomSource) :
  (exists rs g',
     _generate_requests scenario duration_min e g
       = (Ok rs, prepared scenario e, g') /\
     Forall2 (generated scenario duration_min (total_requests_of scenario) e)
       (seq 0 (total_requests_of scenario)) rs) \/
  (scenario = "staff_absence" /\ staff_pool e !! 2%nat = None /\
   _generate_requests scenario duration_min e g
     = (Raise IndexError, prepared scenario e, g)).
Proof.
  unfold _generate_requests, prepared, mbind, M_bind, get_self, put_self.
  destruct (String.eqb_spec scenario "staff_absence") as [Heq|Hne].
  - unfold mark_absent, mbind, M_bind, get_self, put_self. cbn [staff_pool set_scenario].
    destruct (staff_pool e !! 2%nat) as [s|] eqn:Hs.
    + left.
      destruct (generate_from_spec scenario duration_min
                  (total_requests_of scenario) 0 (total_requests_of scenario)
                  (set_staff_pool (set_scenario e scenario)
                     (<[2%nat := set_is_available s false]> (staff_pool e))) g)
        as (rs & g' & Hg & Hrs).
      exists rs, g'. split; [exact Hg|exact Hrs].
    + right. by unfold raise.
  - left. cbn.
    destruct (generate_from_spec scenario duration_min
                (total_requests_of scenario) 0 (total_requests_of scenario)
                (set_scenario e scenario) g) as (rs & g' & Hg & Hrs).
    exists rs, g'. split; [exact Hg|exact Hrs].
Qed.

(** ** Sorting *)

Lemma insert_sorted_Permutation {A} (le : A -> A -> bool) (x : A) (l : list A) :
  insert_sorted le x l ≡ₚ x :: l.
Proof.
  induction l as [|y l IH]; cbn; [done|].
  destruct (le x y); [done|]. rewrite IH. apply Permutation_swap.
Qed.

Lemma sorted_Permutation {A} (le : A -> A -> bool) (l : list A) :
  sorted le l ≡ₚ l.
Proof.
  unfold sorted. induction l as [|x l IH]; cbn; [done|].
  rewrite insert_sorted_Permutation. by rewrite IH.
Qed.

(** ** Metrics *)

Lemma _calculate_metrics_spec (duration_min : Z) (e : SimulationEngine)
    (g : RandomSource) :
  (exists r,
     _calculate_metrics duration_min e g = (Ok r, e, g) /\
     Report.total_processed r = length (completed e) /\
     Report.staff_load r = staff_load_of (staff_pool e) /\
     Report.scenario r = scenario e) \/
  (_calculate_metrics duration_min e g = (Raise ZeroDivisionError, e, g) /\
   completed e <> [] /\
   Qeq_bool (inject_Z duration_min / 60) 0 = true).
Proof.
  unfold _calculate_metrics, mbind, M_bind, get_self.
  destruct (completed e) as [|r0 rs] eqn:E.
  - left. eexists. split; [reflexivity|]. done.
  - destruct (Qeq_bool (inject_Z duration_min / 60) 0) eqn:Hd.
    + right. done.
    + left. eexists. split; [reflexivity|]. done.
Qed.

(** ** [run] *)

Lemma prepared_staff_id (scenario : string) (e : SimulationEngine) :
  roster_static (prepared scenario e) = roster_static e.
Proof.
  unfold prepared, roster_static.
  destruct (String.eqb scenario "staff_absence"); [|done].
  cbn [staff_pool set_scenario].
  destruct (staff_pool e !! 2%nat) as [s|] eqn:Hs; [|done].
  cbn [staff_pool set_staff_pool].
  rewrite list_fmap_insert. cbn.
  apply list_insert_id. by rewrite list_lookup_fmap, Hs.
Qed.

Lemma roster_static_staff_id (e : SimulationEngine) :
  staff_id <$> staff_pool e = (fun x => x.1.1) <$> roster_static e.
Proof. unfold roster_static. rewrite <- list_fmap_compose. done. Qed.

Lemma prepared_NoDup (scenario : string) (e : SimulationEngine) :
  NoDup (staff_id <$> staff_pool e) ->
  NoDup (staff_id <$> staff_pool (prepared scenario e)).
Proof. by rewrite !roster_static_staff_id, prepared_staff_id. Qed.

Lemma prepared_fields (scen : string) (e : SimulationEngine) :
  scheduler_type (prepared scen e) = scheduler_type e /\
  allocator (prepared scen e) = allocator e /\
  start_time (prepared scen e) = start_time e /\
  completed (prepared scen e) = completed e /\
  scenario (prepared scen e) = scen.
Proof.
  unfold prepared. destruct (String.eqb scen "staff_absence"); [|done].
  cbn [staff_pool set_scenario]. by destruct (staff_pool e !! 2%nat).
Qed.

(** The engine after [run], whatever it returns or raises: the engine
    [prepared] for the scenario, on which the loop has completed some
    requests [added]. A report, when one is returned, counts the whole
    completed list and the whole roster. *)
Lemma run_spec (scenario : string) (duration_min : Z)
    (e : SimulationEngine) (g : RandomSource) :
  NoDup (staff_id <$> staff_pool e) ->
  exists added,
    processes added (prepared scenario e) (run scenario duration_min e g).1.2 /\
    (length added <= total_requests_of scenario)%nat /\
    forall r, (run scenario duration_min e g).1.1 = Ok r ->
      Report.total_processed r = (length (completed e) + length added)%nat /\
      Report.staff_load r =
        staff_load_of (staff_pool (run scenario duration_min e g).1.2) /\
      Report.scenario r = scenario.
Proof.
  intros Hnd. unfold run, mbind, M_bind.
  destruct (_generate_requests_spec scenario duration_min e g)
    as [(rs & g1 & -> & Hrs)|(_ & _ & ->)]; cycle 1.
  { exists []. cbn [fst snd]. split; [apply processes_refl|].
    split; [cbn; lia|]. intros r [=]. }
  apply Forall2_length in Hrs. rewrite length_seq in Hrs.
  unfold get_self. set (e1 := prepared scenario e) in *.
  set (reqs := if String.eqb (scheduler_type e1) "WEIGHTED" then _ else rs).
  assert (Hlen : length reqs = total_requests_of scenario).
  { subst reqs. destruct (String.eqb _ _); [rewrite length_map|]; lia. }
  assert (Hnd1 : NoDup (staff_id <$> staff_pool e1))
    by (by apply prepared_NoDup).
  set (sched :=
         if String.eqb (scheduler_type e1) "FCFS"
         then mret (sorted by_submission_time reqs)
         else if String.eqb (scheduler_type e1) "WEIGHTED"
         then mret (sorted by_priority_score_desc reqs)
         else raise (ValueError
                ("Unknown scheduler type: " ++ scheduler_type e1)%string)).
  assert (Hs : (exists l, sched e1 g1 = (Ok l, e1, g1) /\ length l = length reqs)
               \/ exists x, sched e1 g1 = (Raise x, e1, g1)).
  { subst sched. destruct (String.eqb (scheduler_type e1) "FCFS").
    - left. eexists. split; [reflexivity|].
      by rewrite sorted_Permutation.
    - destruct (String.eqb (scheduler_type e1) "WEIGHTED").
      + left. eexists. split; [reflexivity|]. by rewrite sorted_Permutation.
      + right. by eexists. }
  destruct Hs as [(l & -> & Hl)|(x & ->)]; cycle 1.
  { exists []. cbn [fst snd]. split; [apply processes_refl|].
    split; [cbn; lia|]. intros r [=]. }
  set (end_time := start_time e1 + timedelta_minutes (inject_Z duration_min)).
  destruct (process_all_processes end_time l e1 g1 Hnd1) as (added & Hp & Ha).
  exists added.
  destruct (process_all end_time l e1 g1) as [[[[]|x] e2] g2];
    cbn [fst snd] in *.
  - destruct (_calculate_metrics_spec duration_min e2 g2)
      as [(r & -> & Ht & Hsl & Hsc)|(-> & _)]; cbn [fst snd].
    + split; [done|]. split; [lia|]. intros r' [= <-].
      destruct Hp as (_ & _ & _ & Hsc' & Hco & _).
      destruct (prepared_fields scenario e) as (_ & _ & _ & Hco1 & Hsc1).
      fold e1 in Hco1, Hsc1.
      rewrite Ht, Hco, Hco1, length_app. split; [done|]. split; [done|].
      congruence.
    + split; [done|]. split; [lia|]. intros r' [=].
  - split; [done|]. split; [lia|]. intros r' [=].
Qed.

(** ** The invariant of an engine between calls of [run] *)

Lemma ROSTER_NoDup (e : SimulationEngine) :
  roster_static e = ROSTER -> NoDup (staff_id <$> staff_pool e).
Proof.
  intros H. rewrite roster_static_staff_id, H.
  apply (bool_decide_unpack _). by vm_compute.
Qed.

Lemma processes_roster_static (added : list DocumentRequest)
    (e e' : SimulationEngine) :
  processes added e e' -> roster_static e' = roster_static e.
Proof.
  intros (_ & _ & _ & _ & _ & _ & Hf & _). unfold roster_static.
  induction Hf as [|x y l k (Hid & Hn & Hc & _) _ IH]; cbn; [done|].
  by rewrite Hid, Hn, Hc, IH.
Qed.

(** [prepared] touches availability flags only. *)
Lemma prepared_pool (scen : string) (e : SimulationEngine) :
  Forall2 (fun s s' =>
             staff_id s' = staff_id s /\
             total_assigned s' = total_assigned s /\
             next_available_time s' = next_available_time s /\
             (is_available s' = is_available s \/ is_available s' = false))
    (staff_pool e) (staff_pool (prepared scen e)).
Proof.
  assert (Hrefl : forall l : list StaffMember,
             Forall2 (fun s s' =>
                        staff_id s' = staff_id s /\
                        total_assigned s' = total_assigned s /\
                        next_available_time s' = next_available_time s /\
                        (is_available s' = is_available s \/
                         is_available s' = false)) l l).
  { intros l. induction l; constructor; [tauto|done]. }
  unfold prepared. destruct (String.eqb scen "staff_absence"); [|apply Hrefl].
  cbn [staff_pool set_scenario].
  destruct (staff_pool e !! 2%nat) as [s|] eqn:Hs; [|apply Hrefl].
  cbn [staff_pool set_staff_pool].
  apply Forall2_same_length_lookup_2; [by rewrite length_insert|].
  intros j x y Hx Hy. destruct (decide (2%nat = j)) as [<-|Hne].
  - rewrite list_lookup_insert_eq in Hy by (by eapply lookup_lt_Some).
    simplify_eq. cbn. tauto.
  - rewrite list_lookup_insert_ne in Hy by done. simplify_eq. tauto.
Qed.

Lemma new_engine_invariant (sched alloc : string) (clock : nat -> datetime) :
  engine_invariant (new_engine sched alloc clock).
Proof.
  unfold engine_invariant. cbn. repeat split; [constructor|].
  repeat constructor.
Qed.

Lemma run_invariant (scen : string) (duration_min : Z)
    (e : SimulationEngine) (g : RandomSource) :
  engine_invariant e -> engine_invariant (run scen duration_min e g).1.2.
Proof.
  intros (Hro & Hok & Hsum & Hload).
  destruct (run_spec scen duration_min e g (ROSTER_NoDup e Hro))
    as (added & Hp & _ & _).
  set (e' := (run scen duration_min e g).1.2) in *. clearbody e'.
  pose proof (processes_roster_static _ _ _ Hp) as Hro'.
  rewrite prepared_staff_id in Hro'.
  destruct (prepared_fields scen e) as (_ & _ & _ & Hco1 & _).
  pose proof (prepared_pool scen e) as Hpp.
  destruct Hp as (_ & _ & _ & _ & Hco & Hok' & Hf & Hsum').
  rewrite Hco1 in Hco.
  unfold engine_invariant. rewrite Hco. repeat split.
  - congruence.
  - by apply Forall_app.
  - rewrite Hsum', length_app. rewrite <- Hsum. f_equal.
    clear -Hpp. induction Hpp as [|x y l k (_ & Ht & _) _ IH]; cbn; [done|].
    by rewrite Ht, IH.
  - apply Forall_lookup_2. intros i s' Hs'.
    destruct (Forall2_lookup_r _ _ _ _ _ Hf Hs') as (s1 & Hs1 & Hev).
    destruct (Forall2_lookup_r _ _ _ _ _ Hpp Hs1) as (s & Hs & Hid & Ht & _).
    destruct Hev as (Hid' & _ & _ & _ & Ht').
    rewrite Forall_lookup in Hload. specialize (Hload i s Hs).
    rewrite load_of_app, Hid', Hid, Ht', Ht, Hload, Hid. done.
Qed.

Lemma run_many_invariant (calls : list (string * Z))
    (e : SimulationEngine) (g : RandomSource) :
  engine_invariant e -> engine_invariant (run_many calls e g).1.
Proof.
  revert e g. induction calls as [|[scen d] calls IH]; intros e g Hinv; [done|].
  cbn [run_many]. pose proof (run_invariant scen d e g Hinv) as H.
  destruct (run scen d e g) as [[res e'] g']. by apply IH.
Qed.

(** The scheduler and the allocator of an engine never change. *)
Lemma run_keeps_strategy (scen : string) (duration_min : Z)
    (e : SimulationEngine) (g : RandomSource) :
  engine_invariant e ->
  scheduler_type (run scen duration_min e g).1.2 = scheduler_type e /\
  allocator (run scen duration_min e g).1.2 = allocator e.
Proof.
  intros (Hro & _).
  destruct (run_spec scen duration_min e g (ROSTER_NoDup e Hro))
    as (added & (Hs & Ha & _) & _).
  destruct (prepared_fields scen e) as (Hs1 & Ha1 & _). split; congruence.
Qed.

Lemma run_many_keeps_strategy (calls : list (string * Z))
    (e : SimulationEngine) (g : RandomSource) :
  engine_invariant e ->
  scheduler_type (run_many calls e g).1 = scheduler_type e /\
  allocator (run_many calls e g).1 = allocator e.
Proof.
  revert e g. induction calls as [|[scen d] calls IH]; intros e g Hinv; [done|].
  cbn [run_many]. pose proof (run_invariant scen d e g Hinv) as H.
  pose proof (run_keeps_strategy scen d e g Hinv) as [Hs Ha].
  destruct (run scen d e g) as [[res e'] g']. cbn [fst snd] in *.
  destruct (IH e' g' H) as [Hs' Ha']. split; congruence.
Qed.

(** ** The processing loop: timing, drops and counts *)

(** C3: in any run of an engine, whatever calls it served before, every
    request the run appends to the completed list has its assignment time,
    completion time and assigned staff all set, the assignment not before
    the submission and the completion not before the assignment. *)
Theorem run_completed_well_timed (sched alloc : string)
    (clock : nat -> datetime) (calls : list (string * Z)) (g0 : RandomSource)
    (scen : string) (duration_min : Z) :
  let e := (run_many calls (new_engine sched alloc clock) g0).1 in
  let g := (run_many calls (new_engine sched alloc clock) g0).2 in
  exists added,
    completed (run scen duration_min e g).1.2 = completed e ++ added /\
    Forall completed_ok added /\
    Forall completed_ok (completed (run scen duration_min e g).1.2).
Proof.
  intros e g.
  assert (Hinv : engine_invariant e)
    by apply run_many_invariant, new_engine_invariant.
  destruct (run_spec scen duration_min e g (ROSTER_NoDup e (proj1 Hinv)))
    as (added & (_ & _ & _ & _ & Hco & Hok & _) & _).
  destruct (prepared_fields scen e) as (_ & _ & _ & Hco1 & _).
  exists added. rewrite Hco, Hco1. repeat split; [done|].
  apply Forall_app. split; [apply Hinv|done].
Qed.

(** C5: within the horizon, the loop drops a request exactly when the
    candidate set of the active allocator is empty; otherwise it assigns the
    request to a candidate, however busy, at the later of the submission time
    and the member's next-available time. *)
Theorem drop_only_without_candidates (end_time : datetime)
    (req : DocumentRequest) (e : SimulationEngine) (g : RandomSource) (c : Q) :
  submission_time req <= end_time ->
  table_get DOCUMENT_COMPLEXITY (document_type req) = Some c ->
  let res := process_request end_time req e g in
  (candidates (allocator e) (staff_pool e) req = [] -> res = (Ok tt, e, g)) /\
  (candidates (allocator e) (staff_pool e) req <> [] ->
   exists i s m g',
     (i, s) ∈ candidates (allocator e) (staff_pool e) req /\
     res = (Ok tt, record_assignment e req i s m, g') /\
     completed res.1.2 = completed e ++ [assigned_to req s m] /\
     assignment_time (assigned_to req s m)
       = Some (Z.max (submission_time req) (next_available_time s))) /\
  (completed res.1.2 = completed e ->
   candidates (allocator e) (staff_pool e) req = []).
Proof.
  intros Hle Hc res.
  assert (Hne : candidates (allocator e) (staff_pool e) req <> [] ->
    exists i s m g',
      (i, s) ∈ candidates (allocator e) (staff_pool e) req /\
      res = (Ok tt, record_assignment e req i s m, g') /\
      completed res.1.2 = completed e ++ [assigned_to req s m] /\
      assignment_time (assigned_to req s m)
        = Some (Z.max (submission_time req) (next_available_time s))).
  { intros Hne. subst res.
    destruct (process_request_outcome end_time req e g)
      as [?|? ?|i s g' ? Hin Hk|i s g' c' ? Ha Hin Hk m]; try lia; try done.
    - congruence.
    - exists i, s, m, (rs_next g').2. repeat split; [done|].
      cbn. by rewrite py_max_Zmax. }
  repeat split.
  - intros Hnil. subst res.
    destruct (process_request_outcome end_time req e g)
      as [?|? ?|i s g' ? Hin Hk|i s g' c' ? Ha Hin Hk m]; try done.
    + rewrite Hnil in Hin. by apply elem_of_nil in Hin.
    + rewrite Hnil in Hin. by apply elem_of_nil in Hin.
  - exact Hne.
  - intros Hsame.
    destruct (candidates (allocator e) (staff_pool e) req) as [|c0 cs] eqn:E;
      [done|].
    destruct Hne as (i & s & m & g' & _ & _ & Hco & _); [done|].
    rewrite Hco in Hsame. apply (f_equal length) in Hsame.
    rewrite length_app in Hsame. cbn in Hsame. lia.
Qed.

Lemma drop_only_without_candidates_witness :
  let e := new_engine "FCFS" "pooled" (fun _ => 100) in
  let req := new_request "REQ0000" "COE" "Certification" 5 "Faculty" 0 in
  let g : RandomSource := fun _ => 0%N in
  let res := process_request 60 req e g in
  (submission_time req <= 60 /\
   table_get DOCUMENT_COMPLEXITY (document_type req) = Some (8 # 10)%Q) /\
  (candidates (allocator e) (staff_pool e) req = [] -> res = (Ok tt, e, g)) /\
  (candidates (allocator e) (staff_pool e) req <> [] ->
   exists i s m g',
     (i, s) ∈ candidates (allocator e) (staff_pool e) req /\
     res = (Ok tt, record_assignment e req i s m, g') /\
     completed res.1.2 = completed e ++ [assigned_to req s m] /\
     assignment_time (assigned_to req s m)
       = Some (Z.max (submission_time req) (next_available_time s))) /\
  (completed res.1.2 = completed e ->
   candidates (allocator e) (staff_pool e) req = []).
Proof.
  intros e req g res. split; [split; [cbn; lia|reflexivity]|].
  apply (drop_only_without_candidates 60 req e g (8 # 10)%Q);
    [cbn; lia|reflexivity].
Defined.

(** C6: the workload-based allocator returns only members of the roster
    whose availability flag is set, and the assignment that follows adds
    exactly 1 to the count of the chosen member and leaves every other member
    as it was. *)
Theorem workload_based_assign_safe (e : SimulationEngine)
    (req : DocumentRequest) (end_time : datetime) (g : RandomSource)
    (i : nat) (s : StaffMember) (c : Q) :
  allocator e = WorkloadBasedAllocator ->
  WorkloadBasedAllocator_assign (staff_pool e) req (submission_time req)
    = Some (i, s) ->
  submission_time req <= end_time ->
  table_get DOCUMENT_COMPLEXITY (document_type req) = Some c ->
  let e' := (process_request end_time req e g).1.2 in
  (staff_pool e !! i = Some s /\ is_available s = true) /\
  (exists s', staff_pool e' !! i = Some s' /\
              total_assigned s' = S (total_assigned s)) /\
  (forall j, j <> i -> staff_pool e' !! j = staff_pool e !! j).
Proof.
  intros Hal Hass Hle Hc e'.
  assert (Ha : assign (allocator e) (staff_pool e) req (submission_time req) g
               = (Ok (Some (i, s)), g)).
  { rewrite Hal. cbn [assign]. by rewrite Hass. }
  pose proof (assign_Some _ _ _ _ _ _ _ Ha) as Hin.
  pose proof (candidates_lookup _ _ _ _ _ Hin) as [Hi Hav].
  split; [done|]. subst e'.
  destruct (process_request_outcome end_time req e g)
    as [?|? Hnil|i' s' g' ? Hin' Hk|i' s' g' c' ? Ha' Hin' Hk m]; try lia.
  - rewrite Hnil in Hin. by apply elem_of_nil in Hin.
  - congruence.
  - rewrite Ha in Ha'. simplify_eq. cbn [fst snd record_assignment
      staff_pool set_completed set_staff_pool]. split.
    + eexists. rewrite list_lookup_insert_eq by (by eapply lookup_lt_Some).
      split; [reflexivity|]. done.
    + intros j Hj. by rewrite list_lookup_insert_ne.
Qed.

Lemma workload_based_assign_safe_witness :
  let e := new_engine "FCFS" "workload_based" (fun _ => 0) in
  let req := new_request "REQ0000" "CAS" "Certification" 5 "Faculty" 0 in
  let g : RandomSource := fun _ => 0%N in
  let s := new_staff "STAFF002" "Juan Dela Cruz" "CAS" 0 in
  let e' := (process_request 60 req e g).1.2 in
  (staff_pool e !! 1%nat = Some s /\ is_available s = true) /\
  (exists s', staff_pool e' !! 1%nat = Some s' /\
              total_assigned s' = S (total_assigned s)) /\
  (forall j, j <> 1%nat -> staff_pool e' !! j = staff_pool e !! j).
Proof.
  intros e req g s e'.
  apply (workload_based_assign_safe e req 60 g 1%nat s (8 # 10)%Q);
    [reflexivity|reflexivity|cbn; lia|reflexivity].
Defined.

(** ** Availability flags across runs *)

Lemma invariant_third_member (e : SimulationEngine) :
  engine_invariant e ->
  exists s, staff_pool e !! 2%nat = Some s /\
            staff_id s = "STAFF003" /\ college_affiliation s = "CBA".
Proof.
  intros (Hro & _). unfold roster_static in Hro.
  assert (H : ((fun s => (staff_id s, name s, college_affiliation s)) <$>
               staff_pool e) !! 2%nat = ROSTER !! 2%nat) by (by rewrite Hro).
  rewrite list_lookup_fmap in H. cbn in H.
  destruct (staff_pool e !! 2%nat) as [s|]; [|done].
  exists s. cbn in H. by simplify_eq.
Qed.

Lemma processes_flag (added : list DocumentRequest) (e e' : SimulationEngine)
    (i : nat) (s : StaffMember) :
  processes added e e' -> staff_pool e !! i = Some s ->
  exists s', staff_pool e' !! i = Some s' /\
             is_available s' = is_available s.
Proof.
  intros (_ & _ & _ & _ & _ & _ & Hf & _) Hs.
  destruct (Forall2_lookup_l _ _ _ _ _ Hf Hs) as (s' & Hs' & Hev).
  exists s'. split; [done|]. apply Hev.
Qed.

Lemma run_keeps_third_unavailable (scen : string) (duration_min : Z)
    (e : SimulationEngine) (g : RandomSource) :
  engine_invariant e ->
  scen = "staff_absence" \/ third_member_unavailable e ->
  third_member_unavailable (run scen duration_min e g).1.2.
Proof.
  intros Hinv Hcase.
  destruct (invariant_third_member _ (run_invariant scen duration_min e g Hinv))
    as (s' & Hs' & Hid & Hcol).
  destruct (run_spec scen duration_min e g (ROSTER_NoDup e (proj1 Hinv)))
    as (added & Hp & _).
  exists s'. repeat split; try done.
  assert (H1 : exists s1, staff_pool (prepared scen e) !! 2%nat = Some s1 /\
                          is_available s1 = false).
  { destruct (invariant_third_member e Hinv) as (s & Hs & _).
    destruct Hcase as [->|(s0 & Hs0 & _ & _ & Hav)].
    - unfold prepared. rewrite String.eqb_refl.
      cbn [staff_pool set_scenario]. rewrite Hs.
      cbn [staff_pool set_staff_pool].
      eexists. rewrite list_lookup_insert_eq by (by eapply lookup_lt_Some).
      split; [reflexivity|done].
    - destruct (Forall2_lookup_l _ _ _ _ _ (prepared_pool scen e) Hs0)
        as (s1 & Hs1 & _ & _ & _ & Hfl).
      exists s1. split; [done|]. destruct Hfl; congruence. }
  destruct H1 as (s1 & Hs1 & Hav1).
  destruct (processes_flag _ _ _ _ _ Hp Hs1) as (s2 & Hs2 & Hav2).
  congruence.
Qed.

Lemma run_many_keeps_third_unavailable (calls : list (string * Z))
    (e : SimulationEngine) (g : RandomSource) :
  engine_invariant e -> third_member_unavailable e ->
  third_member_unavailable (run_many calls e g).1.
Proof.
  revert e g. induction calls as [|[scen d] calls IH]; intros e g Hinv Hth;
    [done|].
  cbn [run_many]. pose proof (run_invariant scen d e g Hinv) as H.
  pose proof (run_keeps_third_unavailable scen d e g Hinv (or_intror Hth)) as H'.
  destruct (run scen d e g) as [[res e'] g']. by apply IH.
Qed.

(** C10: on any engine, once a run with scenario [staff_absence] has been
    made, the third roster member (STAFF003, college CBA) is unavailable, and
    it is still unavailable after any further sequence of runs, whatever
    their scenarios and durations. *)
Theorem staff_absence_is_permanent (sched alloc : string)
    (clock : nat -> datetime) (before after : list (string * Z))
    (g0 : RandomSource) (duration_min : Z) :
  let e := (run_many before (new_engine sched alloc clock) g0).1 in
  let g := (run_many before (new_engine sched alloc clock) g0).2 in
  let e1 := (run "staff_absence" duration_min e g).1.2 in
  let g1 := (run "staff_absence" duration_min e g).2 in
  third_member_unavailable e1 /\
  third_member_unavailable (run_many after e1 g1).1.
Proof.
  intros e g e1 g1.
  assert (Hinv : engine_invariant e)
    by apply run_many_invariant, new_engine_invariant.
  assert (H1 : third_member_unavailable e1)
    by (apply run_keeps_third_unavailable; [done|by left]).
  split; [done|].
  apply run_many_keeps_third_unavailable; [|done].
  by apply run_invariant.
Qed.

(** ** An unknown scheduler kind *)

Lemma run_unknown_scheduler (scen : string) (duration_min : Z)
    (e : SimulationEngine) (g : RandomSource) :
  engine_invariant e ->
  String.eqb (scheduler_type e) "FCFS" = false ->
  String.eqb (scheduler_type e) "WEIGHTED" = false ->
  (run scen duration_min e g).1 =
    (Raise (ValueError ("Unknown scheduler type: " ++ scheduler_type e)%string),
     prepared scen e).
Proof.
  intros Hinv Hf Hw. unfold run, mbind, M_bind.
  destruct (invariant_third_member e Hinv) as (s & Hs & _).
  destruct (_generate_requests_spec scen duration_min e g)
    as [(rs & g1 & -> & Hrs)|(_ & Hnone & _)]; [|congruence].
  unfold get_self.
  destruct (prepared_fields scen e) as (-> & _).
  rewrite Hf, Hw. reflexivity.
Qed.

(** C2, as amended: on an engine built with an unrecognized scheduler kind
    written in ASCII, [run] with a duration in range raises [ValueError]
    with a message that ends in the upper-cased scheduler kind, and it
    completes no request: the completed list, the next-available times and
    the assignment counts are as before. The scenario label is the scenario
    argument, and with scenario [staff_absence] the third member's
    availability flag is false. (Outside ASCII [str.upper()] can turn a
    kind into a recognized one, and a duration out of range makes the
    generator raise [OverflowError] before the scheduler kind is looked
    at.) *)
Theorem unknown_scheduler_raises (sched alloc : string)
    (clock : nat -> datetime) (calls : list (string * Z)) (g0 : RandomSource)
    (scen : string) (duration_min : Z) :
  is_ascii sched = true ->
  duration_in_range duration_min = true ->
  recognized sched = false ->
  let e := (run_many calls (new_engine sched alloc clock) g0).1 in
  let g := (run_many calls (new_engine sched alloc clock) g0).2 in
  let e' := (run scen duration_min e g).1.2 in
  (run scen duration_min e g).1.1 =
    Raise (ValueError ("Unknown scheduler type: " ++ upper sched)%string) /\
  completed e' = completed e /\
  (fun s => (next_available_time s, total_assigned s)) <$> staff_pool e' =
    (fun s => (next_available_time s, total_assigned s)) <$> staff_pool e /\
  scenario e' = scen /\
  is_available <$> staff_pool e' =
    (if String.eqb scen "staff_absence"
     then <[2%nat := false]> (is_available <$> staff_pool e)
     else is_available <$> staff_pool e).
Proof.
  intros _ _ Hrec e g e'.
  assert (Hinv : engine_invariant e)
    by apply run_many_invariant, new_engine_invariant.
  destruct (run_many_keeps_strategy calls (new_engine sched alloc clock) g0
              (new_engine_invariant sched alloc clock)) as [Hs _].
  fold e in Hs. cbn [scheduler_type new_engine] in Hs.
  unfold recognized in Hrec. apply orb_false_iff in Hrec as [Hf Hw].
  pose proof (run_unknown_scheduler scen duration_min e g Hinv) as Hrun.
  rewrite Hs in Hrun. specialize (Hrun Hf Hw).
  subst e'. destruct (run scen duration_min e g) as [[res e1] g1].
  cbn [fst snd] in *. injection Hrun as -> ->.
  split; [done|].
  destruct (prepared_fields scen e) as (_ & _ & _ & Hco & Hsc).
  split; [done|]. split; [|split; [done|]].
  - unfold prepared. destruct (String.eqb scen "staff_absence"); [|done].
    cbn [staff_pool set_scenario].
    destruct (staff_pool e !! 2%nat) as [s|] eqn:E; [|done].
    cbn [staff_pool set_staff_pool]. rewrite list_fmap_insert. cbn.
    apply list_insert_id. by rewrite list_lookup_fmap, E.
  - unfold prepared. destruct (String.eqb scen "staff_absence"); [|done].
    cbn [staff_pool set_scenario].
    destruct (staff_pool e !! 2%nat) as [s|] eqn:E.
    + cbn [staff_pool set_staff_pool]. by rewrite list_fmap_insert.
    + symmetry. apply list_insert_ge. rewrite length_fmap.
      by apply lookup_ge_None.
Qed.

Lemma unknown_scheduler_raises_witness :
  let e := new_engine "rr" "pooled" (fun _ => 0) in
  let g : RandomSource := fun _ => 0%N in
  let e' := (run "staff_absence" 60 e g).1.2 in
  is_ascii "rr" = true /\ duration_in_range 60 = true /\
  recognized "rr" = false /\
  (run "staff_absence" 60 e g).1.1 =
    Raise (ValueError "Unknown scheduler type: RR") /\
  completed e' = completed e /\
  (fun s => (next_available_time s, total_assigned s)) <$> staff_pool e' =
    (fun s => (next_available_time s, total_assigned s)) <$> staff_pool e /\
  scenario e' = "staff_absence" /\
  is_available <$> staff_pool e' =
    <[2%nat := false]> (is_available <$> staff_pool e).
Proof.
  intros e g e'. split; [reflexivity|]. split; [reflexivity|].
  split; [reflexivity|].
  apply (unknown_scheduler_raises "rr" "pooled" (fun _ => 0) [] g
           "staff_absence" 60); reflexivity.
Defined.

(** C2, as stated, fails: with an unrecognized scheduler kind and scenario
    [staff_absence], the failed call has overwritten the scenario label and
    cleared the third member's availability flag. *)
Lemma unknown_scheduler_changes_state :
  let e := new_engine "rr" "pooled" (fun _ => 0) in
  let g : RandomSource := fun _ => 0%N in
  recognized "rr" = false /\
  (run "staff_absence" 60 e g).1.1 =
    Raise (ValueError "Unknown scheduler type: RR") /\
  observable_state (run "staff_absence" 60 e g).1.2 <> observable_state e /\
  scenario (run "staff_absence" 60 e g).1.2 <> scenario e /\
  is_available <$> staff_pool (run "staff_absence" 60 e g).1.2
    <> is_available <$> staff_pool e.
Proof.
  cbv zeta. split; [reflexivity|]. split; [by vm_compute|].
  repeat split; intros H; vm_compute in H; discriminate H.
Qed.

(** ** The per-agent load map *)

Lemma staff_load_of_snoc (pool : list StaffMember) (s : StaffMember) :
  staff_load_of (pool ++ [s]) =
  <[staff_id s := total_assigned s]> (staff_load_of pool).
Proof. unfold staff_load_of. by rewrite foldl_app. Qed.

Lemma staff_load_of_fresh (pool : list StaffMember) (sid : string) :
  sid ∉ staff_id <$> pool -> staff_load_of pool !! sid = None.
Proof.
  induction pool as [|s pool IH] using rev_ind; intros Hnot.
  - unfold staff_load_of. cbn. apply lookup_empty.
  - rewrite fmap_app in Hnot. apply not_elem_of_app in Hnot as [H1 H2].
    rewrite staff_load_of_snoc. rewrite lookup_insert_ne; [by apply IH|].
    intros <-. apply H2. cbn. apply list_elem_of_here.
Qed.

Lemma NoDup_snoc_staff_id (pool : list StaffMember) (s : StaffMember) :
  NoDup (staff_id <$> pool ++ [s]) ->
  NoDup (staff_id <$> pool) /\ staff_id s ∉ staff_id <$> pool.
Proof.
  rewrite fmap_app. intros (Hnd & Hdis & _)%NoDup_app. split; [done|].
  intros Hin. apply (Hdis _ Hin). cbn. apply list_elem_of_here.
Qed.

Lemma staff_load_of_lookup_Some (pool : list StaffMember) (sid : string)
    (n : nat) :
  NoDup (staff_id <$> pool) ->
  staff_load_of pool !! sid = Some n <->
  exists i s, pool !! i = Some s /\ staff_id s = sid /\ total_assigned s = n.
Proof.
  induction pool as [|s pool IH] using rev_ind; intros Hnd.
  - unfold staff_load_of. cbn. rewrite lookup_empty. split; [done|].
    by intros (i & t & Hl & _).
  - apply NoDup_snoc_staff_id in Hnd as [Hnd Hfresh].
    rewrite staff_load_of_snoc. specialize (IH Hnd).
    destruct (decide (staff_id s = sid)) as [<-|Hne].
    + rewrite lookup_insert_eq. split.
      * intros [= <-]. exists (length pool), s.
        split; [by apply list_lookup_middle|done].
      * intros (i & t & [[Hlt Hl]|[-> <-]]%lookup_snoc_Some & Hid & Ht);
          [|by rewrite Ht].
        exfalso. apply Hfresh. rewrite <- Hid.
        apply list_elem_of_fmap. exists t. split; [done|].
        by eapply list_elem_of_lookup_2.
    + rewrite lookup_insert_ne by done. rewrite IH. split.
      * intros (i & t & Hl & Hid & Ht). exists i, t. split; [|done].
        apply lookup_snoc_Some. left. split; [|done]. by eapply lookup_lt_Some.
      * intros (i & t & [[Hlt Hl]|[-> <-]]%lookup_snoc_Some & Hid & Ht);
          [|done].
        by exists i, t.
Qed.

Lemma staff_load_of_size (pool : list StaffMember) :
  NoDup (staff_id <$> pool) -> size (staff_load_of pool) = length pool.
Proof.
  induction pool as [|s pool IH] using rev_ind; intros Hnd.
  - unfold staff_load_of. cbn. apply map_size_empty.
  - apply NoDup_snoc_staff_id in Hnd as [Hnd Hfresh].
    rewrite staff_load_of_snoc, map_size_insert_None
      by (by apply staff_load_of_fresh).
    rewrite IH by done. rewrite length_app. cbn. lia.
Qed.

Lemma staff_load_of_total (pool : list StaffMember) :
  NoDup (staff_id <$> pool) ->
  load_total (staff_load_of pool) = sum_list (total_assigned <$> pool).
Proof.
  induction pool as [|s pool IH] using rev_ind; intros Hnd.
  - unfold staff_load_of, load_total. cbn. apply map_fold_empty.
  - apply NoDup_snoc_staff_id in Hnd as [Hnd Hfresh].
    rewrite staff_load_of_snoc. unfold load_total.
    rewrite map_fold_insert_L.
    + fold (load_total (staff_load_of pool)). rewrite IH by done.
      rewrite fmap_app, sum_list_with_app. cbn. unfold id. lia.
    + intros. lia.
    + by apply staff_load_of_fresh.
Qed.

(** ** Metrics are cumulative *)

Lemma prepared_lookup (scen : string) (e : SimulationEngine) (i : nat)
    (s : StaffMember) :
  staff_pool e !! i = Some s ->
  exists s', staff_pool (prepared scen e) !! i = Some s' /\
             staff_id s' = staff_id s /\ total_assigned s' = total_assigned s.
Proof.
  intros Hs.
  destruct (Forall2_lookup_l _ _ _ _ _ (prepared_pool scen e) Hs)
    as (s' & Hs' & Hid & Ht & _).
  by exists s'.
Qed.

(** C9: on one engine, the report of a later call of [run] counts the
    completions of the earlier calls as well: [total_processed] is the
    length of the whole completed list, and every [staff_load] value is the
    value of the previous report plus the assignments of the new run. *)
Theorem metrics_accumulate (sched alloc : string) (clock : nat -> datetime)
    (calls : list (string * Z)) (g0 : RandomSource)
    (scen1 : string) (d1 : Z) (scen2 : string) (d2 : Z) (r1 r2 : Report.t) :
  let e := (run_many calls (new_engine sched alloc clock) g0).1 in
  let g := (run_many calls (new_engine sched alloc clock) g0).2 in
  let e1 := (run scen1 d1 e g).1.2 in
  let g1 := (run scen1 d1 e g).2 in
  let e2 := (run scen2 d2 e1 g1).1.2 in
  (run scen1 d1 e g).1.1 = Ok r1 ->
  (run scen2 d2 e1 g1).1.1 = Ok r2 ->
  exists added2,
    completed e2 = completed e1 ++ added2 /\
    Report.total_processed r1 = length (completed e1) /\
    Report.total_processed r2 =
      (Report.total_processed r1 + length added2)%nat /\
    (forall sid n1,
       Report.staff_load r1 !! sid = Some n1 ->
       Report.staff_load r2 !! sid = Some (n1 + load_of sid added2)%nat) /\
    load_total (Report.staff_load r2) =
      (load_total (Report.staff_load r1) + length added2)%nat.
Proof.
  intros e g e1 g1 e2 H1 H2.
  assert (Hinv : engine_invariant e)
    by apply run_many_invariant, new_engine_invariant.
  assert (Hinv1 : engine_invariant e1) by (by apply run_invariant).
  assert (Hinv2 : engine_invariant e2) by (by apply run_invariant).
  destruct (run_spec scen1 d1 e g (ROSTER_NoDup e (proj1 Hinv)))
    as (added1 & Hp1 & _ & Hr1).
  destruct (Hr1 r1 H1) as (Ht1 & Hl1 & _).
  destruct (run_spec scen2 d2 e1 g1 (ROSTER_NoDup e1 (proj1 Hinv1)))
    as (added2 & Hp2 & _ & Hr2).
  destruct (Hr2 r2 H2) as (Ht2 & Hl2 & _).
  fold e1 in Hp1, Hl1. fold e2 in Hp2, Hl2.
  destruct (prepared_fields scen1 e) as (_ & _ & _ & Hco1 & _).
  destruct (prepared_fields scen2 e1) as (_ & _ & _ & Hco2 & _).
  pose proof Hp1 as (_ & _ & _ & _ & Hc1 & _).
  pose proof Hp2 as (_ & _ & _ & _ & Hc2 & _ & Hf2 & _).
  rewrite Hco1 in Hc1. rewrite Hco2 in Hc2.
  exists added2. split; [done|].
  assert (Ht1' : Report.total_processed r1 = length (completed e1))
    by (by rewrite Ht1, Hc1, length_app).
  split; [done|]. split; [lia|]. split.
  - intros sid n1 Hn1. rewrite Hl1 in Hn1. rewrite Hl2.
    apply staff_load_of_lookup_Some in Hn1 as (i & s1 & Hs1 & Hid & Hn);
      [|by apply ROSTER_NoDup, Hinv1].
    destruct (prepared_lookup scen2 e1 i s1 Hs1) as (s1' & Hs1' & Hid' & Hn').
    destruct (Forall2_lookup_l _ _ _ _ _ Hf2 Hs1')
      as (s2 & Hs2 & Hid2 & _ & _ & _ & Hn2).
    apply staff_load_of_lookup_Some; [by apply ROSTER_NoDup, Hinv2|].
    exists i, s2. split; [done|]. split; [congruence|].
    rewrite Hn2, Hn', Hn, Hid', Hid. done.
  - rewrite Hl1, Hl2.
    rewrite !staff_load_of_total
      by (apply ROSTER_NoDup; [apply Hinv2 || apply Hinv1]).
    destruct Hinv1 as (_ & _ & -> & _). destruct Hinv2 as (_ & _ & -> & _).
    rewrite Hc2, length_app. done.
Qed.

Lemma metrics_accumulate_witness :
  let e := new_engine "FCFS" "college_based" (fun _ => 0) in
  let g : RandomSource := fun n => N.of_nat n in
  let e1 := (run "baseline" 60 e g).1.2 in
  let g1 := (run "baseline" 60 e g).2 in
  let e2 := (run "peak_urgency" 60 e1 g1).1.2 in
  exists r1 r2,
    ((run "baseline" 60 e g).1.1 = Ok r1 /\
     (run "peak_urgency" 60 e1 g1).1.1 = Ok r2) /\
    exists added2,
      completed e2 = completed e1 ++ added2 /\
      Report.total_processed r1 = length (completed e1) /\
      Report.total_processed r2 =
        (Report.total_processed r1 + length added2)%nat /\
      (forall sid n1,
         Report.staff_load r1 !! sid = Some n1 ->
         Report.staff_load r2 !! sid = Some (n1 + load_of sid added2)%nat) /\
      load_total (Report.staff_load r2) =
        (load_total (Report.staff_load r1) + length added2)%nat.
Proof.
  intros e g e1 g1 e2.
  assert (H1 : {r1 | (run "baseline" 60 e g).1.1 = Ok r1}).
  { eexists. vm_compute. reflexivity. }
  assert (H2 : {r2 | (run "peak_urgency" 60 e1 g1).1.1 = Ok r2}).
  { eexists. vm_compute. reflexivity. }
  destruct H1 as [r1 H1]. destruct H2 as [r2 H2].
  exists r1, r2. split; [exact (conj H1 H2)|].
  exact (metrics_accumulate "FCFS" "college_based" (fun _ => 0) [] g
           "baseline" 60 "peak_urgency" 60 r1 r2 H1 H2).
Defined.

(** ** The throughput scenario *)

Lemma keys_known (k : string) :
  k ∈ table_keys DOCUMENT_COMPLEXITY ->
  exists c, table_get DOCUMENT_COMPLEXITY k = Some c.
Proof.
  unfold table_keys, DOCUMENT_COMPLEXITY. cbn [map fst].
  rewrite !elem_of_cons. intros [->|[->|[->|[->|H]]]];
    [by eexists..|by apply elem_of_nil in H].
Qed.

Lemma college_candidates_nonempty (pool : list StaffMember)
    (req : DocumentRequest) (i : nat) (s : StaffMember) :
  pool !! i = Some s ->
  college_affiliation s = college req -> is_available s = true ->
  candidates CollegeBasedAllocator pool req <> [].
Proof.
  intros Hs Hc Ha Hnil.
  assert (Hin : (i, s) ∈ candidates CollegeBasedAllocator pool req).
  { cbn [candidates]. apply elem_of_bool_filter. split.
    - by apply elem_of_enumerate.
    - unfold same_college_available. cbn [snd].
      rewrite Hc, Ha, String.eqb_refl. done. }
  rewrite Hnil in Hin. by apply elem_of_nil in Hin.
Qed.

(** Every college of [COLLEGES] has its member in the roster. *)
Lemma roster_covers_colleges (e : SimulationEngine) (col : string) :
  roster_static e = ROSTER -> col ∈ COLLEGES ->
  exists i s, staff_pool e !! i = Some s /\ college_affiliation s = col.
Proof.
  intros Hro Hcol. unfold roster_static in Hro.
  assert (Hl : forall i x, ROSTER !! i = Some x ->
                 exists s, staff_pool e !! i = Some s /\
                           college_affiliation s = x.2).
  { intros i x Hx. rewrite <- Hro, list_lookup_fmap in Hx.
    destruct (staff_pool e !! i) as [s|]; [|done].
    exists s. cbn in Hx. by simplify_eq. }
  unfold COLLEGES in Hcol. rewrite !elem_of_cons in Hcol.
  destruct Hcol as [->|[->|[->|[->|[->|[->|H]]]]]];
    [ exists 0%nat; apply (Hl 0%nat _ eq_refl)
    | exists 1%nat; apply (Hl 1%nat _ eq_refl)
    | exists 2%nat; apply (Hl 2%nat _ eq_refl)
    | exists 3%nat; apply (Hl 3%nat _ eq_refl)
    | exists 4%nat; apply (Hl 4%nat _ eq_refl)
    | exists 5%nat; apply (Hl 5%nat _ eq_refl)
    | by apply elem_of_nil in H ].
Qed.

(** With every member available, the college-based allocator serves every
    request of the horizon whose college is one of [COLLEGES]. *)
Lemma college_based_serves_all (end_time : datetime)
    (reqs : list DocumentRequest) (e : SimulationEngine) (g : RandomSource) :
  allocator e = CollegeBasedAllocator ->
  roster_static e = ROSTER ->
  Forall (fun s => is_available s = true) (staff_pool e) ->
  Forall (fun r => submission_time r <= end_time /\
                   document_type r ∈ table_keys DOCUMENT_COMPLEXITY /\
                   college r ∈ COLLEGES) reqs ->
  exists added e' g',
    process_all end_time reqs e g = (Ok tt, e', g') /\
    processes added e e' /\ length added = length reqs.
Proof.
  revert e g. induction reqs as [|req reqs IH]; intros e g Hal Hro Hav Hreqs.
  - exists [], e, g. split; [done|]. split; [apply processes_refl|done].
  - apply Forall_cons in Hreqs as [(Hle & Hdoc & Hcol) Hreqs].
    cbn [process_all]. unfold mbind, M_bind.
    destruct (roster_covers_colleges e _ Hro Hcol) as (i & s & Hs & Hc).
    assert (Hne : candidates (allocator e) (staff_pool e) req <> []).
    { rewrite Hal. eapply college_candidates_nonempty; [done..|].
      rewrite Forall_lookup in Hav. by eapply Hav. }
    destruct (keys_known _ Hdoc) as (c & Hk).
    destruct (drop_step end_time req e g c Hle Hk Hne)
      as (j & t & m & g1 & Hin & -> & Hok).
    pose proof (candidates_lookup _ _ _ _ _ Hin) as [Hj _].
    pose proof (record_assignment_processes e req j t m
                  (ROSTER_NoDup e Hro) Hj Hok) as Hp1.
    set (e1 := record_assignment e req j t m) in *.
    destruct (IH e1 g1) as (a2 & e2 & g2 & -> & Hp2 & Hl2).
    + destruct Hp1 as (_ & -> & _). done.
    + by rewrite (processes_roster_static _ _ _ Hp1).
    + destruct Hp1 as (_ & _ & _ & _ & _ & _ & Hf & _).
      apply Forall_lookup_2. intros k x Hx.
      destruct (Forall2_lookup_r _ _ _ _ _ Hf Hx) as (y & Hy & Hev).
      destruct Hev as (_ & _ & _ & -> & _).
      rewrite Forall_lookup in Hav. by eapply Hav.
    + done.
    + exists ([assigned_to req t m] ++ a2), e2, g2. split; [done|].
      split; [by eapply processes_trans|].
      rewrite length_app. cbn [length]. lia.
Qed.

Lemma baseline_offset_in_horizon (i : nat) :
  (i < 80)%nat ->
  timedelta_minutes
    (inject_Z (Z.of_nat i) * (inject_Z 60 / inject_Z (Z.of_nat 80)))
  <= timedelta_minutes (inject_Z 60).
Proof.
  intros Hi. change (timedelta_minutes (inject_Z 60)) with 3600000000.
  unfold timedelta_minutes. apply round_half_even_le.
  assert (Hx : (inject_Z (Z.of_nat i) <= inject_Z 80)%Q)
    by (rewrite <- Zle_Qle; lia).
  change (inject_Z (Z.of_nat 80)) with 80%Q.
  change (inject_Z 60) with 60%Q. change (inject_Z 80) with 80%Q in Hx.
  change (inject_Z 3600000000) with 3600000000%Q.
  set (x := inject_Z (Z.of_nat i)) in *. clearbody x. no_div. lra.
Qed.

(** C7: whatever the random source and the clock, a fresh engine with the
    FCFS scheduler and the college-based allocator, run on scenario
    [baseline] for 60 minutes, returns a report with
    [0 < total_processed <= 80] (all 80 requests are processed) and a
    [staff_load] of exactly 6 entries whose values sum to
    [total_processed]. *)
Theorem baseline_throughput (clock : nat -> datetime) (g : RandomSource) :
  exists r,
    (run "baseline" 60 (new_engine "FCFS" "college_based" clock) g).1.1 = Ok r /\
    (0 < Report.total_processed r <= 80)%nat /\
    Report.total_processed r = 80%nat /\
    size (Report.staff_load r) = 6%nat /\
    load_total (Report.staff_load r) = Report.total_processed r.
Proof.
  set (e0 := new_engine "FCFS" "college_based" clock).
  pose proof (new_engine_invariant "FCFS" "college_based" clock) as Hinv.
  fold e0 in Hinv.
  unfold run, mbind, M_bind.
  destruct (_generate_requests_spec "baseline" 60 e0 g)
    as [(rs & g1 & -> & Hrs)|(Habs & _)]; [|discriminate Habs].
  change (prepared "baseline" e0) with e0. unfold get_self.
  change (String.eqb (scheduler_type e0) "WEIGHTED") with false.
  change (String.eqb (scheduler_type e0) "FCFS") with true.
  cbv iota. unfold mret at 1, M_ret at 1.
  change (total_requests_of "baseline") with 80%nat in Hrs.
  set (end_time := start_time e0 + timedelta_minutes (inject_Z 60)).
  assert (Hreqs :
    Forall (fun r => submission_time r <= end_time /\
                     document_type r ∈ table_keys DOCUMENT_COMPLEXITY /\
                     college r ∈ COLLEGES)
      (sorted by_submission_time rs)).
  { rewrite sorted_Permutation. apply Forall_lookup_2. intros k r Hr.
    destruct (Forall2_lookup_r _ _ _ _ _ Hrs Hr) as (i & Hi & Hgen).
    apply lookup_seq in Hi as [-> Hk].
    destruct Hgen as (_ & Hcol & Hdoc & _ & _ & Hsub & _).
    split; [|done]. rewrite Hsub. subst end_time.
    pose proof (baseline_offset_in_horizon (0 + k) ltac:(lia)). lia. }
  destruct (college_based_serves_all end_time _ e0 g1 eq_refl (proj1 Hinv)
              ltac:(repeat constructor) Hreqs)
    as (added & e' & g' & -> & Hp & Hlen).
  rewrite sorted_Permutation in Hlen.
  apply Forall2_length in Hrs. rewrite length_seq in Hrs.
  pose proof (processes_roster_static _ _ _ Hp) as Hro.
  rewrite (proj1 Hinv) in Hro.
  destruct Hp as (_ & _ & _ & _ & Hco & _ & _ & Hsum).
  change (completed e0) with (@nil DocumentRequest) in Hco.
  change (sum_list (total_assigned <$> staff_pool e0)) with 0%nat in Hsum.
  destruct (_calculate_metrics_spec 60 e' g')
    as [(r & -> & Ht & Hl & _)|(_ & _ & Hz)]; [|discriminate Hz].
  exists r. cbn [fst snd]. split; [done|].
  assert (Ht' : Report.total_processed r = 80%nat).
  { rewrite Ht, Hco. cbn [app]. lia. }
  split; [lia|]. split; [done|]. rewrite Hl.
  assert (Hnd : NoDup (staff_id <$> staff_pool e')) by (by apply ROSTER_NoDup).
  split.
  - rewrite staff_load_of_size by done.
    apply (f_equal length) in Hro. unfold roster_static in Hro.
    by rewrite length_fmap in Hro.
  - rewrite staff_load_of_total by done. rewrite Hsum. lia.
Qed.

(** * Further properties of the code *)

(** ** The order [sorted] produces *)

Section SortedBy.
Context {A : Type} (le : A -> A -> bool).
Hypothesis le_total : forall x y, le x y = true \/ le y x = true.
Hypothesis le_trans :
  forall x y z, le x y = true -> le y z = true -> le x z = true.

Lemma insert_sorted_StronglySorted (x : A) (l : list A) :
  StronglySorted (fun a b => le a b = true) l ->
  StronglySorted (fun a b => le a b = true) (insert_sorted le x l).
Proof using le_total le_trans.
  induction l as [|y l IH]; intros Hs; cbn.
  - repeat constructor.
  - apply StronglySorted_inv in Hs as [Hs Hy].
    destruct (le x y) eqn:E.
    + constructor; [by constructor|].
      constructor; [done|].
      eapply Forall_impl; [exact Hy|]. intros z Hz. by eapply le_trans.
    + constructor; [by apply IH|].
      rewrite insert_sorted_Permutation. constructor; [|done].
      destruct (le_total x y); [congruence|done].
Qed.

Lemma sorted_StronglySorted (l : list A) :
  StronglySorted (fun a b => le a b = true) (sorted le l).
Proof using le_total le_trans.
  unfold sorted. induction l as [|x l IH]; cbn; [constructor|].
  by apply insert_sorted_StronglySorted.
Qed.

(** Elements of one tie class keep their order. *)
Lemma sorted_stable (p : A -> bool) (l : list A) :
  (forall x y, p x = true -> p y = true -> le x y = true) ->
  List.filter p (sorted le l) = List.filter p l.
Proof using Type.
  intros Hp.
  assert (Hins : forall x l',
             List.filter p (insert_sorted le x l') =
             List.filter p (x :: l')).
  { intros x l'. induction l' as [|y l' IH]; [done|].
    cbn [insert_sorted]. destruct (le x y) eqn:E; [done|].
    cbn [List.filter] in *. rewrite IH.
    destruct (p x) eqn:Hx, (p y) eqn:Hy; try done.
    rewrite (Hp x y Hx Hy) in E. discriminate. }
  unfold sorted. induction l as [|x l IH]; [done|].
  cbn [foldr]. rewrite Hins. cbn [List.filter]. by rewrite IH.
Qed.

(** A batch that is in order already is returned as it is. *)
Lemma sorted_noop (l : list A) :
  StronglySorted (fun a b => le a b = true) l -> sorted le l = l.
Proof using Type.
  unfold sorted. induction l as [|x l IH]; intros Hs; [done|].
  apply StronglySorted_inv in Hs as [Hs Hx]. cbn [foldr].
  rewrite (IH Hs). destruct l as [|y l]; [done|]. cbn.
  apply Forall_cons in Hx as [-> _]. done.
Qed.
End SortedBy.

Lemma by_submission_time_total (x y : DocumentRequest) :
  by_submission_time x y = true \/ by_submission_time y x = true.
Proof. unfold by_submission_time. rewrite !Z.leb_le. lia. Qed.

Lemma by_submission_time_trans (x y z : DocumentRequest) :
  by_submission_time x y = true -> by_submission_time y z = true ->
  by_submission_time x z = true.
Proof. unfold by_submission_time. rewrite !Z.leb_le. lia. Qed.

Lemma by_priority_score_desc_total (x y : DocumentRequest) :
  by_priority_score_desc x y = true \/ by_priority_score_desc y x = true.
Proof.
  unfold by_priority_score_desc. rewrite !Qle_bool_iff.
  destruct (Qlt_le_dec (priority_score x) (priority_score y)); [right|left];
    lra.
Qed.

Lemma by_priority_score_desc_trans (x y z : DocumentRequest) :
  by_priority_score_desc x y = true -> by_priority_score_desc y z = true ->
  by_priority_score_desc x z = true.
Proof. unfold by_priority_score_desc. rewrite !Qle_bool_iff. lra. Qed.

Lemma sorted_by_submission_time_ordered (l : list DocumentRequest) :
  StronglySorted (fun x y => submission_time x <= submission_time y)
    (sorted by_submission_time l).
Proof.
  pose proof (sorted_StronglySorted by_submission_time
                by_submission_time_total by_submission_time_trans l) as H.
  induction H as [|x l' Hs IH Hx]; constructor; [done|].
  eapply Forall_impl; [exact Hx|]. intros y Hy.
  unfold by_submission_time in Hy. by apply Z.leb_le.
Qed.

Lemma sorted_by_priority_score_desc_ordered (l : list DocumentRequest) :
  StronglySorted (fun x y => (priority_score y <= priority_score x)%Q)
    (sorted by_priority_score_desc l).
Proof.
  pose proof (sorted_StronglySorted by_priority_score_desc
                by_priority_score_desc_total by_priority_score_desc_trans l)
    as H.
  induction H as [|x l' Hs IH Hx]; constructor; [done|].
  eapply Forall_impl; [exact Hx|]. intros y Hy.
  unfold by_priority_score_desc in Hy. by apply Qle_bool_iff.
Qed.

Lemma sorted_by_priority_score_desc_ties (l : list DocumentRequest) (q : Q) :
  List.filter (fun r => Qeq_bool (priority_score r) q)
    (sorted by_priority_score_desc l)
  = List.filter (fun r => Qeq_bool (priority_score r) q) l.
Proof.
  apply sorted_stable. intros x y Hx Hy.
  apply Qeq_bool_iff in Hx, Hy. unfold by_priority_score_desc.
  apply Qle_bool_iff. rewrite Hx, Hy. lra.
Qed.

(** X1: the order in which an FCFS run processes a batch is a permutation
    of the batch in non-decreasing submission time, and requests submitted
    at the same time keep the order they had in the batch. *)
Theorem fcfs_order (l : list DocumentRequest) :
  sorted by_submission_time l ≡ₚ l /\
  StronglySorted (fun x y => submission_time x <= submission_time y)
    (sorted by_submission_time l) /\
  forall t,
    List.filter (fun r => submission_time r =? t) (sorted by_submission_time l)
    = List.filter (fun r => submission_time r =? t) l.
Proof.
  split; [apply sorted_Permutation|].
  split; [apply sorted_by_submission_time_ordered|].
  intros t. apply sorted_stable. intros x y Hx Hy.
  apply Z.eqb_eq in Hx, Hy. unfold by_submission_time. apply Z.leb_le. lia.
Qed.

(** X2: the order in which a weighted run processes a batch is a
    permutation of the batch in non-increasing priority score, and requests
    with equal scores keep the order they had in the batch. *)
Theorem weighted_order (l : list DocumentRequest) :
  sorted by_priority_score_desc l ≡ₚ l /\
  StronglySorted (fun x y => (priority_score y <= priority_score x)%Q)
    (sorted by_priority_score_desc l) /\
  forall q,
    List.filter (fun r => Qeq_bool (priority_score r) q)
      (sorted by_priority_score_desc l)
    = List.filter (fun r => Qeq_bool (priority_score r) q) l.
Proof.
  split; [apply sorted_Permutation|].
  split; [apply sorted_by_priority_score_desc_ordered|].
  intros q. apply sorted_by_priority_score_desc_ties.
Qed.


(** ** The scheduler classes *)

Lemma fcfs_queue_after_adds (s : FCFSScheduler.t) (l : list DocumentRequest) :
  FCFSScheduler.queue (foldl FCFSScheduler.add_request s l)
  = FCFSScheduler.queue s ++ l.
Proof.
  revert s. induction l as [|r l IH]; intros s; cbn.
  - by rewrite app_nil_r.
  - rewrite IH. cbn. by rewrite <- app_assoc.
Qed.

Lemma weighted_queue_after_adds (s : WeightedPriorityScheduler.t)
    (l : list DocumentRequest) :
  WeightedPriorityScheduler.queue
    (foldl WeightedPriorityScheduler.add_request s l)
  = WeightedPriorityScheduler.queue s ++ l.
Proof.
  revert s. induction l as [|r l IH]; intros s; cbn.
  - by rewrite app_nil_r.
  - rewrite IH. cbn. by rewrite <- app_assoc.
Qed.

(** X3: an [FCFSScheduler] hands back, in insertion order, what was queued
    and the requests added since, and [get_all] empties the queue: a second
    [get_all] returns nothing. *)
Theorem fcfs_scheduler_get_all (s : FCFSScheduler.t)
    (l : list DocumentRequest) :
  let s' := foldl FCFSScheduler.add_request s l in
  (FCFSScheduler.get_all s').1 = FCFSScheduler.queue s ++ l /\
  (FCFSScheduler.get_all (FCFSScheduler.get_all s').2).1 = [] /\
  (FCFSScheduler.get_all
     (foldl FCFSScheduler.add_request (FCFSScheduler.get_all s').2 l)).1 = l.
Proof.
  cbn. split; [apply fcfs_queue_after_adds|]. split; [done|].
  by rewrite fcfs_queue_after_adds.
Qed.

(** X4: a [WeightedPriorityScheduler] hands back a permutation of what was
    queued and the requests added since, in non-increasing priority score,
    requests with equal scores in insertion order, and [get_all] empties the
    queue. *)
Theorem weighted_scheduler_get_all (s : WeightedPriorityScheduler.t)
    (l : list DocumentRequest) :
  let s' := foldl WeightedPriorityScheduler.add_request s l in
  let out := (WeightedPriorityScheduler.get_all s').1 in
  out ≡ₚ WeightedPriorityScheduler.queue s ++ l /\
  StronglySorted (fun x y => (priority_score y <= priority_score x)%Q) out /\
  (forall q,
     List.filter (fun r => Qeq_bool (priority_score r) q) out
     = List.filter (fun r => Qeq_bool (priority_score r) q)
         (WeightedPriorityScheduler.queue s ++ l)) /\
  (WeightedPriorityScheduler.get_all
     (WeightedPriorityScheduler.get_all s').2).1 = [].
Proof.
  cbn.
  change (sorted _ ?q) with (sorted by_priority_score_desc q).
  rewrite weighted_queue_after_adds.
  split; [apply sorted_Permutation|].
  split; [apply sorted_by_priority_score_desc_ordered|].
  split; [|done]. intros q. apply sorted_by_priority_score_desc_ties.
Qed.

(** ** What the allocators select *)

Section MinBy.
Context {A K : Type} (lt : K -> K -> bool) (rank : K -> Z) (key : A -> K).
Hypothesis lt_rank : forall a b, lt a b = true <-> rank a < rank b.

(** [min] returns the first element whose key is least. *)
Lemma min_from_first (best : A) (rest : list A) :
  exists l1 l2,
    best :: rest = l1 ++ min_from lt key best rest :: l2 /\
    Forall (fun y => rank (key (min_from lt key best rest)) < rank (key y)) l1 /\
    Forall (fun y => rank (key (min_from lt key best rest)) <= rank (key y)) l2.
Proof using lt_rank.
  revert best. induction rest as [|z rest IH]; intros best.
  - exists [], []. cbn. by repeat split.
  - cbn [min_from]. destruct (lt (key z) (key best)) eqn:E.
    + apply lt_rank in E.
      destruct (IH z) as (l1 & l2 & Heq & H1 & H2).
      set (x := min_from lt key z rest) in *.
      assert (Hxz : rank (key x) <= rank (key z)).
      { destruct l1 as [|y l1]; cbn in Heq.
        - injection Heq as <- _. lia.
        - injection Heq as <- _. apply Forall_cons in H1 as [H1 _]. lia. }
      exists (best :: l1), l2. rewrite Heq. split; [done|].
      split; [|done]. constructor; [lia|done].
    + assert (Hbz : rank (key best) <= rank (key z)).
      { destruct (Z.lt_ge_cases (rank (key z)) (rank (key best))) as [H|H];
          [|lia]. apply lt_rank in H. congruence. }
      destruct (IH best) as (l1 & l2 & Heq & H1 & H2).
      set (x := min_from lt key best rest) in *.
      destruct l1 as [|y l1]; cbn in Heq.
      * injection Heq as Hx Hr. exists [], (z :: l2).
        split; [cbn; congruence|]. split; [constructor|].
        constructor; [rewrite <- Hx; lia|done].
      * injection Heq as <- Hr. exists (best :: z :: l1), l2.
        rewrite Hr. split; [done|]. split; [|done].
        apply Forall_cons in H1 as [Hb H1].
        constructor; [done|]. constructor; [lia|done].
Qed.

Lemma min_by_first (l : list A) (x : A) :
  min_by lt key l = Some x ->
  exists l1 l2,
    l = l1 ++ x :: l2 /\
    Forall (fun y => rank (key x) < rank (key y)) l1 /\
    Forall (fun y => rank (key x) <= rank (key y)) l2.
Proof using lt_rank.
  destruct l as [|best rest]; [done|]. cbn. intros [= <-].
  apply min_from_first.
Qed.
End MinBy.

Lemma enumerate_StronglySorted {A} (l : list A) :
  StronglySorted (fun a b : nat * A => (a.1 < b.1)%nat) (enumerate l).
Proof.
  induction l as [|x l IH] using rev_ind; [constructor|].
  unfold enumerate in *. rewrite imap_app. cbn.
  apply StronglySorted_app_2; [|done|repeat constructor].
  intros [i a] [j b] Hi Hj. apply list_elem_of_singleton in Hj.
  injection Hj as -> ->.
  apply (elem_of_enumerate l i a) in Hi. apply lookup_lt_Some in Hi.
  cbn. lia.
Qed.

Lemma bool_filter_StronglySorted {A} (R : A -> A -> Prop) (f : A -> bool)
    (l : list A) :
  StronglySorted R l -> StronglySorted R (List.filter f l).
Proof.
  induction 1 as [|x l Hs IH Hx]; cbn; [constructor|].
  destruct (f x); [|done]. constructor; [done|].
  apply Forall_forall. intros y [Hy _]%elem_of_bool_filter.
  rewrite Forall_forall in Hx. by apply Hx.
Qed.

(** In a list of positions in roster order, the first element with the
    least key: no element has a smaller key, and an element with the same
    key stands at a later position. *)
Lemma first_least_in_roster_order {K} (lt : K -> K -> bool) (rank : K -> Z)
    (key : nat * StaffMember -> K) (f : nat * StaffMember -> bool)
    (pool : list StaffMember) (i : nat) (s : StaffMember) :
  (forall a b, lt a b = true <-> rank a < rank b) ->
  min_by lt key (List.filter f (enumerate pool)) = Some (i, s) ->
  (i, s) ∈ List.filter f (enumerate pool) /\
  forall j u, (j, u) ∈ List.filter f (enumerate pool) ->
    rank (key (i, s)) <= rank (key (j, u)) /\
    (rank (key (j, u)) = rank (key (i, s)) -> (i <= j)%nat).
Proof.
  intros Hlt Hmin. split; [by eapply min_by_elem_of|].
  destruct (min_by_first lt rank key Hlt _ _ Hmin) as (l1 & l2 & Heq & H1 & H2).
  pose proof (bool_filter_StronglySorted _ f _ (enumerate_StronglySorted pool))
    as Hs.
  rewrite Heq in Hs |- *.
  apply StronglySorted_app in Hs as (_ & _ & Hs2).
  apply StronglySorted_inv in Hs2 as [_ Hafter].
  intros j u Hin. apply elem_of_app in Hin as [Hin|Hin].
  - rewrite Forall_forall in H1. specialize (H1 _ Hin). lia.
  - apply elem_of_cons in Hin as [[= -> ->]|Hin]; [lia|].
    rewrite Forall_forall in H2, Hafter.
    specialize (H2 _ Hin). specialize (Hafter _ Hin). cbn in Hafter. lia.
Qed.

Lemma bool_filter_enumerate_nil (f : nat * StaffMember -> bool)
    (pool : list StaffMember) :
  List.filter f (enumerate pool) = [] <->
  forall i s, pool !! i = Some s -> f (i, s) = false.
Proof.
  split.
  - intros Hnil i s Hs. destruct (f (i, s)) eqn:E; [|done].
    assert (Hin : (i, s) ∈ List.filter f (enumerate pool)).
    { apply elem_of_bool_filter. split; [by apply elem_of_enumerate|done]. }
    rewrite Hnil in Hin. by apply elem_of_nil in Hin.
  - intros H. destruct (List.filter f (enumerate pool)) as [|[i s] l] eqn:E;
      [done|].
    assert (Hin : (i, s) ∈ List.filter f (enumerate pool))
      by (rewrite E; apply list_elem_of_here).
    apply elem_of_bool_filter in Hin as [Hin Hf].
    apply elem_of_enumerate in Hin. rewrite (H i s Hin) in Hf. discriminate.
Qed.

(** X5: whatever its kind, an allocator never raises; it returns no member
    exactly when its candidate set is empty, and a member it returns is a
    member of the roster whose availability flag is set. Only the
    college-based allocator draws from the random source. *)
Theorem assign_returns_available (a : Allocator) (pool : list StaffMember)
    (req : DocumentRequest) (t : datetime) (g : RandomSource) :
  exists r g',
    assign a pool req t g = (Ok r, g') /\
    (r = None <-> candidates a pool req = []) /\
    (forall i s, r = Some (i, s) ->
       pool !! i = Some s /\ is_available s = true) /\
    (a <> CollegeBasedAllocator -> g' = g).
Proof.
  destruct (candidates a pool req) as [|c0 cs] eqn:E.
  - exists None, g. rewrite assign_empty by done. repeat split; done.
  - destruct (assign_nonempty a pool req t g) as ([i s] & g' & Ha & Hin).
    { by rewrite E. }
    exists (Some (i, s)), g'. split; [done|]. split; [done|]. split.
    + intros j u [= <- <-]. by eapply candidates_lookup.
    + intros Hne. destruct a; [done|cbn in Ha; by simplify_eq..].
Qed.

Lemma same_college_available_false (req : DocumentRequest) (i : nat)
    (s : StaffMember) :
  same_college_available req (i, s) = false <->
  (college_affiliation s = college req -> is_available s = false).
Proof.
  unfold same_college_available. cbn [snd].
  destruct (String.eqb_spec (college_affiliation s) (college req)) as [He|Hne];
    cbn; [tauto|]. split; [done|tauto].
Qed.

(** X6: the college-based allocator returns only an available member of
    the request's own college, and it returns none exactly when the roster
    has no available member of that college. *)
Theorem college_based_selects_own_college (pool : list StaffMember)
    (req : DocumentRequest) (t : datetime) (g : RandomSource) :
  exists r g',
    CollegeBasedAllocator_assign pool req t g = (Ok r, g') /\
    (forall i s, r = Some (i, s) ->
       pool !! i = Some s /\ college_affiliation s = college req /\
       is_available s = true) /\
    (r = None <->
     forall i s, pool !! i = Some s ->
       college_affiliation s = college req -> is_available s = false).
Proof.
  change (CollegeBasedAllocator_assign pool req t g)
    with (assign CollegeBasedAllocator pool req t g).
  pose proof (bool_filter_enumerate_nil (same_college_available req) pool)
    as Hnil.
  change (List.filter (same_college_available req) (enumerate pool))
    with (candidates CollegeBasedAllocator pool req) in Hnil.
  destruct (candidates CollegeBasedAllocator pool req) as [|c0 cs] eqn:E.
  - exists None, g. rewrite assign_empty by done. split; [done|].
    split; [done|]. split; [|done]. intros _ i s Hs.
    apply (proj1 (same_college_available_false req i s)).
    by apply (proj1 Hnil eq_refl).
  - destruct (assign_nonempty CollegeBasedAllocator pool req t g)
      as ([i s] & g' & Ha & Hin); [by rewrite E|].
    exists (Some (i, s)), g'. split; [done|]. split.
    + intros j u [= <- <-]. rewrite E in Hin.
      rewrite <- E in Hin. cbn [candidates] in Hin.
      apply elem_of_bool_filter in Hin as [Hin Hf].
      apply elem_of_enumerate in Hin. unfold same_college_available in Hf.
      apply andb_true_iff in Hf as [Hc Hav]. apply String.eqb_eq in Hc.
      done.
    + split; [done|]. intros H. exfalso.
      assert (Hempty : c0 :: cs = []).
      { apply (proj2 Hnil). intros j u Hu.
        apply (proj2 (same_college_available_false req j u)).
        exact (H j u Hu). }
      discriminate.
Qed.

Lemma nat_ltb_rank (a b : nat) :
  Nat.ltb a b = true <-> Z.of_nat a < Z.of_nat b.
Proof. rewrite Nat.ltb_lt. lia. Qed.

Lemma Z_ltb_rank (a b : Z) : Z.ltb a b = true <-> id a < id b.
Proof. apply Z.ltb_lt. Qed.

(** X7: the member the workload-based allocator returns has the fewest
    assignments of its candidate set, and is the first such member in roster
    order; it is of the request's college whenever that college has an
    available member. The allocator returns none only when no member of the
    roster is available. *)
Theorem workload_based_selects_least_loaded (pool : list StaffMember)
    (req : DocumentRequest) (t : datetime) :
  match WorkloadBasedAllocator_assign pool req t with
  | Some (i, s) =>
      (i, s) ∈ candidates WorkloadBasedAllocator pool req /\
      (forall j u, (j, u) ∈ candidates WorkloadBasedAllocator pool req ->
         (total_assigned s <= total_assigned u)%nat /\
         (total_assigned u = total_assigned s -> (i <= j)%nat)) /\
      ((exists j u, pool !! j = Some u /\
                    college_affiliation u = college req /\
                    is_available u = true) ->
       college_affiliation s = college req)
  | None => forall j u, pool !! j = Some u -> is_available u = false
  end.
Proof.
  unfold WorkloadBasedAllocator_assign. cbn [candidates].
  pose proof (bool_filter_enumerate_nil (same_college_available req) pool)
    as Hcol.
  destruct (List.filter (same_college_available req) (enumerate pool))
    as [|c0 cs] eqn:E.
  - destruct (min_by Nat.ltb (fun s => total_assigned s.2)
                (List.filter staff_available (enumerate pool)))
      as [[i s]|] eqn:Hmin.
    + destruct (first_least_in_roster_order Nat.ltb Z.of_nat
                  (fun s => total_assigned s.2) staff_available pool i s
                  nat_ltb_rank Hmin) as (Hin & Hleast).
      split; [done|]. split.
      * intros j u Hju. specialize (Hleast j u Hju). cbn in Hleast. lia.
      * intros (j & u & Hu & Hc & Hav). exfalso.
        pose proof (proj1 Hcol eq_refl j u Hu) as Hf.
        apply (proj1 (same_college_available_false req j u)) in Hf;
          [congruence|done].
    + intros j u Hu.
      destruct (List.filter staff_available (enumerate pool)) as [|c cs'] eqn:E2;
        [|done].
      by apply (proj1 (bool_filter_enumerate_nil staff_available pool) E2 j u).
  - rewrite <- E.
    destruct (min_by Nat.ltb (fun s => total_assigned s.2)
                (List.filter (same_college_available req) (enumerate pool)))
      as [[i s]|] eqn:Hmin; [|by rewrite E in Hmin].
    destruct (first_least_in_roster_order Nat.ltb Z.of_nat
                (fun s => total_assigned s.2) (same_college_available req)
                pool i s nat_ltb_rank Hmin) as (Hin & Hleast).
    rewrite E. rewrite <- E. split; [done|]. split.
    + intros j u Hju. specialize (Hleast j u Hju). cbn in Hleast. lia.
    + intros _. apply elem_of_bool_filter in Hin as [_ Hf].
      unfold same_college_available in Hf.
      apply andb_true_iff in Hf as [Hc _]. by apply String.eqb_eq in Hc.
Qed.

(** X8: the member the pooled allocator (and the quota-free one) returns
    is the available member that can start soonest, that is with the least
    [max(next_available_time, t)], and is the first such member in roster
    order; the allocator returns none only when no member is available. *)
Theorem pooled_selects_soonest (pool : list StaffMember)
    (req : DocumentRequest) (t : datetime) :
  QuotaFreeAllocator_assign pool req t = PooledAllocator_assign pool req t /\
  match PooledAllocator_assign pool req t with
  | Some (i, s) =>
      pool !! i = Some s /\ is_available s = true /\
      (forall j u, pool !! j = Some u -> is_available u = true ->
         Z.max (next_available_time s) t <= Z.max (next_available_time u) t /\
         (Z.max (next_available_time u) t = Z.max (next_available_time s) t ->
          (i <= j)%nat))
  | None => forall j u, pool !! j = Some u -> is_available u = false
  end.
Proof.
  split; [reflexivity|]. unfold PooledAllocator_assign.
  destruct (min_by Z.ltb
              (fun s => py_max (next_available_time s.2) t)
              (List.filter staff_available (enumerate pool)))
    as [[i s]|] eqn:Hmin.
  - destruct (first_least_in_roster_order Z.ltb id
                (fun s => py_max (next_available_time s.2) t)
                staff_available pool i s Z_ltb_rank Hmin) as (Hin & Hleast).
    apply elem_of_bool_filter in Hin as [Hin Hav].
    apply elem_of_enumerate in Hin. split; [done|]. split; [done|].
    intros j u Hu Hua.
    assert (Hju : (j, u) ∈ List.filter staff_available (enumerate pool)).
    { apply elem_of_bool_filter. split; [by apply elem_of_enumerate|done]. }
    specialize (Hleast j u Hju). unfold id in Hleast. cbn [snd] in Hleast.
    rewrite !py_max_Zmax in Hleast. done.
  - intros j u Hu.
    destruct (List.filter staff_available (enumerate pool)) as [|c cs] eqn:E;
      [|done].
    by apply (proj1 (bool_filter_enumerate_nil staff_available pool) E j u).
Qed.

(** ** Submission times of a batch *)

Lemma round_half_even_mono (p q : Q) :
  (p <= q)%Q -> round_half_even p <= round_half_even q.
Proof.
  intros Hpq. pose proof (Qfloor_resp_le _ _ Hpq) as Hf.
  destruct (Z.eq_dec (Qfloor p) (Qfloor q)) as [Heq|Hne].
  - unfold round_half_even. rewrite <- Heq.
    set (f := Qfloor p) in *. set (x := inject_Z f).
    destruct (Qcompare_spec (p - x) (1 # 2)) as [H1|H1|H1];
      destruct (Qcompare_spec (q - x) (1 # 2)) as [H2|H2|H2];
      try lia; try (destruct (Z.even f); lia); exfalso; clearbody x; lra.
  - destruct (round_half_even_cases p) as [-> | ->];
      destruct (round_half_even_cases q) as [-> | ->]; lia.
Qed.

Lemma round_half_even_ge (q : Q) (z : Z) :
  (inject_Z z <= q)%Q -> z <= round_half_even q.
Proof.
  intros H. rewrite <- (round_half_even_inject_Z z).
  by apply round_half_even_mono.
Qed.

Lemma timedelta_minutes_inject_Z (d : Z) :
  timedelta_minutes (inject_Z d) = d * 60000000.
Proof. exact (round_half_even_inject_Z (d * 60000000)). Qed.

Lemma total_requests_of_range (scen : string) :
  (70 <= total_requests_of scen <= 100)%nat.
Proof.
  unfold total_requests_of, get_default. cbn [table_get].
  repeat (match goal with |- context [String.eqb ?a ?b] =>
                            destruct (String.eqb a b) end); lia.
Qed.

Section Offsets.
Context (d : Z) (n : nat).
Hypothesis n_range : (0 < n <= 100)%nat.

Lemma N_pos : (0 < inject_Z (Z.of_nat n))%Q.
Proof using n_range.
  change 0%Q with (inject_Z 0). rewrite <- Zlt_Qlt. lia.
Qed.

Lemma N_small : (inject_Z (Z.of_nat n) <= 100)%Q.
Proof using n_range.
  change 100%Q with (inject_Z 100). rewrite <- Zle_Qle. lia.
Qed.

(** With a non-negative duration the offsets grow with the index. *)
Lemma time_offset_mono (i j : nat) :
  0 <= d -> (i <= j)%nat -> time_offset d n i <= time_offset d n j.
Proof using n_range.
  intros Hd Hij. unfold time_offset, timedelta_minutes.
  apply round_half_even_mono.
  pose proof N_pos as HN.
  set (D := inject_Z d) in *. set (N := inject_Z (Z.of_nat n)) in *.
  assert (HD : (0 <= D)%Q)
    by (subst D; change 0%Q with (inject_Z 0); rewrite <- Zle_Qle; lia).
  assert (Hc : (0 <= D / N)%Q).
  { apply Qle_shift_div_l; [done|]. lra. }
  assert (HI : (inject_Z (Z.of_nat i) <= inject_Z (Z.of_nat j))%Q)
    by (rewrite <- Zle_Qle; lia).
  set (c := (D / N)%Q) in *. clearbody c.
  set (I := inject_Z (Z.of_nat i)) in *. set (J := inject_Z (Z.of_nat j)) in *.
  clearbody I J. nra.
Qed.

(** With a non-negative duration no offset exceeds the duration. *)
Lemma time_offset_le_duration (i : nat) :
  0 <= d -> (i <= n)%nat -> time_offset d n i <= d * 60000000.
Proof using n_range.
  intros Hd Hi. unfold time_offset, timedelta_minutes.
  apply round_half_even_le.
  change (inject_Z (d * 60000000)) with (inject_Z d * 60000000)%Q.
  pose proof N_pos as HN.
  set (D := inject_Z d) in *. set (N := inject_Z (Z.of_nat n)) in *.
  assert (HD : (0 <= D)%Q)
    by (subst D; change 0%Q with (inject_Z 0); rewrite <- Zle_Qle; lia).
  assert (HI : (inject_Z (Z.of_nat i) <= N)%Q)
    by (subst N; rewrite <- Zle_Qle; lia).
  assert (Heq : (N * (D / N) == D)%Q) by (field; lra).
  assert (Hc : (0 <= D / N)%Q) by (apply Qle_shift_div_l; [done|lra]).
  set (c := (D / N)%Q) in *. clearbody c.
  set (I := inject_Z (Z.of_nat i)) in *. clearbody I. nra.
Qed.

(** With a negative duration every offset lies after the end. *)
Lemma time_offset_gt_duration (i : nat) :
  d < 0 -> (i < n)%nat -> d * 60000000 < time_offset d n i.
Proof using n_range.
  intros Hd Hi. unfold time_offset, timedelta_minutes.
  enough (d * 60000000 + 1 <=
          round_half_even
            (inject_Z (Z.of_nat i) * (inject_Z d / inject_Z (Z.of_nat n)) *
             60000000)) by lia.
  apply round_half_even_ge.
  rewrite inject_Z_plus, inject_Z_mult.
  change (inject_Z 60000000) with 60000000%Q. change (inject_Z 1) with 1%Q.
  pose proof N_pos as HN. pose proof N_small as HN'.
  set (D := inject_Z d) in *. set (N := inject_Z (Z.of_nat n)) in *.
  assert (HD : (1 <= - D)%Q).
  { subst D. rewrite <- inject_Z_opp. change 1%Q with (inject_Z 1).
    rewrite <- Zle_Qle. lia. }
  assert (HI : (1 <= N - inject_Z (Z.of_nat i))%Q).
  { subst N. unfold Qminus. rewrite <- inject_Z_opp, <- inject_Z_plus.
    change 1%Q with (inject_Z 1). rewrite <- Zle_Qle. lia. }
  set (I := inject_Z (Z.of_nat i)) in *. clearbody I.
  assert (Hk : (1 <= / N * 60000000)%Q).
  { assert (H100 : (/ N * 60000000 == 60000000 / N)%Q) by (field; lra).
    rewrite H100. apply Qle_shift_div_l; [done|]. lra. }
  pose proof (Qmult_le_1_compat _ _ HI HD) as Ha.
  pose proof (Qmult_le_1_compat _ _ Ha Hk) as Hab.
  assert (Heq : (I * (D / N) * 60000000 ==
                 D * 60000000 + (N - I) * - D * (/ N * 60000000))%Q)
    by (field; lra).
  rewrite Heq. set (ab := ((N - I) * - D * (/ N * 60000000))%Q) in *.
  clearbody ab. lra.
Qed.
End Offsets.

(** ** The generated batch *)

(** What [_generate_requests] fixes about the request of index [i]. *)
Lemma generate_one_full (scen : string) (duration_min : Z)
    (total_requests i : nat) (e : SimulationEngine) (g : RandomSource) :
  exists r g',
    generate_one scen duration_min total_requests i e g = (Ok r, e, g') /\
    generated scen duration_min total_requests e i r /\
    priority_score r = 0%Q.
Proof.
  unfold generate_one, mbind, M_bind, get_self.
  destruct (draw_choice (colleges_of scen) e g
              (colleges_of_nonempty scen)) as (c & -> & Hc).
  set (g1 := (rs_next g).2).
  destruct (draw_choice (table_keys DOCUMENT_COMPLEXITY) e g1 ltac:(done))
    as (dt & -> & Hdt).
  set (g2 := (rs_next g1).2).
  destruct (draw_choice (urgency_range_of scen) e g2
              (urgency_range_of_nonempty scen)) as (u & -> & Hu).
  set (g3 := (rs_next g2).2).
  destruct (draw_choice (table_keys REQUESTER_PRIORITY) e g3 ltac:(done))
    as (rt & -> & Hrt).
  eexists _, _. split; [reflexivity|].
  unfold generated, unassigned. cbn. done.
Qed.

Lemma generate_from_full (scen : string) (duration_min : Z)
    (total_requests i n : nat) (e : SimulationEngine) (g : RandomSource) :
  exists rs g',
    generate_from scen duration_min total_requests i n e g = (Ok rs, e, g') /\
    Forall2 (fun k r => generated scen duration_min total_requests e k r /\
                        priority_score r = 0%Q) (seq i n) rs.
Proof.
  revert i g. induction n as [|n IH]; intros i g.
  - exists [], g. split; [reflexivity|constructor].
  - cbn [generate_from]. unfold mbind, M_bind.
    destruct (generate_one_full scen duration_min total_requests i e g)
      as (r & g1 & -> & Hr).
    destruct (IH (S i) g1) as (rs & g2 & -> & Hrs).
    exists (r :: rs), g2. split; [reflexivity|]. by constructor.
Qed.

Lemma prepared_start_time (scen : string) (e : SimulationEngine) :
  start_time (prepared scen e) = start_time e.
Proof. by destruct (prepared_fields scen e) as (_ & _ & -> & _). Qed.

(** On an engine that satisfies the invariant, generation succeeds. *)
Lemma _generate_requests_full (scen : string) (duration_min : Z)
    (e : SimulationEngine) (g : RandomSource) :
  engine_invariant e ->
  exists rs g',
    _generate_requests scen duration_min e g = (Ok rs, prepared scen e, g') /\
    Forall2 (fun k r =>
               generated scen duration_min (total_requests_of scen) e k r /\
               priority_score r = 0%Q)
      (seq 0 (total_requests_of scen)) rs.
Proof.
  intros Hinv. destruct (invariant_third_member e Hinv) as (s & Hs & _).
  unfold _generate_requests, prepared, mbind, M_bind, get_self, put_self.
  destruct (String.eqb scen "staff_absence").
  - unfold mark_absent, mbind, M_bind, get_self, put_self.
    cbn [staff_pool set_scenario]. rewrite Hs.
    destruct (generate_from_full scen duration_min
                (total_requests_of scen) 0 (total_requests_of scen)
                (set_staff_pool (set_scenario e scen)
                   (<[2%nat := set_is_available s false]> (staff_pool e))) g)
      as (rs & g' & Hg & Hrs).
    exists rs, g'. split; [exact Hg|exact Hrs].
  - cbn.
    destruct (generate_from_full scen duration_min
                (total_requests_of scen) 0 (total_requests_of scen)
                (set_scenario e scen) g) as (rs & g' & Hg & Hrs).
    exists rs, g'. split; [exact Hg|exact Hrs].
Qed.

Lemma reachable_invariant (sched alloc : string) (clock : nat -> datetime)
    (calls : list (string * Z)) (g0 : RandomSource) :
  engine_invariant (run_many calls (new_engine sched alloc clock) g0).1.
Proof. apply run_many_invariant, new_engine_invariant. Qed.

Lemma Forall2_seq_lookup {A} (P : nat -> A -> Prop) (n : nat) (l : list A) :
  Forall2 P (seq 0 n) l ->
  length l = n /\ forall i x, l !! i = Some x -> (i < n)%nat /\ P i x.
Proof.
  intros H. pose proof (Forall2_length _ _ _ H) as Hl.
  rewrite length_seq in Hl. split; [done|]. intros i x Hx.
  destruct (Forall2_lookup_r _ _ _ _ _ H Hx) as (k & Hk & HP).
  apply lookup_seq in Hk as [-> Hlt]. done.
Qed.

(** X9: on every engine, for a duration in range, [_generate_requests]
    does not raise and returns a batch of exactly the scenario's size (80
    for an unknown scenario). The request at position [i] has the identifier
    [REQ] followed by [i] on four digits, is submitted [i * duration / size]
    minutes after the engine's start time (to the microsecond), has score 0
    and no allocation field set; the random source decides nothing of
    this. *)
Theorem generate_requests_batch (sched alloc : string)
    (clock : nat -> datetime) (calls : list (string * Z)) (g0 : RandomSource)
    (scen : string) (duration_min : Z) :
  duration_in_range duration_min = true ->
  let e := (run_many calls (new_engine sched alloc clock) g0).1 in
  let g := (run_many calls (new_engine sched alloc clock) g0).2 in
  exists rs,
    (_generate_requests scen duration_min e g).1.1 = Ok rs /\
    length rs = total_requests_of scen /\
    forall i r, rs !! i = Some r ->
      request_id r = ("REQ" ++ format_04d i)%string /\
      submission_time r =
        start_time e + time_offset duration_min (total_requests_of scen) i /\
      priority_score r = 0%Q /\
      assignment_time r = None /\ completion_time r = None /\
      assigned_staff r = None.
Proof.
  intros _ e g.
  destruct (_generate_requests_full scen duration_min e g
              (reachable_invariant sched alloc clock calls g0))
    as (rs & g' & -> & Hrs).
  exists rs. split; [done|].
  apply Forall2_seq_lookup in Hrs as [Hlen Hrs]. split; [done|].
  intros i r Hr. destruct (Hrs i r Hr) as (_ & Hgen & Hp).
  destruct Hgen as (Hid & _ & _ & _ & _ & Hsub & Hun1 & Hun2 & Hun3).
  done.
Qed.

Lemma generate_requests_batch_witness :
  duration_in_range 90 = true /\
  let e := (run_many [("staff_absence", 30)]
              (new_engine "fcfs" "pooled" (fun _ => 0)) (fun _ => 0%N)).1 in
  let g := (run_many [("staff_absence", 30)]
              (new_engine "fcfs" "pooled" (fun _ => 0)) (fun _ => 0%N)).2 in
  exists rs,
    (_generate_requests "peak_urgency" 90 e g).1.1 = Ok rs /\
    length rs = total_requests_of "peak_urgency" /\
    forall i r, rs !! i = Some r ->
      request_id r = ("REQ" ++ format_04d i)%string /\
      submission_time r =
        start_time e + time_offset 90 (total_requests_of "peak_urgency") i /\
      priority_score r = 0%Q /\
      assignment_time r = None /\ completion_time r = None /\
      assigned_staff r = None.
Proof.
  split; [reflexivity|].
  apply (generate_requests_batch "fcfs" "pooled" (fun _ => 0)
           [("staff_absence", 30)] (fun _ => 0%N) "peak_urgency" 90).
  reflexivity.
Defined.

Lemma urgency_range_of_bounds (scen : string) (u : Z) :
  u ∈ urgency_range_of scen ->
  3 <= u <= 10 /\
  (scen = "peak_urgency" -> 7 <= u) /\ (scen <> "peak_urgency" -> u <= 7).
Proof.
  unfold urgency_range_of.
  destruct (String.eqb_spec scen "peak_urgency") as [->|Hne];
    rewrite !elem_of_cons; intros H;
    repeat (destruct H as [->|H]; [repeat split; intros; (lia || done)|]);
    by apply elem_of_nil in H.
Qed.

Lemma colleges_of_subset (scen col : string) :
  col ∈ colleges_of scen -> col ∈ COLLEGES.
Proof.
  unfold colleges_of. destruct (String.eqb scen "workload_imbalance"); [|done].
  intros [H|H]%elem_of_app; [|done].
  apply elem_of_replicate in H as [-> _]. apply list_elem_of_here.
Qed.

(** X10: for a duration in range, the generator returns a batch, and
    every generated request has an urgency between 3 and 10, at
    least 7 under scenario [peak_urgency] and at most 7 under every other
    scenario, a college of [COLLEGES] (also under [workload_imbalance]), a
    document type of [DOCUMENT_COMPLEXITY] and a requester type of
    [REQUESTER_PRIORITY]. *)
Theorem generated_fields_in_range (sched alloc : string)
    (clock : nat -> datetime) (calls : list (string * Z)) (g0 : RandomSource)
    (scen : string) (duration_min : Z) :
  duration_in_range duration_min = true ->
  let e := (run_many calls (new_engine sched alloc clock) g0).1 in
  let g := (run_many calls (new_engine sched alloc clock) g0).2 in
  exists rs,
    (_generate_requests scen duration_min e g).1.1 = Ok rs /\
    Forall (fun r =>
              3 <= urgency r <= 10 /\
              (scen = "peak_urgency" -> 7 <= urgency r) /\
              (scen <> "peak_urgency" -> urgency r <= 7) /\
              college r ∈ COLLEGES /\
              (exists c, table_get DOCUMENT_COMPLEXITY (document_type r)
                         = Some c) /\
              (exists w, table_get REQUESTER_PRIORITY (requester_type r)
                         = Some w)) rs.
Proof.
  intros _ e g.
  destruct (_generate_requests_full scen duration_min e g
              (reachable_invariant sched alloc clock calls g0))
    as (rs & g' & -> & Hrs).
  exists rs. split; [done|].
  apply Forall2_seq_lookup in Hrs as [_ Hrs].
  apply Forall_lookup_2. intros i r Hr.
  destruct (Hrs i r Hr) as (_ & Hgen & _).
  destruct Hgen as (_ & Hcol & Hdoc & Hurg & Hreq & _).
  destruct (urgency_range_of_bounds scen _ Hurg) as (H1 & H2 & H3).
  split; [done|]. split; [done|]. split; [done|].
  split; [by eapply colleges_of_subset|]. split; [by apply keys_known|].
  revert Hreq. unfold table_keys, REQUESTER_PRIORITY. cbn [map fst].
  rewrite !elem_of_cons. intros [->|[->|[->|[->|[->|H]]]]];
    [by eexists..|by apply elem_of_nil in H].
Qed.

Lemma generated_fields_in_range_witness :
  duration_in_range 60 = true /\
  let e := (run_many [] (new_engine "weighted" "college_based" (fun _ => 0))
              (fun _ => 0%N)).1 in
  let g := (run_many [] (new_engine "weighted" "college_based" (fun _ => 0))
              (fun _ => 0%N)).2 in
  exists rs,
    (_generate_requests "workload_imbalance" 60 e g).1.1 = Ok rs /\
    Forall (fun r =>
              3 <= urgency r <= 10 /\
              ("workload_imbalance" = "peak_urgency" -> 7 <= urgency r) /\
              ("workload_imbalance" <> "peak_urgency" -> urgency r <= 7) /\
              college r ∈ COLLEGES /\
              (exists c, table_get DOCUMENT_COMPLEXITY (document_type r)
                         = Some c) /\
              (exists w, table_get REQUESTER_PRIORITY (requester_type r)
                         = Some w)) rs.
Proof.
  split; [reflexivity|].
  apply (generated_fields_in_range "weighted" "college_based" (fun _ => 0) []
           (fun _ => 0%N) "workload_imbalance" 60).
  reflexivity.
Defined.

Lemma total_requests_of_cases (scen : string) :
  total_requests_of scen = 80%nat \/ total_requests_of scen = 70%nat \/
  total_requests_of scen = 100%nat \/ total_requests_of scen = 90%nat.
Proof.
  unfold total_requests_of, get_default. cbn [table_get].
  repeat (match goal with |- context [String.eqb ?a ?b] =>
                            destruct (String.eqb a b) end); tauto.
Qed.

Lemma batch_ids_NoDup (n : nat) :
  (n <= 100)%nat ->
  NoDup ((fun i => ("REQ" ++ format_04d i)%string) <$> seq 0 n).
Proof.
  intros Hn.
  assert (H100 : NoDup ((fun i => ("REQ" ++ format_04d i)%string)
                          <$> seq 0 100)).
  { apply (bool_decide_unpack _). by vm_compute. }
  replace 100%nat with (n + (100 - n))%nat in H100 by lia.
  rewrite seq_app, fmap_app in H100. by apply NoDup_app in H100 as [H _].
Qed.

(** X11: for a duration in range, the identifiers of the batch the
    generator returns are [REQ0000], [REQ0001], ... in batch order, whatever
    the engine state and the random source; they are pairwise distinct
    within the batch (and so the same identifiers are issued again by every
    later run). *)
Theorem batch_ids_distinct (sched alloc : string)
    (clock : nat -> datetime) (calls : list (string * Z)) (g0 : RandomSource)
    (scen : string) (duration_min : Z) :
  duration_in_range duration_min = true ->
  let e := (run_many calls (new_engine sched alloc clock) g0).1 in
  let g := (run_many calls (new_engine sched alloc clock) g0).2 in
  exists rs,
    (_generate_requests scen duration_min e g).1.1 = Ok rs /\
    request_id <$> rs =
      (fun i => ("REQ" ++ format_04d i)%string)
        <$> seq 0 (total_requests_of scen) /\
    NoDup (request_id <$> rs).
Proof.
  intros _ e g.
  destruct (_generate_requests_full scen duration_min e g
              (reachable_invariant sched alloc clock calls g0))
    as (rs & g' & -> & Hrs).
  exists rs. split; [done|].
  assert (Hids : request_id <$> rs =
                 (fun i => ("REQ" ++ format_04d i)%string)
                   <$> seq 0 (total_requests_of scen)).
  { generalize dependent (seq 0 (total_requests_of scen)). intros l Hrs.
    induction Hrs as [|i r l rs ((Hid & _) & _) _ IH]; cbn; [done|].
    by rewrite Hid, IH. }
  split; [done|]. rewrite Hids. apply batch_ids_NoDup.
  pose proof (total_requests_of_range scen). lia.
Qed.

Lemma batch_ids_distinct_witness :
  duration_in_range 120 = true /\
  let e := (run_many [("baseline", 60)]
              (new_engine "FCFS" "quota_free" (fun _ => 0)) (fun _ => 0%N)).1 in
  let g := (run_many [("baseline", 60)]
              (new_engine "FCFS" "quota_free" (fun _ => 0)) (fun _ => 0%N)).2 in
  exists rs,
    (_generate_requests "staff_absence" 120 e g).1.1 = Ok rs /\
    request_id <$> rs =
      (fun i => ("REQ" ++ format_04d i)%string)
        <$> seq 0 (total_requests_of "staff_absence") /\
    NoDup (request_id <$> rs).
Proof.
  split; [reflexivity|].
  apply (batch_ids_distinct "FCFS" "quota_free" (fun _ => 0)
           [("baseline", 60)] (fun _ => 0%N) "staff_absence" 120).
  reflexivity.
Defined.

Lemma StronglySorted_lookup_2 {A} (R : A -> A -> Prop) (l : list A) :
  (forall i j x y, (i < j)%nat -> l !! i = Some x -> l !! j = Some y -> R x y) ->
  StronglySorted R l.
Proof.
  induction l as [|a l IH]; intros H; [constructor|].
  constructor.
  - apply IH. intros i j x y Hij Hx Hy. by apply (H (S i) (S j)); [lia|..].
  - apply Forall_lookup_2. intros j y Hy. by apply (H 0%nat (S j)); [lia|..].
Qed.

(** X12: with a non-negative duration in range the generator returns a
    batch that is already in submission order, so the sort of an FCFS run
    leaves it as it is: the requests are processed in generation order. *)
Theorem fcfs_sort_keeps_generated_order (sched alloc : string)
    (clock : nat -> datetime) (calls : list (string * Z)) (g0 : RandomSource)
    (scen : string) (duration_min : Z) :
  0 <= duration_min ->
  duration_in_range duration_min = true ->
  let e := (run_many calls (new_engine sched alloc clock) g0).1 in
  let g := (run_many calls (new_engine sched alloc clock) g0).2 in
  exists rs,
    (_generate_requests scen duration_min e g).1.1 = Ok rs /\
    StronglySorted (fun x y => submission_time x <= submission_time y) rs /\
    sorted by_submission_time rs = rs.
Proof.
  intros Hd _ e g.
  destruct (_generate_requests_full scen duration_min e g
              (reachable_invariant sched alloc clock calls g0))
    as (rs & g' & -> & Hrs).
  exists rs. split; [done|].
  apply Forall2_seq_lookup in Hrs as [_ Hrs].
  assert (Hn : (0 < total_requests_of scen <= 100)%nat)
    by (pose proof (total_requests_of_range scen); lia).
  assert (Hord : forall i j x y, (i < j)%nat ->
             rs !! i = Some x -> rs !! j = Some y ->
             submission_time x <= submission_time y).
  { intros i j x y Hij Hx Hy.
    destruct (Hrs i x Hx) as (_ & (_ & _ & _ & _ & _ & -> & _) & _).
    destruct (Hrs j y Hy) as (_ & (_ & _ & _ & _ & _ & -> & _) & _).
    pose proof (time_offset_mono duration_min _ Hn i j Hd ltac:(lia)) as H.
    unfold time_offset in H. lia. }
  split; [by apply StronglySorted_lookup_2|].
  apply sorted_noop. apply StronglySorted_lookup_2.
  intros i j x y Hij Hx Hy. unfold by_submission_time. apply Z.leb_le.
  by eapply Hord.
Qed.

Lemma fcfs_sort_keeps_generated_order_witness :
  0 <= 60 /\ duration_in_range 60 = true /\
  let e := (run_many [] (new_engine "FCFS" "pooled" (fun _ => 0))
              (fun _ => 0%N)).1 in
  let g := (run_many [] (new_engine "FCFS" "pooled" (fun _ => 0))
              (fun _ => 0%N)).2 in
  exists rs,
    (_generate_requests "baseline" 60 e g).1.1 = Ok rs /\
    StronglySorted (fun x y => submission_time x <= submission_time y) rs /\
    sorted by_submission_time rs = rs.
Proof.
  split; [lia|]. split; [reflexivity|].
  apply (fcfs_sort_keeps_generated_order "FCFS" "pooled" (fun _ => 0) []
           (fun _ => 0%N) "baseline" 60); [lia|reflexivity].
Defined.

(** ** Unfolding [run] *)

Lemma processes_invariant (added : list DocumentRequest)
    (e e' : SimulationEngine) :
  engine_invariant e -> processes added e e' -> engine_invariant e'.
Proof.
  intros (Hro & Hok & Hsum & Hload) Hp.
  pose proof (processes_roster_static _ _ _ Hp) as Hro'.
  destruct Hp as (_ & _ & _ & _ & Hco & Hok' & Hf & Hsum').
  unfold engine_invariant. rewrite Hco. repeat split.
  - congruence.
  - by apply Forall_app.
  - rewrite Hsum', length_app. lia.
  - apply Forall_lookup_2. intros i s' Hs'.
    destruct (Forall2_lookup_r _ _ _ _ _ Hf Hs') as (s & Hs & Hev).
    destruct Hev as (Hid' & _ & _ & _ & Ht').
    rewrite Forall_lookup in Hload. specialize (Hload i s Hs).
    rewrite load_of_app, Hid', Ht', Hload. done.
Qed.

Lemma prepared_invariant (scen : string) (e : SimulationEngine) :
  engine_invariant e -> engine_invariant (prepared scen e).
Proof.
  intros (Hro & Hok & Hsum & Hload).
  destruct (prepared_fields scen e) as (_ & _ & _ & Hco & _).
  pose proof (prepared_pool scen e) as Hpp.
  unfold engine_invariant. rewrite Hco, prepared_staff_id.
  repeat split; try done.
  - rewrite <- Hsum. clear -Hpp.
    induction Hpp as [|x y l k (_ & Ht & _) _ IH]; cbn; [done|].
    by rewrite Ht, IH.
  - apply Forall_lookup_2. intros i s' Hs'.
    destruct (Forall2_lookup_r _ _ _ _ _ Hpp Hs') as (s & Hs & Hid & Ht & _).
    rewrite Forall_lookup in Hload. specialize (Hload i s Hs).
    by rewrite Hid, Ht.
Qed.

Lemma record_assignment_invariant (e : SimulationEngine)
    (req : DocumentRequest) (i : nat) (s : StaffMember) (c : Q)
    (g : RandomSource) :
  engine_invariant e ->
  (i, s) ∈ candidates (allocator e) (staff_pool e) req ->
  table_get DOCUMENT_COMPLEXITY (document_type req) = Some c ->
  engine_invariant
    (record_assignment e req i s
       (uniform (c * 3 * (8 # 10)) (c * 3 * (12 # 10)) g).1).
Proof.
  intros Hinv Hin Hc. apply candidates_lookup in Hin as [Hi _].
  eapply processes_invariant; [exact Hinv|].
  apply record_assignment_processes; [by apply ROSTER_NoDup, Hinv|done|].
  apply assigned_to_ok. by eapply table_complexity_pos.
Qed.

(** An induction principle for the processing loop: what holds before the
    loop and is kept by every assignment holds after the loop. *)
Lemma process_all_preserves (P : SimulationEngine -> Prop)
    (end_time : datetime) (reqs : list DocumentRequest)
    (e : SimulationEngine) (g : RandomSource) :
  engine_invariant e -> P e ->
  (forall e' req i s c g',
     engine_invariant e' -> allocator e' = allocator e -> P e' ->
     req ∈ reqs -> submission_time req <= end_time ->
     (i, s) ∈ candidates (allocator e') (staff_pool e') req ->
     table_get DOCUMENT_COMPLEXITY (document_type req) = Some c ->
     P (record_assignment e' req i s
          (uniform (c * 3 * (8 # 10)) (c * 3 * (12 # 10)) g').1)) ->
  engine_invariant (process_all end_time reqs e g).1.2 /\
  allocator (process_all end_time reqs e g).1.2 = allocator e /\
  P (process_all end_time reqs e g).1.2.
Proof.
  revert e g. induction reqs as [|req reqs IH]; intros e g Hinv HP Hstep;
    [done|].
  cbn [process_all]. unfold mbind, M_bind.
  destruct (process_request_outcome end_time req e g)
    as [?|? ?|i s g' ? Hin Hk|i s g' c ? Ha Hin Hk m]; cbn [fst snd].
  - apply IH; [done..|]. intros e' r j t c g' ? ? ? Hr.
    apply Hstep; try done. by apply list_elem_of_further.
  - apply IH; [done..|]. intros e' r j t c g' ? ? ? Hr.
    apply Hstep; try done. by apply list_elem_of_further.
  - done.
  - assert (Hinv1 : engine_invariant (record_assignment e req i s m))
      by (by apply record_assignment_invariant).
    assert (HP1 : P (record_assignment e req i s m)).
    { apply Hstep; try done. apply list_elem_of_here. }
    destruct (IH (record_assignment e req i s m) (rs_next g').2 Hinv1 HP1)
      as (H1 & H2 & H3); [|done].
    intros e' r j t c' g'' ? Hal ? Hr. apply Hstep; try done.
    by apply list_elem_of_further.
Qed.

(** Nothing in a batch makes the loop raise. *)
Lemma process_all_no_raise (end_time : datetime) (reqs : list DocumentRequest)
    (e : SimulationEngine) (g : RandomSource) :
  Forall (fun r => exists c,
            table_get DOCUMENT_COMPLEXITY (document_type r) = Some c) reqs ->
  (process_all end_time reqs e g).1.1 = Ok tt.
Proof.
  revert e g. induction reqs as [|req reqs IH]; intros e g Hreqs; [done|].
  apply Forall_cons in Hreqs as [(c & Hc) Hreqs].
  cbn [process_all]. unfold mbind, M_bind.
  destruct (process_request_outcome end_time req e g)
    as [?|? ?|i s g' ? Hin Hk|i s g' c' ? Ha Hin Hk m]; cbn [fst snd];
    try (by apply IH). congruence.
Qed.

Lemma scored_batch_requests (scen : string) (duration_min : Z)
    (e : SimulationEngine) (rs : list DocumentRequest) :
  Forall2 (fun k r =>
             generated scen duration_min (total_requests_of scen) e k r /\
             priority_score r = 0%Q)
    (seq 0 (total_requests_of scen)) rs ->
  Forall (batch_request scen duration_min e) (scored_batch e rs).
Proof.
  intros Hrs. apply Forall2_seq_lookup in Hrs as [_ Hrs].
  unfold scored_batch, batch_request.
  destruct (String.eqb (scheduler_type e) "WEIGHTED").
  - apply Forall_lookup_2. intros i r' Hr'.
    rewrite list_lookup_fmap in Hr'.
    destruct (rs !! i) as [r|] eqn:Hr; [|done]. cbn in Hr'.
    injection Hr' as <-. destruct (Hrs i r Hr) as (Hi & Hgen & _).
    exists i. split; [done|]. split; [exact Hgen|reflexivity].
  - apply Forall_lookup_2. intros i r Hr.
    destruct (Hrs i r Hr) as (Hi & Hgen & Hp). by exists i.
Qed.

Lemma run_order_Permutation (e : SimulationEngine)
    (rs : list DocumentRequest) :
  run_order e rs ≡ₚ scored_batch e rs.
Proof.
  unfold run_order. destruct (String.eqb _ _); apply sorted_Permutation.
Qed.

(** [run] on an engine that satisfies the invariant: generation succeeds,
    an unknown scheduler kind raises, otherwise the loop runs over the
    ordered batch and the metrics are computed. *)
Lemma run_unfold (scen : string) (duration_min : Z)
    (e : SimulationEngine) (g : RandomSource) :
  engine_invariant e ->
  exists rs g1,
    Forall (batch_request scen duration_min e) (run_order e rs) /\
    length (run_order e rs) = total_requests_of scen /\
    run scen duration_min e g =
      if known_scheduler e then
        match process_all (start_time e + duration_min * 60000000)
                (run_order e rs) (prepared scen e) g1 with
        | (Ok _, e2, g2) => _calculate_metrics duration_min e2 g2
        | (Raise x, e2, g2) => (Raise x, e2, g2)
        end
      else
        (Raise (ValueError
                  ("Unknown scheduler type: " ++ scheduler_type e)%string),
         prepared scen e, g1).
Proof.
  intros Hinv.
  destruct (_generate_requests_full scen duration_min e g Hinv)
    as (rs & g1 & Hgen & Hrs).
  exists rs, g1.
  pose proof (scored_batch_requests scen duration_min e rs Hrs) as Hb.
  split; [by rewrite run_order_Permutation|]. split.
  { rewrite run_order_Permutation. unfold scored_batch.
    apply Forall2_length in Hrs. rewrite length_seq in Hrs.
    destruct (String.eqb _ _); [rewrite length_map|]; done. }
  unfold run, mbind, M_bind. rewrite Hgen. unfold get_self.
  destruct (prepared_fields scen e) as (Hs & _ & Hst & _).
  rewrite Hs, Hst, timedelta_minutes_inject_Z.
  unfold known_scheduler, run_order, scored_batch.
  destruct (String.eqb (scheduler_type e) "FCFS") eqn:Hf.
  - cbn [orb]. reflexivity.
  - destruct (String.eqb (scheduler_type e) "WEIGHTED") eqn:Hw; reflexivity.
Qed.

Lemma _calculate_metrics_state (duration_min : Z) (e : SimulationEngine)
    (g : RandomSource) :
  (_calculate_metrics duration_min e g).1.2 = e.
Proof.
  destruct (_calculate_metrics_spec duration_min e g)
    as [(r & -> & _)|(-> & _)]; done.
Qed.

(** An induction principle for [run]: what holds of the prepared engine
    and is kept by every assignment of a request of the batch within the
    horizon holds of the engine after the run. *)
Lemma run_preserves (P : SimulationEngine -> Prop) (scen : string)
    (duration_min : Z) (e : SimulationEngine) (g : RandomSource) :
  engine_invariant e -> P (prepared scen e) ->
  (forall e' req i s c g',
     engine_invariant e' -> allocator e' = allocator e -> P e' ->
     batch_request scen duration_min e req ->
     submission_time req <= start_time e + duration_min * 60000000 ->
     (i, s) ∈ candidates (allocator e') (staff_pool e') req ->
     table_get DOCUMENT_COMPLEXITY (document_type req) = Some c ->
     P (record_assignment e' req i s
          (uniform (c * 3 * (8 # 10)) (c * 3 * (12 # 10)) g').1)) ->
  P (run scen duration_min e g).1.2.
Proof.
  intros Hinv HP Hstep.
  destruct (run_unfold scen duration_min e g Hinv) as (rs & g1 & Hb & _ & ->).
  destruct (known_scheduler e); [|done].
  destruct (prepared_fields scen e) as (_ & Hal & _).
  destruct (process_all_preserves P
              (start_time e + duration_min * 60000000) (run_order e rs)
              (prepared scen e) g1 (prepared_invariant scen e Hinv) HP)
    as (_ & _ & HP').
  { intros e' req i s c g' ? Ha ? Hr. apply Hstep; try done; [congruence|].
    rewrite Forall_forall in Hb. by apply Hb. }
  destruct (process_all _ _ _ g1) as [[[[]|x] e2] g2]; cbn [fst snd] in *;
    [|done].
  by rewrite _calculate_metrics_state.
Qed.

Lemma Qeq_bool_duration_hours (d : Z) :
  Qeq_bool (inject_Z d / 60) 0 = true <-> d = 0.
Proof.
  rewrite Qeq_bool_iff. split.
  - intros H. assert (H' : (inject_Z d == 0)%Q).
    { assert (E : (inject_Z d == inject_Z d / 60 * 60)%Q) by (field; lra).
      rewrite E, H. reflexivity. }
    by apply (inject_Z_injective d 0).
  - intros ->. reflexivity.
Qed.

Lemma batch_request_known_document (scen : string) (duration_min : Z)
    (e : SimulationEngine) (r : DocumentRequest) :
  batch_request scen duration_min e r ->
  exists c, table_get DOCUMENT_COMPLEXITY (document_type r) = Some c.
Proof.
  intros (i & _ & (_ & _ & Hdoc & _) & _). by apply keys_known.
Qed.

Lemma _calculate_metrics_rng (duration_min : Z) (e : SimulationEngine)
    (g g' : RandomSource) :
  (_calculate_metrics duration_min e g).1.1 =
  (_calculate_metrics duration_min e g').1.1.
Proof.
  unfold _calculate_metrics, mbind, M_bind, get_self.
  destruct (completed e); [done|]. by destruct (Qeq_bool _ _).
Qed.

(** With a recognized scheduler the loop never raises: what [run] returns
    is what [_calculate_metrics] returns on the final state. *)
Lemma run_result (scen : string) (duration_min : Z)
    (e : SimulationEngine) (g : RandomSource) :
  engine_invariant e -> known_scheduler e = true ->
  (run scen duration_min e g).1.1 =
  (_calculate_metrics duration_min (run scen duration_min e g).1.2 g).1.1.
Proof.
  intros Hinv Hk.
  destruct (run_unfold scen duration_min e g Hinv) as (rs & g1 & Hb & _ & ->).
  rewrite Hk.
  pose proof (process_all_no_raise
                (start_time e + duration_min * 60000000) (run_order e rs)
                (prepared scen e) g1) as Hok.
  destruct (process_all _ _ _ g1) as [[res e2] g2]; cbn [fst snd] in *.
  rewrite Hok; cycle 1.
  { eapply Forall_impl; [exact Hb|]. intros r Hr.
    by eapply batch_request_known_document. }
  rewrite _calculate_metrics_state. apply _calculate_metrics_rng.
Qed.

Lemma reachable_known_scheduler (sched alloc : string)
    (clock : nat -> datetime) (calls : list (string * Z)) (g0 : RandomSource) :
  known_scheduler (run_many calls (new_engine sched alloc clock) g0).1
  = recognized sched.
Proof.
  unfold known_scheduler, recognized.
  destruct (run_many_keeps_strategy calls (new_engine sched alloc clock) g0
              (new_engine_invariant sched alloc clock)) as [-> _].
  done.
Qed.

(** X13: on every engine with a recognized scheduler kind, as long as the
    durations of this run and of the earlier ones are in range, [run] raises
    nothing but [ZeroDivisionError], and it raises it exactly when
    [duration_min] is 0 and the completed list, earlier runs included, is
    not empty; in particular [run] returns a report whenever [duration_min]
    is not 0. A report it returns counts the whole completed list and the
    whole roster and carries the scenario argument. *)
Theorem run_returns_or_divides_by_zero (sched alloc : string)
    (clock : nat -> datetime) (calls : list (string * Z)) (g0 : RandomSource)
    (scen : string) (duration_min : Z) :
  recognized sched = true ->
  calls_in_range calls = true ->
  duration_in_range duration_min = true ->
  let e := (run_many calls (new_engine sched alloc clock) g0).1 in
  let g := (run_many calls (new_engine sched alloc clock) g0).2 in
  let e' := (run scen duration_min e g).1.2 in
  match (run scen duration_min e g).1.1 with
  | Ok r =>
      (duration_min <> 0 \/ completed e' = []) /\
      Report.total_processed r = length (completed e') /\
      Report.staff_load r = staff_load_of (staff_pool e') /\
      Report.scenario r = scen
  | Raise x =>
      x = ZeroDivisionError /\ duration_min = 0 /\ completed e' <> []
  end.
Proof.
  intros Hrec _ _ e g e'.
  pose proof (reachable_invariant sched alloc clock calls g0) as Hinv.
  pose proof (reachable_known_scheduler sched alloc clock calls g0) as Hk.
  rewrite Hrec in Hk. fold e in Hinv, Hk.
  rewrite (run_result scen duration_min e g Hinv Hk). fold e'.
  assert (Hsc : scenario e' = scen).
  { destruct (run_spec scen duration_min e g (ROSTER_NoDup e (proj1 Hinv)))
      as (added & (_ & _ & _ & Hsc & _) & _).
    destruct (prepared_fields scen e) as (_ & _ & _ & _ & Hsc1).
    subst e'. congruence. }
  destruct (_calculate_metrics_spec duration_min e' g)
    as [(r & E & Ht & Hl & Hs)|(E & Hne & Hz)]; rewrite E; cbn [fst snd].
  - split; [|by rewrite Hs].
    destruct (Z.eq_dec duration_min 0) as [->|Hd]; [|by left]. right.
    revert E. unfold _calculate_metrics, mbind, M_bind, get_self.
    destruct (completed e'); [done|]. cbn. discriminate.
  - split; [done|]. split; [|done]. by apply Qeq_bool_duration_hours.
Qed.

Lemma run_returns_or_divides_by_zero_witness :
  recognized "fcfs" = true /\ calls_in_range [] = true /\
  duration_in_range 0 = true /\
  let e := (run_many [] (new_engine "fcfs" "pooled" (fun _ => 0))
              (fun _ => 0%N)).1 in
  let g := (run_many [] (new_engine "fcfs" "pooled" (fun _ => 0))
              (fun _ => 0%N)).2 in
  let e' := (run "baseline" 0 e g).1.2 in
  match (run "baseline" 0 e g).1.1 with
  | Ok r =>
      (0 <> 0 \/ completed e' = []) /\
      Report.total_processed r = length (completed e') /\
      Report.staff_load r = staff_load_of (staff_pool e') /\
      Report.scenario r = "baseline"
  | Raise x =>
      x = ZeroDivisionError /\ 0 = 0 /\ completed e' <> []
  end.
Proof.
  split; [reflexivity|]. split; [reflexivity|]. split; [reflexivity|].
  apply (run_returns_or_divides_by_zero "fcfs" "pooled" (fun _ => 0) []
           (fun _ => 0%N) "baseline" 0); reflexivity.
Defined.

(** ** Which requests a run completes *)

Lemma process_all_skips_all (end_time : datetime)
    (reqs : list DocumentRequest) (e : SimulationEngine) (g : RandomSource) :
  Forall (fun r => end_time < submission_time r) reqs ->
  process_all end_time reqs e g = (Ok tt, e, g).
Proof.
  induction 1 as [|r reqs Hr _ IH]; [done|].
  cbn [process_all]. unfold mbind, M_bind, process_request.
  apply Z.ltb_lt in Hr. rewrite Hr. cbn. exact IH.
Qed.

(** When every request of the list lies within the horizon, has a known
    document type and finds a candidate whatever the loop has done before,
    the loop completes all of them. *)
Lemma process_all_serves_all (end_time : datetime)
    (reqs : list DocumentRequest) (e : SimulationEngine) (g : RandomSource) :
  engine_invariant e ->
  (forall pool' req,
     Forall2 (fun s s' => is_available s' = is_available s /\
                          college_affiliation s' = college_affiliation s)
       (staff_pool e) pool' ->
     req ∈ reqs -> candidates (allocator e) pool' req <> []) ->
  Forall (fun r => submission_time r <= end_time /\
                   exists c, table_get DOCUMENT_COMPLEXITY (document_type r)
                             = Some c) reqs ->
  exists added,
    completed (process_all end_time reqs e g).1.2 = completed e ++ added /\
    length added = length reqs.
Proof.
  revert e g. induction reqs as [|req reqs IH]; intros e g Hinv Hcand Hreqs.
  - exists []. by rewrite app_nil_r.
  - apply Forall_cons in Hreqs as [(Hle & c & Hc) Hreqs].
    cbn [process_all]. unfold mbind, M_bind.
    assert (Hne : candidates (allocator e) (staff_pool e) req <> []).
    { apply Hcand; [|apply list_elem_of_here].
      apply Forall_Forall2_diag, Forall_forall. done. }
    destruct (drop_step end_time req e g c Hle Hc Hne)
      as (i & s & m & g1 & Hin & -> & Hok).
    pose proof (candidates_lookup _ _ _ _ _ Hin) as [Hi _].
    pose proof (record_assignment_processes e req i s m
                  (ROSTER_NoDup e (proj1 Hinv)) Hi Hok) as Hp.
    destruct (IH (record_assignment e req i s m) g1) as (a2 & Hco & Hlen).
    + by eapply processes_invariant.
    + intros pool' r Hf Hr.
      destruct Hp as (_ & Hal & _ & _ & _ & _ & Hev & _). rewrite Hal.
      apply Hcand; [|by apply list_elem_of_further].
      eapply Forall2_compose; [|exact Hev|exact Hf].
      intros x y z (_ & _ & Hc1 & Ha1 & _) (Ha2 & Hc2). split; congruence.
    + done.
    + exists (assigned_to req s m :: a2). rewrite Hco. cbn [fst snd].
      split; [|cbn; lia]. cbn [completed record_assignment set_completed].
      by rewrite <- app_assoc.
Qed.

(** An available member is a candidate of every allocator but the
    college-based one. *)
Lemma available_member_is_candidate (a : Allocator)
    (pool : list StaffMember) (req : DocumentRequest) (i : nat)
    (s : StaffMember) :
  a <> CollegeBasedAllocator ->
  pool !! i = Some s -> is_available s = true ->
  candidates a pool req <> [].
Proof.
  intros Ha Hs Hav.
  assert (Hne : List.filter staff_available (enumerate pool) <> []).
  { intros Hnil.
    pose proof (proj1 (bool_filter_enumerate_nil staff_available pool)
                  Hnil i s Hs) as Hf.
    unfold staff_available in Hf. cbn in Hf. congruence. }
  destruct a; cbn [candidates]; try done.
  by destruct (List.filter (same_college_available req) (enumerate pool)).
Qed.

(** The first member of the roster is available on every engine: the only
    write to an availability flag is at the third position. *)
Lemma first_member_available (e : SimulationEngine) :
  engine_invariant e ->
  (exists s, staff_pool e !! 0%nat = Some s /\ is_available s = true) ->
  forall scen duration_min g,
    exists s, staff_pool (run scen duration_min e g).1.2 !! 0%nat = Some s /\
              is_available s = true.
Proof.
  intros Hinv (s & Hs & Hav) scen duration_min g.
  destruct (run_spec scen duration_min e g (ROSTER_NoDup e (proj1 Hinv)))
    as (added & Hp & _).
  assert (H1 : staff_pool (prepared scen e) !! 0%nat = Some s).
  { unfold prepared. destruct (String.eqb scen "staff_absence"); [|done].
    cbn [staff_pool set_scenario].
    destruct (staff_pool e !! 2%nat); [|done].
    cbn [staff_pool set_staff_pool]. by rewrite list_lookup_insert_ne. }
  destruct (processes_flag _ _ _ _ _ Hp H1) as (s' & Hs' & Hav').
  exists s'. split; [done|congruence].
Qed.

Lemma reachable_first_member_available (sched alloc : string)
    (clock : nat -> datetime) (calls : list (string * Z)) (g0 : RandomSource) :
  exists s,
    staff_pool (run_many calls (new_engine sched alloc clock) g0).1 !! 0%nat
      = Some s /\ is_available s = true.
Proof.
  assert (H : forall e g, engine_invariant e ->
            (exists s, staff_pool e !! 0%nat = Some s /\ is_available s = true) ->
            exists s, staff_pool (run_many calls e g).1 !! 0%nat = Some s /\
                      is_available s = true).
  { induction calls as [|[scen d] calls IH]; intros e g Hinv Hfirst; [done|].
    cbn [run_many].
    pose proof (run_invariant scen d e g Hinv) as Hinv'.
    pose proof (first_member_available e Hinv Hfirst scen d g) as Hfirst'.
    destruct (run scen d e g) as [[res e'] g']. by apply IH. }
  apply H; [apply new_engine_invariant|]. by eexists.
Qed.

Lemma reachable_allocator (sched alloc : string)
    (clock : nat -> datetime) (calls : list (string * Z)) (g0 : RandomSource) :
  allocator (run_many calls (new_engine sched alloc clock) g0).1
  = _create_allocator alloc.
Proof.
  by destruct (run_many_keeps_strategy calls (new_engine sched alloc clock) g0
                 (new_engine_invariant sched alloc clock)) as [_ ->].
Qed.

(** With a non-negative duration and an allocator other than the
    college-based one, the loop of [run] completes the whole batch. *)
Lemma run_serves_all (scen : string) (duration_min : Z)
    (e : SimulationEngine) (g : RandomSource) :
  engine_invariant e -> known_scheduler e = true ->
  allocator e <> CollegeBasedAllocator ->
  (exists s, staff_pool e !! 0%nat = Some s /\ is_available s = true) ->
  0 <= duration_min ->
  exists added,
    completed (run scen duration_min e g).1.2 = completed e ++ added /\
    length added = total_requests_of scen.
Proof.
  intros Hinv Hk Hal (s & Hs & Hav) Hd.
  destruct (run_unfold scen duration_min e g Hinv)
    as (rs & g1 & Hb & Hlen & ->).
  rewrite Hk.
  destruct (prepared_fields scen e) as (_ & Hal1 & _ & Hco1 & _).
  assert (H1 : staff_pool (prepared scen e) !! 0%nat = Some s).
  { unfold prepared. destruct (String.eqb scen "staff_absence"); [|done].
    cbn [staff_pool set_scenario].
    destruct (staff_pool e !! 2%nat); [|done].
    cbn [staff_pool set_staff_pool]. by rewrite list_lookup_insert_ne. }
  destruct (process_all_serves_all
              (start_time e + duration_min * 60000000) (run_order e rs)
              (prepared scen e) g1 (prepared_invariant scen e Hinv))
    as (added & Hco & Hla).
  - intros pool' req Hf Hr.
    destruct (Forall2_lookup_l _ _ _ _ _ Hf H1) as (s' & Hs' & Hav' & _).
    rewrite Hal1. eapply available_member_is_candidate; [done..|congruence].
  - eapply Forall_impl; [exact Hb|]. intros r Hr.
    split; [|by eapply batch_request_known_document].
    destruct Hr as (i & Hi & (_ & _ & _ & _ & _ & -> & _) & _).
    pose proof (total_requests_of_range scen) as Hn.
    pose proof (time_offset_le_duration duration_min (total_requests_of scen)
                  ltac:(lia) i Hd ltac:(lia)) as Ho.
    unfold time_offset in Ho. lia.
  - exists added. rewrite Hco1 in Hco. split; [|lia].
    destruct (process_all _ _ _ g1) as [[[[]|x] e2] g2]; cbn [fst snd] in *;
      [|done].
    by rewrite _calculate_metrics_state.
Qed.

(** X14: on every engine whose allocator is not the college-based one and
    whose scheduler kind is recognized, a run with a non-negative duration,
    this duration and those of the earlier runs being in range, completes
    every request of its batch: the completed list grows by exactly the
    scenario's batch size, also under [staff_absence]. *)
Theorem non_college_runs_complete_the_batch (sched alloc : string)
    (clock : nat -> datetime) (calls : list (string * Z)) (g0 : RandomSource)
    (scen : string) (duration_min : Z) :
  recognized sched = true ->
  _create_allocator alloc <> CollegeBasedAllocator ->
  0 <= duration_min ->
  calls_in_range calls = true ->
  duration_in_range duration_min = true ->
  let e := (run_many calls (new_engine sched alloc clock) g0).1 in
  let g := (run_many calls (new_engine sched alloc clock) g0).2 in
  exists added,
    completed (run scen duration_min e g).1.2 = completed e ++ added /\
    length added = total_requests_of scen.
Proof.
  intros Hrec Hal Hd _ _ e g.
  apply run_serves_all; try done.
  - apply reachable_invariant.
  - subst e. by rewrite reachable_known_scheduler.
  - subst e. by rewrite reachable_allocator.
  - apply reachable_first_member_available.
Qed.

Lemma non_college_runs_complete_the_batch_witness :
  (recognized "weighted" = true /\
   _create_allocator "workload_based" <> CollegeBasedAllocator /\
   0 <= 30 /\ calls_in_range [] = true /\ duration_in_range 30 = true) /\
  let e := (run_many [] (new_engine "weighted" "workload_based" (fun _ => 0))
              (fun _ => 0%N)).1 in
  let g := (run_many [] (new_engine "weighted" "workload_based" (fun _ => 0))
              (fun _ => 0%N)).2 in
  exists added,
    completed (run "staff_absence" 30 e g).1.2 = completed e ++ added /\
    length added = total_requests_of "staff_absence".
Proof.
  split; [split; [reflexivity|split; [discriminate|split; [lia|]]]|].
  { split; reflexivity. }
  apply (non_college_runs_complete_the_batch "weighted" "workload_based"
           (fun _ => 0) [] (fun _ => 0%N) "staff_absence" 30);
    [reflexivity|discriminate|lia|reflexivity|reflexivity].
Defined.

(** X15: with [duration_min = 0] every request is submitted at the very end
    of the horizon and is still processed; on an engine with a recognized
    scheduler and an allocator other than the college-based one, [run] then
    raises [ZeroDivisionError] from the throughput computation, after it has
    appended the whole batch to the completed list. *)
Theorem zero_duration_raises_after_processing (sched alloc : string)
    (clock : nat -> datetime) (calls : list (string * Z)) (g0 : RandomSource)
    (scen : string) :
  recognized sched = true ->
  _create_allocator alloc <> CollegeBasedAllocator ->
  let e := (run_many calls (new_engine sched alloc clock) g0).1 in
  let g := (run_many calls (new_engine sched alloc clock) g0).2 in
  (run scen 0 e g).1.1 = Raise ZeroDivisionError /\
  exists added,
    completed (run scen 0 e g).1.2 = completed e ++ added /\
    length added = total_requests_of scen.
Proof.
  intros Hrec Hal e g.
  pose proof (reachable_invariant sched alloc clock calls g0) as Hinv.
  pose proof (reachable_known_scheduler sched alloc clock calls g0) as Hk.
  rewrite Hrec in Hk. fold e in Hinv, Hk.
  destruct (run_serves_all scen 0 e g Hinv Hk) as (added & Hco & Hlen);
    [subst e; by rewrite reachable_allocator
    |apply reachable_first_member_available|lia|].
  split; [|by exists added].
  rewrite (run_result scen 0 e g Hinv Hk).
  destruct (_calculate_metrics_spec 0 (run scen 0 e g).1.2 g)
    as [(r & E & _)|(E & _)]; rewrite E; [|done]. exfalso.
  revert E. unfold _calculate_metrics, mbind, M_bind, get_self.
  rewrite Hco. pose proof (total_requests_of_range scen).
  destruct added as [|a added]; [cbn in Hlen; lia|].
  destruct (completed e); cbn; discriminate.
Qed.

Lemma zero_duration_raises_after_processing_witness :
  (recognized "FCFS" = true /\
   _create_allocator "pooled" <> CollegeBasedAllocator) /\
  let e := (run_many [] (new_engine "FCFS" "pooled" (fun _ => 0))
              (fun _ => 0%N)).1 in
  let g := (run_many [] (new_engine "FCFS" "pooled" (fun _ => 0))
              (fun _ => 0%N)).2 in
  (run "baseline" 0 e g).1.1 = Raise ZeroDivisionError /\
  exists added,
    completed (run "baseline" 0 e g).1.2 = completed e ++ added /\
    length added = total_requests_of "baseline".
Proof.
  split; [split; [reflexivity|discriminate]|].
  apply (zero_duration_raises_after_processing "FCFS" "pooled" (fun _ => 0)
           [] (fun _ => 0%N) "baseline"); [reflexivity|discriminate].
Defined.

Lemma run_negative_duration (scen : string) (duration_min : Z)
    (e : SimulationEngine) (g : RandomSource) :
  engine_invariant e -> duration_min < 0 ->
  (run scen duration_min e g).1.2 = prepared scen e /\
  (known_scheduler e = true -> completed e = [] ->
   (run scen duration_min e g).1.1 =
     Ok (Report.mk 0 0 0 0 (staff_load_of (staff_pool (prepared scen e)))
           scen)).
Proof.
  intros Hinv Hd.
  destruct (run_unfold scen duration_min e g Hinv) as (rs & g1 & Hb & _ & ->).
  rewrite process_all_skips_all; cycle 1.
  { eapply Forall_impl; [exact Hb|]. intros r Hr.
    destruct Hr as (i & Hi & (_ & _ & _ & _ & _ & -> & _) & _).
    pose proof (total_requests_of_range scen) as Hn.
    pose proof (time_offset_gt_duration duration_min (total_requests_of scen)
                  ltac:(lia) i Hd Hi) as Ho.
    unfold time_offset in Ho. lia. }
  destruct (known_scheduler e); cbn [fst snd];
    [|split; [done|discriminate]].
  split; [apply _calculate_metrics_state|]. intros _ Hnil.
  destruct (prepared_fields scen e) as (_ & _ & _ & Hco & Hsc).
  unfold _calculate_metrics, mbind, M_bind, get_self.
  rewrite Hco, Hnil, Hsc. reflexivity.
Qed.

(** X16: with a negative duration, this duration and those of the earlier
    runs being in range, every request of the batch lies beyond the end of
    the horizon, so a run completes nothing: it only relabels the scenario
    and, for [staff_absence], marks the third member. With a recognized
    scheduler and no earlier completion the report is all zeros, with one
    zero entry for each of the six members. *)
Theorem negative_duration_processes_nothing (sched alloc : string)
    (clock : nat -> datetime) (calls : list (string * Z)) (g0 : RandomSource)
    (scen : string) (duration_min : Z) :
  duration_min < 0 ->
  calls_in_range calls = true ->
  duration_in_range duration_min = true ->
  let e := (run_many calls (new_engine sched alloc clock) g0).1 in
  let g := (run_many calls (new_engine sched alloc clock) g0).2 in
  (run scen duration_min e g).1.2 = prepared scen e /\
  (recognized sched = true -> completed e = [] ->
   exists r,
     (run scen duration_min e g).1.1 = Ok r /\
     Report.avg_waiting_time r = 0%Q /\ Report.avg_turnaround r = 0%Q /\
     Report.throughput r = 0%Q /\ Report.total_processed r = 0%nat /\
     Report.scenario r = scen /\
     size (Report.staff_load r) = 6%nat /\
     forall sid n, Report.staff_load r !! sid = Some n -> n = 0%nat).
Proof.
  intros Hd _ _ e g.
  pose proof (reachable_invariant sched alloc clock calls g0) as Hinv.
  fold e in Hinv.
  destruct (run_negative_duration scen duration_min e g Hinv Hd) as [Hst Hres].
  split; [done|]. intros Hrec Hnil.
  pose proof (reachable_known_scheduler sched alloc clock calls g0) as Hk.
  rewrite Hrec in Hk. fold e in Hk. rewrite (Hres Hk Hnil).
  eexists. split; [reflexivity|]. cbn.
  pose proof (prepared_invariant scen e Hinv) as (Hro & _ & _ & Hload).
  assert (Hnd : NoDup (staff_id <$> staff_pool (prepared scen e)))
    by (by apply ROSTER_NoDup).
  repeat split.
  - rewrite staff_load_of_size by done.
    apply (f_equal length) in Hro. unfold roster_static in Hro.
    by rewrite length_fmap in Hro.
  - intros sid n Hn.
    apply staff_load_of_lookup_Some in Hn as (i & s & Hs & _ & <-); [|done].
    rewrite Forall_lookup in Hload. rewrite (Hload i s Hs).
    destruct (prepared_fields scen e) as (_ & _ & _ & -> & _).
    by rewrite Hnil.
Qed.

Lemma negative_duration_processes_nothing_witness :
  let e := (run_many [] (new_engine "FCFS" "pooled" (fun _ => 0))
              (fun _ => 0%N)).1 in
  let g := (run_many [] (new_engine "FCFS" "pooled" (fun _ => 0))
              (fun _ => 0%N)).2 in
  (-60 < 0 /\ calls_in_range [] = true /\ duration_in_range (-60) = true /\
   recognized "FCFS" = true /\ completed e = []) /\
  (run "baseline" (-60) e g).1.2 = prepared "baseline" e /\
  exists r,
    (run "baseline" (-60) e g).1.1 = Ok r /\
    Report.avg_waiting_time r = 0%Q /\ Report.avg_turnaround r = 0%Q /\
    Report.throughput r = 0%Q /\ Report.total_processed r = 0%nat /\
    Report.scenario r = "baseline" /\
    size (Report.staff_load r) = 6%nat /\
    forall sid n, Report.staff_load r !! sid = Some n -> n = 0%nat.
Proof.
  intros e g. split; [split; [lia|repeat split; reflexivity]|].
  destruct (negative_duration_processes_nothing "FCFS" "pooled" (fun _ => 0)
              [] (fun _ => 0%N) "baseline" (-60) ltac:(lia) eq_refl eq_refl)
    as [H1 H2].
  split; [exact H1|]. exact (H2 eq_refl eq_refl).
Defined.

(** ** What holds of an engine after any sequence of runs *)

(** An induction principle over the life of an engine. *)
Lemma run_many_preserves (P : SimulationEngine -> Prop)
    (calls : list (string * Z)) (e : SimulationEngine) (g : RandomSource) :
  engine_invariant e -> P e ->
  (forall e' scen, engine_invariant e' -> P e' -> P (prepared scen e')) ->
  (forall e' req i s c g',
     engine_invariant e' -> P e' ->
     (i, s) ∈ candidates (allocator e') (staff_pool e') req ->
     table_get DOCUMENT_COMPLEXITY (document_type req) = Some c ->
     P (record_assignment e' req i s
          (uniform (c * 3 * (8 # 10)) (c * 3 * (12 # 10)) g').1)) ->
  P (run_many calls e g).1.
Proof.
  intros Hinv HP Hprep Hstep. revert e g Hinv HP.
  induction calls as [|[scen d] calls IH]; intros e g Hinv HP; [done|].
  cbn [run_many].
  pose proof (run_invariant scen d e g Hinv) as Hinv'.
  assert (HP' : P (run scen d e g).1.2).
  { apply run_preserves; [done|by apply Hprep|].
    intros e' req i s c g' ? _ ? _ _ ? ?. by apply Hstep. }
  destruct (run scen d e g) as [[res e'] g']. by apply IH.
Qed.

Lemma candidates_roster (e : SimulationEngine) (req : DocumentRequest)
    (i : nat) (s : StaffMember) :
  engine_invariant e ->
  (i, s) ∈ candidates (allocator e) (staff_pool e) req ->
  (staff_id s, name s, college_affiliation s) ∈ ROSTER.
Proof.
  intros (Hro & _) Hin. apply candidates_lookup in Hin as [Hi _].
  rewrite <- Hro. unfold roster_static. apply list_elem_of_fmap.
  exists s. split; [done|]. by eapply list_elem_of_lookup_2.
Qed.

(** X17: under the college-based allocator every completed request, of
    any run, is assigned to the roster member of the request's own college.
    An engine built with an allocator name that is not known is such an
    engine. *)
Theorem college_based_serves_own_college (sched alloc : string)
    (clock : nat -> datetime) (calls : list (string * Z)) (g0 : RandomSource) :
  _create_allocator alloc = CollegeBasedAllocator ->
  Forall (fun r => exists sid nm,
            assigned_staff r = Some sid /\ (sid, nm, college r) ∈ ROSTER)
    (completed (run_many calls (new_engine sched alloc clock) g0).1).
Proof.
  intros Hal.
  set (P := fun e : SimulationEngine =>
              allocator e = CollegeBasedAllocator /\
              Forall (fun r => exists sid nm,
                        assigned_staff r = Some sid /\
                        (sid, nm, college r) ∈ ROSTER) (completed e)).
  enough (P (run_many calls (new_engine sched alloc clock) g0).1) as [_ H]
    by done.
  apply run_many_preserves.
  - apply new_engine_invariant.
  - split; [done|constructor].
  - intros e' scen _ [Ha Hf].
    destruct (prepared_fields scen e') as (_ & Ha' & _ & Hco & _).
    split; [congruence|by rewrite Hco].
  - intros e' req i s c g' Hinv [Ha Hf] Hin Hc. split; [done|].
    cbn [completed record_assignment set_completed].
    apply Forall_app. split; [done|]. constructor; [|constructor].
    exists (staff_id s), (name s). split; [done|].
    pose proof (candidates_roster e' req i s Hinv Hin) as Hro.
    rewrite Ha in Hin. cbn [candidates] in Hin.
    apply elem_of_bool_filter in Hin as [_ Hf'].
    unfold same_college_available in Hf'.
    apply andb_true_iff in Hf' as [Hcol _]. apply String.eqb_eq in Hcol.
    cbn in Hcol. cbn [college assigned_to set_completion_time set_assignment].
    by rewrite <- Hcol.
Qed.

Lemma college_based_serves_own_college_witness :
  _create_allocator "round_robin" = CollegeBasedAllocator /\
  Forall (fun r => exists sid nm,
            assigned_staff r = Some sid /\ (sid, nm, college r) ∈ ROSTER)
    (completed (run_many [("baseline", 60); ("staff_absence", 30)]
                  (new_engine "FCFS" "round_robin" (fun _ => 0))
                  (fun n => N.of_nat n)).1).
Proof.
  split; [reflexivity|].
  apply (college_based_serves_own_college "FCFS" "round_robin" (fun _ => 0)
           [("baseline", 60); ("staff_absence", 30)] (fun n => N.of_nat n)).
  reflexivity.
Defined.

(** X18: on every engine, whatever runs it has served, the requests
    assigned to one member were served one after the other: a request starts
    no earlier than every request completed before it by the same member
    ends. *)
Theorem members_serve_in_order (sched alloc : string)
    (clock : nat -> datetime) (calls : list (string * Z)) (g0 : RandomSource) :
  served_in_order (completed (run_many calls (new_engine sched alloc clock) g0).1).
Proof.
  set (P := fun e : SimulationEngine =>
              served_in_order (completed e) /\ busy_until_covers e).
  enough (P (run_many calls (new_engine sched alloc clock) g0).1) as [H _]
    by done.
  apply run_many_preserves.
  - apply new_engine_invariant.
  - split.
    + intros j k r1 r2 _ H. cbn in H. by rewrite lookup_nil in H.
    + intros i s r _ H. cbn in H. by apply elem_of_nil in H.
  - intros e' scen _ [Hs Hb].
    destruct (prepared_fields scen e') as (_ & _ & _ & Hco & _).
    split; [by rewrite Hco|].
    intros i s' r Hs' Hr Has. rewrite Hco in Hr.
    destruct (Forall2_lookup_r _ _ _ _ _ (prepared_pool scen e') Hs')
      as (s & Hsl & Hid & _ & Hn & _).
    rewrite Hid in Has. rewrite Hn. by eapply Hb.
  - intros e' req i s c g' Hinv [Hs Hb] Hin Hc.
    pose proof (candidates_lookup _ _ _ _ _ Hin) as [Hi _].
    pose proof (processing_time_nonneg c g' ltac:(by eapply table_complexity_pos))
      as Hpt.
    set (m := (uniform _ _ g').1) in *. clearbody m.
    set (a := py_max (submission_time req) (next_available_time s)).
    assert (Ha : next_available_time s <= a)
      by (subst a; rewrite py_max_Zmax; lia).
    split.
    + intros j k r1 r2 Hjk H1 H2 Has.
      cbn [completed record_assignment set_completed] in H1, H2.
      apply lookup_snoc_Some in H2 as [[Hk H2]|[Hk <-]].
      * rewrite lookup_app_l in H1 by lia.
        exact (Hs j k r1 r2 Hjk H1 H2 Has).
      * rewrite lookup_app_l in H1 by lia.
        cbn [assigned_staff assigned_to set_completion_time set_assignment]
          in Has.
        destruct (Hb i s r1 Hi) as (c1 & Hc1 & Hle); [|done|].
        { by eapply list_elem_of_lookup_2. }
        exists c1, a. split; [done|]. split; [done|]. lia.
    + intros j s' r Hs' Hr Has.
      cbn [completed staff_pool record_assignment set_completed
             set_staff_pool] in Hs', Hr.
      destruct (decide (i = j)) as [<-|Hne].
      * rewrite list_lookup_insert_eq in Hs' by (by eapply lookup_lt_Some).
        injection Hs' as <-. cbn [staff_id next_available_time assign_request]
          in Has |- *.
        apply elem_of_app in Hr as [Hr|Hr].
        -- destruct (Hb i s r Hi Hr Has) as (c1 & Hc1 & Hle).
           exists c1. split; [done|]. lia.
        -- apply list_elem_of_singleton in Hr as ->.
           eexists. split; [reflexivity|]. fold a. lia.
      * rewrite list_lookup_insert_ne in Hs' by done.
        apply elem_of_app in Hr as [Hr|Hr]; [by eapply Hb|].
        apply list_elem_of_singleton in Hr as ->.
        cbn [assigned_staff assigned_to set_completion_time set_assignment]
          in Has.
        injection Has as Has. exfalso. apply Hne.
        by eapply (NoDup_staff_id (staff_pool e') i j s s');
          [apply ROSTER_NoDup, Hinv|..].
Qed.

Lemma set_is_available_false_id (s : StaffMember) :
  is_available s = false -> set_is_available s false = s.
Proof. destruct s. cbn. by intros ->. Qed.

(** A member that is not available is left as it is by a run. *)
Lemma run_keeps_unavailable_member (scen : string) (duration_min : Z)
    (e : SimulationEngine) (g : RandomSource) (i : nat) (s : StaffMember) :
  engine_invariant e ->
  staff_pool e !! i = Some s -> is_available s = false ->
  staff_pool (run scen duration_min e g).1.2 !! i = Some s.
Proof.
  intros Hinv Hs Hav.
  apply (run_preserves (fun e' => staff_pool e' !! i = Some s)); [done| |].
  - unfold prepared. destruct (String.eqb scen "staff_absence"); [|done].
    cbn [staff_pool set_scenario].
    destruct (staff_pool e !! 2%nat) as [t|] eqn:Ht; [|done].
    cbn [staff_pool set_staff_pool].
    destruct (decide (2%nat = i)) as [<-|Hne].
    + rewrite list_lookup_insert_eq by (by eapply lookup_lt_Some).
      simplify_eq. by rewrite set_is_available_false_id.
    + by rewrite list_lookup_insert_ne.
  - intros e' req j t c g' _ _ Hs' _ _ Hin _.
    apply candidates_lookup in Hin as [Hj Ht].
    cbn [staff_pool record_assignment set_completed set_staff_pool].
    rewrite list_lookup_insert_ne; [done|]. intros ->. congruence.
Qed.

(** X19: a run with scenario [staff_absence] leaves the third roster
    member as it was except for its availability flag, and no later run, of
    any scenario, touches that member again: its assignment count and its
    next-available time are frozen, and no request is assigned to STAFF003
    from the moment the run starts. *)
Theorem absent_member_is_frozen (sched alloc : string)
    (clock : nat -> datetime) (before after : list (string * Z))
    (g0 : RandomSource) (duration_min : Z) :
  let e := (run_many before (new_engine sched alloc clock) g0).1 in
  let g := (run_many before (new_engine sched alloc clock) g0).2 in
  let e1 := (run "staff_absence" duration_min e g).1.2 in
  let g1 := (run "staff_absence" duration_min e g).2 in
  let e2 := (run_many after e1 g1).1 in
  staff_pool e1 !! 2%nat =
    (fun s => set_is_available s false) <$> staff_pool e !! 2%nat /\
  staff_pool e2 !! 2%nat = staff_pool e1 !! 2%nat /\
  load_of "STAFF003" (completed e2) = load_of "STAFF003" (completed e).
Proof.
  intros e g e1 g1 e2.
  pose proof (reachable_invariant sched alloc clock before g0) as Hinv.
  fold e in Hinv.
  destruct (invariant_third_member e Hinv) as (s & Hs & Hid & _).
  set (s0 := set_is_available s false).
  assert (H1 : staff_pool e1 !! 2%nat = Some s0).
  { apply (run_preserves (fun e' => staff_pool e' !! 2%nat = Some s0));
      [done| |].
    - unfold prepared. rewrite String.eqb_refl.
      cbn [staff_pool set_scenario]. rewrite Hs.
      cbn [staff_pool set_staff_pool].
      by rewrite list_lookup_insert_eq by (by eapply lookup_lt_Some).
    - intros e' req j t c g' _ _ Hs' _ _ Hin _.
      apply candidates_lookup in Hin as [Hj Ht].
      cbn [staff_pool record_assignment set_completed set_staff_pool].
      rewrite list_lookup_insert_ne; [done|]. intros ->.
      rewrite Hs' in Hj. injection Hj as <-. discriminate Ht. }
  assert (Hinv1 : engine_invariant e1) by (by apply run_invariant).
  assert (H2 : staff_pool e2 !! 2%nat = Some s0).
  { subst e2. clearbody e1 g1. clear -Hinv1 H1. revert e1 g1 Hinv1 H1.
    induction after as [|[scen d] after IH]; intros e1 g1 Hinv1 H1; [done|].
    cbn [run_many].
    pose proof (run_invariant scen d e1 g1 Hinv1) as Hinv'.
    pose proof (run_keeps_unavailable_member scen d e1 g1 2 s0 Hinv1 H1
                  eq_refl) as H'.
    destruct (run scen d e1 g1) as [[res e'] g']. by apply IH. }
  split; [by rewrite H1, Hs|]. split; [by rewrite H1, H2|].
  assert (Hinv2 : engine_invariant e2) by (by apply run_many_invariant).
  destruct Hinv as (_ & _ & _ & Hl). destruct Hinv2 as (_ & _ & _ & Hl2).
  rewrite Forall_lookup in Hl, Hl2.
  specialize (Hl 2%nat s Hs). specialize (Hl2 2%nat s0 H2).
  cbn in Hl2. rewrite Hid in Hl, Hl2. congruence.
Qed.

Lemma member_advances_refl (s : StaffMember) : member_advances s s.
Proof. unfold member_advances. repeat split; (done || lia). Qed.

Lemma member_advances_trans (s1 s2 s3 : StaffMember) :
  member_advances s1 s2 -> member_advances s2 s3 -> member_advances s1 s3.
Proof.
  intros (H1 & H2 & H3 & H4 & H5) (H1' & H2' & H3' & H4' & H5').
  unfold member_advances. repeat split; try congruence; try lia. tauto.
Qed.

(** [prepared] leaves each member as it is or clears its flag. *)
Lemma prepared_members (scen : string) (e : SimulationEngine) :
  Forall2 (fun s s' => s' = s \/ s' = set_is_available s false)
    (staff_pool e) (staff_pool (prepared scen e)).
Proof.
  assert (Hrefl : forall l : list StaffMember,
             Forall2 (fun s s' => s' = s \/ s' = set_is_available s false) l l).
  { intros l. apply Forall_Forall2_diag, Forall_forall. by left. }
  unfold prepared. destruct (String.eqb scen "staff_absence"); [|apply Hrefl].
  cbn [staff_pool set_scenario].
  destruct (staff_pool e !! 2%nat) as [s|] eqn:Hs; [|apply Hrefl].
  cbn [staff_pool set_staff_pool].
  apply Forall2_same_length_lookup_2; [by rewrite length_insert|].
  intros j x y Hx Hy. destruct (decide (2%nat = j)) as [<-|Hne].
  - rewrite list_lookup_insert_eq in Hy by (by eapply lookup_lt_Some).
    simplify_eq. by right.
  - rewrite list_lookup_insert_ne in Hy by done. simplify_eq. by left.
Qed.

(** X20: over a run, every roster member keeps its identifier and its
    college, its next-available time and its assignment count do not
    decrease, and its availability flag is never set back: the roster only
    moves forward. *)
Theorem roster_only_advances (sched alloc : string)
    (clock : nat -> datetime) (calls : list (string * Z)) (g0 : RandomSource)
    (scen : string) (duration_min : Z) :
  let e := (run_many calls (new_engine sched alloc clock) g0).1 in
  let g := (run_many calls (new_engine sched alloc clock) g0).2 in
  Forall2 member_advances (staff_pool e)
    (staff_pool (run scen duration_min e g).1.2).
Proof.
  intros e g.
  pose proof (reachable_invariant sched alloc clock calls g0) as Hinv.
  fold e in Hinv.
  apply (run_preserves
           (fun e' => Forall2 member_advances (staff_pool e) (staff_pool e')));
    [done| |].
  - eapply Forall2_impl; [apply prepared_members|].
    intros s s' [->| ->]; [apply member_advances_refl|].
    unfold member_advances. cbn. repeat split; (done || lia).
  - intros e' req i s c g' _ _ Hf _ _ Hin Hc.
    apply candidates_lookup in Hin as [Hi _].
    pose proof (processing_time_nonneg c g'
                  ltac:(by eapply table_complexity_pos)) as Hpt.
    set (m := (uniform _ _ g').1) in *. clearbody m.
    cbn [staff_pool record_assignment set_completed set_staff_pool].
    eapply Forall2_compose; [apply member_advances_trans|exact Hf|].
    apply Forall2_same_length_lookup_2; [by rewrite length_insert|].
    intros j x y Hx Hy. destruct (decide (i = j)) as [<-|Hne].
    + rewrite list_lookup_insert_eq in Hy by (by eapply lookup_lt_Some).
      simplify_eq. unfold member_advances. cbn.
      rewrite py_max_Zmax. repeat split; (done || lia).
    + rewrite list_lookup_insert_ne in Hy by done. simplify_eq.
      apply member_advances_refl.
Qed.

(** ** The requests a run completes *)

(** Every request a run appends is a request of its batch that lies within
    the horizon, with the allocation fields filled in. *)
Lemma run_added_from_batch (scen : string) (duration_min : Z)
    (e : SimulationEngine) (g : RandomSource) :
  engine_invariant e ->
  exists added,
    completed (run scen duration_min e g).1.2 = completed e ++ added /\
    Forall (fun r => exists req,
              batch_request scen duration_min e req /\
              submission_time req <= start_time e + duration_min * 60000000 /\
              base_fields r = base_fields req) added.
Proof.
  intros Hinv.
  apply (run_preserves
           (fun e' => exists added,
              completed e' = completed e ++ added /\
              Forall (fun r => exists req,
                        batch_request scen duration_min e req /\
                        submission_time req
                          <= start_time e + duration_min * 60000000 /\
                        base_fields r = base_fields req) added)); [done| |].
  - exists []. destruct (prepared_fields scen e) as (_ & _ & _ & -> & _).
    by rewrite app_nil_r.
  - intros e' req i s c g' _ _ (added & Hco & Hf) Hb Hle _ _.
    exists (added ++ [assigned_to req s (uniform (c * 3 * (8 # 10))
                                           (c * 3 * (12 # 10)) g').1]).
    cbn [completed record_assignment set_completed].
    rewrite Hco, app_assoc. split; [done|].
    apply Forall_app. split; [done|]. constructor; [|constructor].
    by exists req.
Qed.

Lemma time_offset_nonneg (d : Z) (n i : nat) :
  (0 < n)%nat -> 0 <= d -> 0 <= time_offset d n i.
Proof.
  intros Hn Hd. unfold time_offset, timedelta_minutes.
  apply round_half_even_nonneg.
  assert (HD : (0 <= inject_Z d)%Q)
    by (change 0%Q with (inject_Z 0); rewrite <- Zle_Qle; lia).
  assert (HN : (0 < inject_Z (Z.of_nat n))%Q)
    by (change 0%Q with (inject_Z 0); rewrite <- Zlt_Qlt; lia).
  assert (HI : (0 <= inject_Z (Z.of_nat i))%Q)
    by (change 0%Q with (inject_Z 0); rewrite <- Zle_Qle; lia).
  assert (Hc : (0 <= inject_Z d / inject_Z (Z.of_nat n))%Q)
    by (apply Qle_shift_div_l; [done|lra]).
  set (c := (inject_Z d / inject_Z (Z.of_nat n))%Q) in *. clearbody c.
  set (I := inject_Z (Z.of_nat i)) in *. clearbody I. nra.
Qed.

(** X21: every request a run appends to the completed list is a request
    of the batch of that run: it carries a batch identifier, was submitted
    not after the end of the horizon (and not before the engine's start time
    when the duration is not negative), at the offset of its index when the
    duration is in range, and its college is one of [COLLEGES]. *)
Theorem completed_requests_lie_in_horizon (sched alloc : string)
    (clock : nat -> datetime) (calls : list (string * Z)) (g0 : RandomSource)
    (scen : string) (duration_min : Z) :
  let e := (run_many calls (new_engine sched alloc clock) g0).1 in
  let g := (run_many calls (new_engine sched alloc clock) g0).2 in
  exists added,
    completed (run scen duration_min e g).1.2 = completed e ++ added /\
    Forall (fun r => exists i,
              (i < total_requests_of scen)%nat /\
              request_id r = ("REQ" ++ format_04d i)%string /\
              (duration_in_range duration_min = true ->
               submission_time r =
                 start_time e +
                 time_offset duration_min (total_requests_of scen) i) /\
              submission_time r <= start_time e + duration_min * 60000000 /\
              (0 <= duration_min -> start_time e <= submission_time r) /\
              college r ∈ COLLEGES) added.
Proof.
  intros e g.
  destruct (run_added_from_batch scen duration_min e g
              (reachable_invariant sched alloc clock calls g0))
    as (added & Hco & Hf).
  exists added. split; [done|].
  eapply Forall_impl; [exact Hf|]. intros r (req & Hb & Hle & Hbase).
  destruct Hb as (i & Hi & (Hid & Hcol & _ & _ & _ & Hsub & _) & _).
  unfold base_fields in Hbase. injection Hbase as -> -> _ _ _ -> _.
  exists i. split; [done|]. split; [done|]. split; [done|]. split; [done|].
  split; [|by eapply colleges_of_subset].
  intros Hd. rewrite Hsub.
  pose proof (total_requests_of_range scen) as Hn.
  pose proof (time_offset_nonneg duration_min (total_requests_of scen) i
                ltac:(lia) Hd) as Ho.
  unfold time_offset in Ho. lia.
Qed.

Lemma score_in_run_bound (r : DocumentRequest) (now : datetime) :
  now <= submission_time r -> 3 <= urgency r <= 10 ->
  (score r now <= 67 # 80)%Q.
Proof.
  intros Hsub Hurg.
  destruct (inject_Z_range 3 10 _ Hurg) as [Hu0 Hu1].
  destruct (inject_Z_range 3 10 _ (requester_weight_cases r)) as [Hr0 Hr1].
  assert (Hw : (waiting_norm r now <= 0)%Q).
  { unfold waiting_norm.
    assert (Hm : (waiting_minutes r now <= 0)%Q).
    { unfold waiting_minutes, total_seconds.
      assert (inject_Z (now - submission_time r) <= 0)%Q
        by (change 0%Q with (inject_Z 0); rewrite <- Zle_Qle; lia).
      set (x := inject_Z _) in *. clearbody x. no_div. lra. }
    destruct (py_min_cases (waiting_minutes r now / 120) 1)
      as [[_ ->]|[Hlt ->]]; no_div; lra. }
  unfold score, urgency_norm, requester_norm, doc_norm.
  unfold PRIORITY_WEIGHTS.urgency, PRIORITY_WEIGHTS.requester_type,
    PRIORITY_WEIGHTS.waiting_time, PRIORITY_WEIGHTS.document_type.
  set (u := inject_Z (urgency r)) in *.
  set (w := inject_Z (get_default _ _ _)) in *.
  set (wn := waiting_norm r now) in *.
  clearbody u w wn.
  change (inject_Z 3) with 3%Q in *. change (inject_Z 10) with 10%Q in *.
  destruct (doc_complexity_cases r) as [-> | [-> | [-> | [-> | ->]]]];
    no_div; lra.
Qed.

(** X22: on an engine built with a scheduler kind written in ASCII, a
    request completed by a run carries the score [run] gave it: 0 under
    every scheduler but the weighted one, and under the weighted one the
    score computed against the engine's start time, not against the time of
    the run or of the assignment. With a non-negative duration the waiting
    factor is then never positive and the score is at most 0.8375. *)
Theorem scores_of_completed_requests (sched alloc : string)
    (clock : nat -> datetime) (calls : list (string * Z)) (g0 : RandomSource)
    (scen : string) (duration_min : Z) :
  is_ascii sched = true ->
  let e := (run_many calls (new_engine sched alloc clock) g0).1 in
  let g := (run_many calls (new_engine sched alloc clock) g0).2 in
  exists added,
    completed (run scen duration_min e g).1.2 = completed e ++ added /\
    Forall (fun r =>
              priority_score r =
                (if String.eqb (upper sched) "WEIGHTED"
                 then score r (start_time e) else 0%Q) /\
              (0 <= duration_min -> (priority_score r <= 67 # 80)%Q)) added.
Proof.
  intros _ e g.
  pose proof (reachable_invariant sched alloc clock calls g0) as Hinv.
  destruct (run_many_keeps_strategy calls (new_engine sched alloc clock) g0
              (new_engine_invariant sched alloc clock)) as [Hs _].
  fold e in Hinv, Hs. cbn [scheduler_type new_engine] in Hs.
  destruct (run_added_from_batch scen duration_min e g Hinv)
    as (added & Hco & Hf).
  exists added. split; [done|].
  eapply Forall_impl; [exact Hf|]. intros r (req & Hb & Hle & Hbase).
  destruct Hb as (i & Hi & (_ & _ & _ & Hurg & _ & Hsub & _) & Hp).
  rewrite Hs in Hp.
  assert (Hscore : score r (start_time e) = score req (start_time e)).
  { unfold base_fields in Hbase. injection Hbase as _ _ Hd Hu Hr Ht _.
    unfold score, urgency_norm, requester_norm, waiting_norm,
      waiting_minutes, doc_norm, doc_complexity.
    by rewrite Hd, Hu, Hr, Ht. }
  assert (Hpr : priority_score r = priority_score req).
  { unfold base_fields in Hbase. by injection Hbase. }
  rewrite Hpr, Hscore. split; [done|]. intros Hd. rewrite Hp.
  destruct (String.eqb (upper sched) "WEIGHTED"); [|done].
  apply score_in_run_bound.
  - rewrite Hsub.
    pose proof (total_requests_of_range scen) as Hn.
    pose proof (time_offset_nonneg duration_min (total_requests_of scen) i
                  ltac:(lia) Hd) as Ho.
    unfold time_offset in Ho. lia.
  - by destruct (urgency_range_of_bounds scen _ Hurg) as (H1 & _).
Qed.

Lemma scores_of_completed_requests_witness :
  is_ascii "Weighted" = true /\
  let e := (run_many [("baseline", 60)]
              (new_engine "Weighted" "pooled" (fun _ => 0)) (fun _ => 0%N)).1 in
  let g := (run_many [("baseline", 60)]
              (new_engine "Weighted" "pooled" (fun _ => 0)) (fun _ => 0%N)).2 in
  exists added,
    completed (run "peak_urgency" 30 e g).1.2 = completed e ++ added /\
    Forall (fun r =>
              priority_score r =
                (if String.eqb (upper "Weighted") "WEIGHTED"
                 then score r (start_time e) else 0%Q) /\
              (0 <= 30 -> (priority_score r <= 67 # 80)%Q)) added.
Proof.
  split; [reflexivity|].
  apply (scores_of_completed_requests "Weighted" "pooled" (fun _ => 0)
           [("baseline", 60)] (fun _ => 0%N) "peak_urgency" 30).
  reflexivity.
Defined.

(** The loop completes the requests of its list in list order, each at
    most once. *)
Lemma process_all_added_sublist (end_time : datetime)
    (reqs : list DocumentRequest) (e : SimulationEngine) (g : RandomSource) :
  exists added,
    completed (process_all end_time reqs e g).1.2 = completed e ++ added /\
    (request_id <$> added) `sublist_of` (request_id <$> reqs).
Proof.
  revert e g. induction reqs as [|req reqs IH]; intros e g.
  - exists []. by rewrite app_nil_r.
  - cbn [process_all]. unfold mbind, M_bind.
    destruct (process_request_outcome end_time req e g)
      as [?|? ?|i s g' ? Hin Hk|i s g' c ? Ha Hin Hk m]; cbn [fst snd].
    + destruct (IH e g) as (added & Hco & Hsub). exists added.
      split; [done|]. by apply sublist_cons.
    + destruct (IH e g) as (added & Hco & Hsub). exists added.
      split; [done|]. by apply sublist_cons.
    + exists []. rewrite app_nil_r. split; [done|]. apply sublist_nil_l.
    + destruct (IH (record_assignment e req i s m) (rs_next g').2)
        as (added & Hco & Hsub).
      exists (assigned_to req s m :: added). rewrite Hco.
      cbn [completed record_assignment set_completed].
      rewrite <- app_assoc. split; [done|]. cbn. by apply sublist_skip.
Qed.

Lemma scored_batch_ids (e : SimulationEngine) (rs : list DocumentRequest) :
  request_id <$> scored_batch e rs = request_id <$> rs.
Proof.
  unfold scored_batch. destruct (String.eqb _ _); [|done].
  rewrite <- list_fmap_compose. done.
Qed.

Lemma generated_ids (scen : string) (duration_min : Z)
    (e : SimulationEngine) (n : nat) (rs : list DocumentRequest) :
  Forall2 (fun k r =>
             generated scen duration_min (total_requests_of scen) e k r /\
             priority_score r = 0%Q) (seq 0 n) rs ->
  request_id <$> rs = (fun i => ("REQ" ++ format_04d i)%string) <$> seq 0 n.
Proof.
  generalize (seq 0 n). intros l Hrs.
  induction Hrs as [|i r l rs ((Hid & _) & _) _ IH]; cbn; [done|].
  by rewrite Hid, IH.
Qed.

(** [run_unfold], with the identifiers of the batch. *)
Lemma run_unfold_ids (scen : string) (duration_min : Z)
    (e : SimulationEngine) (g : RandomSource) :
  engine_invariant e ->
  exists rs g1,
    request_id <$> run_order e rs ≡ₚ
      (fun i => ("REQ" ++ format_04d i)%string)
        <$> seq 0 (total_requests_of scen) /\
    run scen duration_min e g =
      if known_scheduler e then
        match process_all (start_time e + duration_min * 60000000)
                (run_order e rs) (prepared scen e) g1 with
        | (Ok _, e2, g2) => _calculate_metrics duration_min e2 g2
        | (Raise x, e2, g2) => (Raise x, e2, g2)
        end
      else
        (Raise (ValueError
                  ("Unknown scheduler type: " ++ scheduler_type e)%string),
         prepared scen e, g1).
Proof.
  intros Hinv.
  destruct (_generate_requests_full scen duration_min e g Hinv)
    as (rs & g1 & Hgen & Hrs).
  exists rs, g1. split.
  { rewrite run_order_Permutation, scored_batch_ids.
    by rewrite (generated_ids _ _ _ _ _ Hrs). }
  unfold run, mbind, M_bind. rewrite Hgen. unfold get_self.
  destruct (prepared_fields scen e) as (Hs & _ & Hst & _).
  rewrite Hs, Hst, timedelta_minutes_inject_Z.
  unfold known_scheduler, run_order, scored_batch.
  destruct (String.eqb (scheduler_type e) "FCFS") eqn:Hf.
  - cbn [orb]. reflexivity.
  - destruct (String.eqb (scheduler_type e) "WEIGHTED") eqn:Hw; reflexivity.
Qed.

(** X23: within one run no request of the batch is completed twice: the
    identifiers of the requests the run appends are pairwise distinct, and
    there are at most as many as the batch has requests. *)
Theorem run_completes_each_request_once (sched alloc : string)
    (clock : nat -> datetime) (calls : list (string * Z)) (g0 : RandomSource)
    (scen : string) (duration_min : Z) :
  let e := (run_many calls (new_engine sched alloc clock) g0).1 in
  let g := (run_many calls (new_engine sched alloc clock) g0).2 in
  exists added,
    completed (run scen duration_min e g).1.2 = completed e ++ added /\
    NoDup (request_id <$> added) /\
    (length added <= total_requests_of scen)%nat.
Proof.
  intros e g.
  pose proof (reachable_invariant sched alloc clock calls g0) as Hinv.
  fold e in Hinv.
  destruct (run_unfold_ids scen duration_min e g Hinv)
    as (rs & g1 & Hids & Hrun).
  destruct (prepared_fields scen e) as (_ & _ & _ & Hco1 & _).
  rewrite Hrun. destruct (known_scheduler e); cycle 1.
  { exists []. cbn [fst snd]. rewrite Hco1, app_nil_r.
    split; [done|]. split; [constructor|cbn; lia]. }
  destruct (process_all_added_sublist
              (start_time e + duration_min * 60000000) (run_order e rs)
              (prepared scen e) g1) as (added & Hco & Hsub).
  exists added.
  assert (Hst : (match process_all
                         (start_time e + duration_min * 60000000)
                         (run_order e rs) (prepared scen e) g1 with
                 | (Ok _, e2, g2) => _calculate_metrics duration_min e2 g2
                 | (Raise x, e2, g2) => (Raise x, e2, g2)
                 end).1.2 =
                (process_all (start_time e + duration_min * 60000000)
                   (run_order e rs) (prepared scen e) g1).1.2).
  { destruct (process_all _ _ _ g1) as [[[[]|x] e2] g2]; cbn [fst snd];
      [apply _calculate_metrics_state|done]. }
  rewrite Hst, Hco, Hco1. split; [done|].
  pose proof (total_requests_of_range scen) as Hn.
  assert (Hnd : NoDup (request_id <$> run_order e rs)).
  { rewrite Hids. apply batch_ids_NoDup. lia. }
  split; [by eapply sublist_NoDup|].
  apply sublist_length in Hsub. rewrite !length_fmap in Hsub.
  apply Permutation_length in Hids.
  rewrite !length_fmap, length_seq in Hids. lia.
Qed.

(** ** The report *)

Lemma sum_mono_acc (l1 l2 : list Q) (a b : Q) :
  Forall2 Qle l1 l2 -> (a <= b)%Q ->
  (fold_left Qplus l1 a <= fold_left Qplus l2 b)%Q.
Proof.
  intros H. revert a b. induction H as [|x y l1 l2 Hxy _ IH]; intros a b Hab;
    [done|].
  cbn. apply IH. lra.
Qed.

Lemma sum_nonneg_acc (l : list Q) (a : Q) :
  Forall (Qle 0) l -> (0 <= a)%Q -> (0 <= fold_left Qplus l a)%Q.
Proof.
  intros H. revert a. induction H as [|x l Hx _ IH]; intros a Ha; [done|].
  cbn. apply IH. lra.
Qed.

Lemma round2_mono (x y : Q) : (x <= y)%Q -> (round2 x <= round2 y)%Q.
Proof.
  intros H. unfold round2.
  assert (Hr : round_half_even (x * 100) <= round_half_even (y * 100))
    by (apply round_half_even_mono; lra).
  rewrite Zle_Qle in Hr.
  set (a := inject_Z (round_half_even (x * 100))) in *.
  set (b := inject_Z (round_half_even (y * 100))) in *.
  clearbody a b. no_div. lra.
Qed.

Lemma round2_nonneg (x : Q) : (0 <= x)%Q -> (0 <= round2 x)%Q.
Proof.
  intros H. unfold round2.
  assert (Hr : 0 <= round_half_even (x * 100))
    by (apply round_half_even_nonneg; lra).
  rewrite Zle_Qle in Hr. change (inject_Z 0) with 0%Q in Hr.
  set (a := inject_Z (round_half_even (x * 100))) in *.
  clearbody a. no_div. lra.
Qed.

Lemma waiting_le_turnaround (r : DocumentRequest) :
  completed_ok r ->
  (0 <= get_waiting_time_minutes r)%Q /\
  (get_waiting_time_minutes r <= get_turnaround_time_minutes r)%Q.
Proof.
  intros (a & c & sid & Ha & Hc & _ & Hsa & Hac).
  unfold get_waiting_time_minutes, get_turnaround_time_minutes, total_seconds.
  rewrite Ha, Hc.
  assert (H0 : (0 <= inject_Z (a - submission_time r))%Q)
    by (change 0%Q with (inject_Z 0); rewrite <- Zle_Qle; lia).
  assert (H1 : (inject_Z (a - submission_time r)
                <= inject_Z (c - submission_time r))%Q)
    by (rewrite <- Zle_Qle; lia).
  set (x := inject_Z (a - _)) in *. set (y := inject_Z (c - _)) in *.
  clearbody x y. no_div. split; lra.
Qed.

Lemma averages_ordered (l : list DocumentRequest) :
  l <> [] -> Forall completed_ok l ->
  let w := map get_waiting_time_minutes l in
  let t := map get_turnaround_time_minutes l in
  (0 <= round2 (sum w / len w))%Q /\
  (round2 (sum w / len w) <= round2 (sum t / len t))%Q.
Proof.
  intros Hne Hok w t.
  assert (Hlen : (0 < len w)%Q /\ len t = len w).
  { unfold len, w, t. rewrite !length_map. split; [|done].
    change 0%Q with (inject_Z 0). rewrite <- Zlt_Qlt.
    destruct l; [done|cbn; lia]. }
  destruct Hlen as [Hpos ->].
  assert (Hw : (0 <= sum w)%Q).
  { unfold sum. apply sum_nonneg_acc; [|lra]. unfold w.
    apply Forall_forall. intros x Hx. apply list_elem_of_In in Hx.
    apply in_map_iff in Hx as (r & <- & Hr). apply list_elem_of_In in Hr.
    rewrite Forall_forall in Hok. by apply waiting_le_turnaround, Hok. }
  assert (Hwt : (sum w <= sum t)%Q).
  { unfold sum. apply sum_mono_acc; [|lra]. unfold w, t. clear -Hok.
    induction Hok as [|r l Hr _ IH]; cbn; constructor; [|done].
    by apply waiting_le_turnaround. }
  split.
  - apply round2_nonneg. apply Qle_shift_div_l; [done|]. lra.
  - apply round2_mono. apply Qle_shift_div_l; [done|].
    assert (E : (sum w / len w * len w == sum w)%Q) by (field; lra).
    rewrite E. done.
Qed.

(** X24: in every report [run] returns, the average waiting time is not
    negative and does not exceed the average turnaround time. *)
Theorem report_waiting_le_turnaround (sched alloc : string)
    (clock : nat -> datetime) (calls : list (string * Z)) (g0 : RandomSource)
    (scen : string) (duration_min : Z) :
  let e := (run_many calls (new_engine sched alloc clock) g0).1 in
  let g := (run_many calls (new_engine sched alloc clock) g0).2 in
  match (run scen duration_min e g).1.1 with
  | Ok r =>
      (0 <= Report.avg_waiting_time r)%Q /\
      (Report.avg_waiting_time r <= Report.avg_turnaround r)%Q
  | Raise _ => True
  end.
Proof.
  intros e g.
  pose proof (reachable_invariant sched alloc clock calls g0) as Hinv.
  fold e in Hinv.
  destruct (known_scheduler e) eqn:Hk; cycle 1.
  { destruct (run_unfold scen duration_min e g Hinv) as (rs & g1 & _ & _ & ->).
    by rewrite Hk. }
  rewrite (run_result scen duration_min e g Hinv Hk).
  pose proof (run_invariant scen duration_min e g Hinv) as (_ & Hok & _).
  set (e' := (run scen duration_min e g).1.2) in *. clearbody e'.
  unfold _calculate_metrics, mbind, M_bind, get_self.
  destruct (completed e') as [|r0 l] eqn:E; [cbn; split; lra|].
  destruct (Qeq_bool _ _); [done|]. cbn [fst snd mret M_ret].
  cbn [Report.avg_waiting_time Report.avg_turnaround].
  apply averages_ordered; done.
Qed.

(** ** Construction and the HTTP layer *)

(** X25: an allocator name selects the college-based allocator exactly
    when it is not one of [workload_based], [pooled] and [quota_free]: an
    unknown name is not an error, it silently gives the college-based
    allocator. *)
Theorem unknown_allocator_is_college_based (allocator_type : string) :
  _create_allocator allocator_type = CollegeBasedAllocator <->
  allocator_type <> "workload_based" /\ allocator_type <> "pooled" /\
  allocator_type <> "quota_free".
Proof.
  unfold _create_allocator, get_default. cbn [table_get].
  destruct (String.eqb_spec "college_based" allocator_type) as [<-|H0].
  { split; [intros _; repeat split; discriminate|done]. }
  destruct (String.eqb_spec "workload_based" allocator_type) as [<-|H1].
  { split; [discriminate|]. by intros (H & _). }
  destruct (String.eqb_spec "pooled" allocator_type) as [<-|H2].
  { split; [discriminate|]. by intros (_ & H & _). }
  destruct (String.eqb_spec "quota_free" allocator_type) as [<-|H3].
  { split; [discriminate|]. by intros (_ & _ & H). }
  split; [|done]. intros _. repeat split; congruence.
Qed.

Lemma scheduler_map_recognized (label : string) :
  recognized (get_default scheduler_map label "FCFS") = true.
Proof.
  unfold scheduler_map, get_default. cbn [table_get].
  repeat (match goal with |- context [String.eqb ?a ?b] =>
                            destruct (String.eqb a b) end); reflexivity.
Qed.

(** X26: for a body whose duration is in range, the handler of
    [/api/simulate] answers 500 only for a missing label, reported as the
    [KeyError] of the first missing key, or for a duration of 0, reported as
    [ZeroDivisionError]; the engine's unknown-scheduler error cannot occur,
    because every label is mapped to a recognized scheduler kind. An answer
    200 carries a report labelled with the mapped scenario name. *)
Theorem simulate_status (data : Payload) (clock : nat -> datetime)
    (g : RandomSource) :
  payload_in_range data = true ->
  match simulate data clock g with
  | Response200 r =>
      exists sch al sc,
        payload_scheduler data = Some sch /\
        payload_allocator data = Some al /\
        payload_scenario data = Some sc /\
        Report.scenario r = get_default scenario_map sc "baseline"
  | Response500 x =>
      (payload_scheduler data = None /\ x = KeyError "scheduler") \/
      (payload_scheduler data <> None /\ payload_allocator data = None /\
       x = KeyError "allocator") \/
      (payload_scheduler data <> None /\ payload_allocator data <> None /\
       payload_scenario data = None /\ x = KeyError "scenario") \/
      (payload_duration_minutes data = Some 0 /\ x = ZeroDivisionError)
  end.
Proof.
  intros _. unfold simulate.
  destruct (payload_scheduler data) as [sch|]; cbn [subscript]; [|by left].
  destruct (payload_allocator data) as [al|]; cbn [subscript];
    [|right; left; done].
  destruct (payload_scenario data) as [sc|]; cbn [subscript];
    [|right; right; left; done].
  set (e := new_engine _ _ clock).
  set (d := match payload_duration_minutes data with
            | Some d => d | None => 60 end).
  set (scen := get_default scenario_map sc "baseline").
  pose proof (new_engine_invariant (get_default scheduler_map sch "FCFS")
                (get_default allocator_map al "college_based") clock) as Hinv.
  fold e in Hinv.
  assert (Hk : known_scheduler e = true).
  { pose proof (reachable_known_scheduler
                  (get_default scheduler_map sch "FCFS")
                  (get_default allocator_map al "college_based") clock [] g)
      as H.
    cbn [run_many fst] in H. fold e in H. rewrite H.
    apply scheduler_map_recognized. }
  pose proof (run_result scen d e g Hinv Hk) as Hres.
  assert (Hsc : scenario (run scen d e g).1.2 = scen).
  { destruct (run_spec scen d e g (ROSTER_NoDup e (proj1 Hinv)))
      as (added & (_ & _ & _ & Hsc & _) & _).
    destruct (prepared_fields scen e) as (_ & _ & _ & _ & Hsc1). congruence. }
  destruct (run scen d e g) as [[res e'] g']. cbn [fst snd] in *.
  rewrite Hres.
  destruct (_calculate_metrics_spec d e' g)
    as [(r & E & _ & _ & Hs)|(E & _ & Hz)]; rewrite E; cbn [fst snd].
  - exists sch, al, sc. repeat split. by rewrite Hs, Hsc.
  - right. right. right. split; [|done].
    apply Qeq_bool_duration_hours in Hz. subst d.
    destruct (payload_duration_minutes data); [by subst|discriminate].
Qed.

Lemma simulate_status_witness :
  let data :=
    mkPayload (Some "Weighted Priority-Based") (Some "Pooled Scheduling")
      (Some "Staff Absence") (Some 120) in
  payload_in_range data = true /\
  match simulate data (fun _ => 0) (fun _ => 0%N) with
  | Response200 r =>
      exists sch al sc,
        payload_scheduler data = Some sch /\
        payload_allocator data = Some al /\
        payload_scenario data = Some sc /\
        Report.scenario r = get_default scenario_map sc "baseline"
  | Response500 x =>
      (payload_scheduler data = None /\ x = KeyError "scheduler") \/
      (payload_scheduler data <> None /\ payload_allocator data = None /\
       x = KeyError "allocator") \/
      (payload_scheduler data <> None /\ payload_allocator data <> None /\
       payload_scenario data = None /\ x = KeyError "scenario") \/
      (payload_duration_minutes data = Some 0 /\ x = ZeroDivisionError)
  end.
Proof.
  intros data. split; [reflexivity|].
  apply (simulate_status data (fun _ => 0) (fun _ => 0%N)). reflexivity.
Defined.

(** ** The load map of a report *)

(** X27: in every report [run] returns, [staff_load] has one entry for
    each of the six roster members and no other; the entry of a member is
    the number of completed requests, earlier runs included, assigned to
    it, and the entries sum to [total_processed]. *)
Theorem report_staff_load_counts_completed (sched alloc : string)
    (clock : nat -> datetime) (calls : list (string * Z)) (g0 : RandomSource)
    (scen : string) (duration_min : Z) :
  let e := (run_many calls (new_engine sched alloc clock) g0).1 in
  let g := (run_many calls (new_engine sched alloc clock) g0).2 in
  let e' := (run scen duration_min e g).1.2 in
  match (run scen duration_min e g).1.1 with
  | Ok r =>
      size (Report.staff_load r) = 6%nat /\
      load_total (Report.staff_load r) = Report.total_processed r /\
      forall sid n,
        Report.staff_load r !! sid = Some n <->
        sid ∈ (fun x => x.1.1) <$> ROSTER /\ n = load_of sid (completed e')
  | Raise _ => True
  end.
Proof.
  intros e g e'.
  pose proof (reachable_invariant sched alloc clock calls g0) as Hinv.
  fold e in Hinv.
  destruct (known_scheduler e) eqn:Hk; cycle 1.
  { destruct (run_unfold scen duration_min e g Hinv) as (rs & g1 & _ & _ & ->).
    by rewrite Hk. }
  rewrite (run_result scen duration_min e g Hinv Hk). fold e'.
  pose proof (run_invariant scen duration_min e g Hinv) as Hinv'.
  fold e' in Hinv'. clearbody e'.
  destruct Hinv' as (Hro & _ & Hsum & Hload).
  pose proof (ROSTER_NoDup e' Hro) as Hnd.
  destruct (_calculate_metrics_spec duration_min e' g)
    as [(r & E & Ht & Hl & _)|(E & _)]; rewrite E; cbn [fst snd]; [|done].
  rewrite Hl, Ht. split; [|split].
  - rewrite staff_load_of_size by done.
    rewrite <- (length_fmap (fun s => (staff_id s, name s, college_affiliation s))).
    fold (roster_static e'). by rewrite Hro.
  - by rewrite staff_load_of_total.
  - intros sid n. rewrite staff_load_of_lookup_Some by done.
    rewrite <- Hro, <- roster_static_staff_id. split.
    + intros (i & s & Hs & <- & <-). split.
      * apply list_elem_of_fmap. exists s. split; [done|].
        by eapply list_elem_of_lookup_2.
      * rewrite Forall_lookup in Hload. exact (Hload i s Hs).
    + intros [(s & -> & (i & Hs)%list_elem_of_lookup)%list_elem_of_fmap ->].
      exists i, s. split; [done|]. split; [done|].
      rewrite Forall_lookup in Hload. exact (Hload i s Hs).
Qed.
